(** * Task hand-off agent: task state repository, executor and authorization gate

    A shallow embedding of
      - [src/lib/models/task-state.ts]   (the zod schemas, as records and a validator),
      - [src/lib/github/state-store.ts]  (class [TaskStateStore]),
      - [src/lib/agent/task-executor.ts] (class [TaskExecutor]),
      - [src/lib/agent/index.ts]         ([createAndStartTask], [continueTask]),
      - [src/lib/utils/auth.ts]          ([validateAuth], [getAuthInfo]),
      - the routes [api/agent/continue] and [api/agent/handoff].

    The remote repository is a finite map from paths to documents.  Every
    [async] method becomes a function from the world to an outcome (a value
    or a thrown exception) and the world after it: what was written before a
    [throw] stays written, as on the remote store. *)

From Stdlib Require Import String Ascii ZArith List Bool Lia.
From stdpp Require Import gmap strings list fin_maps.

Open Scope string_scope.
Open Scope Z_scope.
Open Scope list_scope.

(** ** Data model ([task-state.ts])

    A JavaScript string is a [string]; one character is one code unit, and
    only the code units below 256 have one.  The numbers of the schema
    ([version], [percentComplete], [issueNumber]) are the integers among
    the JavaScript numbers, in [Z]; the one sum the code computes on them is
    [js_add_one].  An [.optional()] key is an [option]. *)

Inductive TaskStatus :=
  | pending | in_progress | awaiting_handoff | handed_off
  | completed | failed | cancelled.

Inductive FileAction := created | modified | deleted.

Inductive Role := user | assistant | system.

Inductive ResourceType := res_file | res_url | res_documentation.

Record FileModification := {
  fm_path : string;
  fm_action : FileAction;
  fm_previousHash : option string;
  fm_currentHash : string;
  fm_summary : string }.

(** [input] of a recorded tool call is an arbitrary JSON record; it is kept
    in its serialized form. *)
Record ToolCallRecord := {
  tc_name : string;
  tc_input : string;
  tc_result : option string }.

Record ConversationMessage := {
  msg_role : Role;
  msg_content : string;
  msg_timestamp : string;
  msg_toolCalls : option (list ToolCallRecord) }.

Record ProgressCheckpoint := {
  cp_id : string;
  cp_timestamp : string;
  cp_description : string;
  cp_completedSteps : list string;
  cp_remainingSteps : list string;
  cp_blockers : option (list string) }.

Record AgentIdentity := {
  ai_userId : string;
  ai_agentId : string;
  ai_sessionId : string;
  ai_startedAt : string;
  ai_endedAt : option string }.

Record HandoffRecord := {
  ho_fromAgent : AgentIdentity;
  ho_toAgent : option AgentIdentity;
  ho_handoffAt : string;
  ho_reason : string;
  ho_instructions : string }.

Record Resource := {
  rs_type : ResourceType;
  rs_path : string;
  rs_description : string }.

Record Github := {
  gh_repo : string;
  gh_branch : string;
  gh_stateRepo : string;
  gh_issueNumber : option Z;
  gh_prNumber : option Z;
  gh_commitSha : option string }.

Record Session := {
  se_currentSessionId : string;
  se_transcriptPath : string;
  se_lastMessageUuid : option string }.

Record Context := {
  cx_systemPrompt : option string;
  cx_conversationHistory : list ConversationMessage;
  cx_compactedSummary : option string }.

Record Progress := {
  pg_currentPhase : string;
  pg_checkpoints : list ProgressCheckpoint;
  pg_percentComplete : Z }.

Record Files := {
  fl_modifications : list FileModification;
  fl_workingDirectory : string }.

Record NextSteps := {
  ns_immediate : list string;
  ns_considerations : list string;
  ns_blockers : list string;
  ns_resources : list Resource }.

Record Security := {
  sc_encryptedSecrets : option string;
  sc_allowedAgents : list string;
  sc_requireApproval : bool }.

Record TaskState := {
  ts_id : string;
  ts_version : Z;
  ts_title : string;
  ts_description : string;
  ts_createdAt : string;
  ts_updatedAt : string;
  ts_status : TaskStatus;
  ts_github : Github;
  ts_session : Session;
  ts_context : Context;
  ts_progress : Progress;
  ts_files : Files;
  ts_handoffs : list HandoffRecord;
  ts_nextSteps : NextSteps;
  ts_security : Security }.

(** *** Assignments to a property

    [task.status = v] and the like: the record with one field replaced. *)

Definition set_version (v : Z) (t : TaskState) : TaskState :=
  {| ts_id := ts_id t; ts_version := v; ts_title := ts_title t;
     ts_description := ts_description t; ts_createdAt := ts_createdAt t;
     ts_updatedAt := ts_updatedAt t; ts_status := ts_status t;
     ts_github := ts_github t; ts_session := ts_session t;
     ts_context := ts_context t; ts_progress := ts_progress t;
     ts_files := ts_files t; ts_handoffs := ts_handoffs t;
     ts_nextSteps := ts_nextSteps t; ts_security := ts_security t |}.

Definition set_updatedAt (v : string) (t : TaskState) : TaskState :=
  {| ts_id := ts_id t; ts_version := ts_version t; ts_title := ts_title t;
     ts_description := ts_description t; ts_createdAt := ts_createdAt t;
     ts_updatedAt := v; ts_status := ts_status t;
     ts_github := ts_github t; ts_session := ts_session t;
     ts_context := ts_context t; ts_progress := ts_progress t;
     ts_files := ts_files t; ts_handoffs := ts_handoffs t;
     ts_nextSteps := ts_nextSteps t; ts_security := ts_security t |}.

Definition set_status (v : TaskStatus) (t : TaskState) : TaskState :=
  {| ts_id := ts_id t; ts_version := ts_version t; ts_title := ts_title t;
     ts_description := ts_description t; ts_createdAt := ts_createdAt t;
     ts_updatedAt := ts_updatedAt t; ts_status := v;
     ts_github := ts_github t; ts_session := ts_session t;
     ts_context := ts_context t; ts_progress := ts_progress t;
     ts_files := ts_files t; ts_handoffs := ts_handoffs t;
     ts_nextSteps := ts_nextSteps t; ts_security := ts_security t |}.

Definition set_session (v : Session) (t : TaskState) : TaskState :=
  {| ts_id := ts_id t; ts_version := ts_version t; ts_title := ts_title t;
     ts_description := ts_description t; ts_createdAt := ts_createdAt t;
     ts_updatedAt := ts_updatedAt t; ts_status := ts_status t;
     ts_github := ts_github t; ts_session := v;
     ts_context := ts_context t; ts_progress := ts_progress t;
     ts_files := ts_files t; ts_handoffs := ts_handoffs t;
     ts_nextSteps := ts_nextSteps t; ts_security := ts_security t |}.

Definition set_context (v : Context) (t : TaskState) : TaskState :=
  {| ts_id := ts_id t; ts_version := ts_version t; ts_title := ts_title t;
     ts_description := ts_description t; ts_createdAt := ts_createdAt t;
     ts_updatedAt := ts_updatedAt t; ts_status := ts_status t;
     ts_github := ts_github t; ts_session := ts_session t;
     ts_context := v; ts_progress := ts_progress t;
     ts_files := ts_files t; ts_handoffs := ts_handoffs t;
     ts_nextSteps := ts_nextSteps t; ts_security := ts_security t |}.

Definition set_progress (v : Progress) (t : TaskState) : TaskState :=
  {| ts_id := ts_id t; ts_version := ts_version t; ts_title := ts_title t;
     ts_description := ts_description t; ts_createdAt := ts_createdAt t;
     ts_updatedAt := ts_updatedAt t; ts_status := ts_status t;
     ts_github := ts_github t; ts_session := ts_session t;
     ts_context := ts_context t; ts_progress := v;
     ts_files := ts_files t; ts_handoffs := ts_handoffs t;
     ts_nextSteps := ts_nextSteps t; ts_security := ts_security t |}.

Definition set_files (v : Files) (t : TaskState) : TaskState :=
  {| ts_id := ts_id t; ts_version := ts_version t; ts_title := ts_title t;
     ts_description := ts_description t; ts_createdAt := ts_createdAt t;
     ts_updatedAt := ts_updatedAt t; ts_status := ts_status t;
     ts_github := ts_github t; ts_session := ts_session t;
     ts_context := ts_context t; ts_progress := ts_progress t;
     ts_files := v; ts_handoffs := ts_handoffs t;
     ts_nextSteps := ts_nextSteps t; ts_security := ts_security t |}.

Definition set_handoffs (v : list HandoffRecord) (t : TaskState) : TaskState :=
  {| ts_id := ts_id t; ts_version := ts_version t; ts_title := ts_title t;
     ts_description := ts_description t; ts_createdAt := ts_createdAt t;
     ts_updatedAt := ts_updatedAt t; ts_status := ts_status t;
     ts_github := ts_github t; ts_session := ts_session t;
     ts_context := ts_context t; ts_progress := ts_progress t;
     ts_files := ts_files t; ts_handoffs := v;
     ts_nextSteps := ts_nextSteps t; ts_security := ts_security t |}.

Definition set_nextSteps (v : NextSteps) (t : TaskState) : TaskState :=
  {| ts_id := ts_id t; ts_version := ts_version t; ts_title := ts_title t;
     ts_description := ts_description t; ts_createdAt := ts_createdAt t;
     ts_updatedAt := ts_updatedAt t; ts_status := ts_status t;
     ts_github := ts_github t; ts_session := ts_session t;
     ts_context := ts_context t; ts_progress := ts_progress t;
     ts_files := ts_files t; ts_handoffs := ts_handoffs t;
     ts_nextSteps := v; ts_security := ts_security t |}.

Definition set_sessionId (v : string) (a : AgentIdentity) : AgentIdentity :=
  {| ai_userId := ai_userId a; ai_agentId := ai_agentId a; ai_sessionId := v;
     ai_startedAt := ai_startedAt a; ai_endedAt := ai_endedAt a |}.

Definition set_fromAgent (v : AgentIdentity) (h : HandoffRecord) : HandoffRecord :=
  {| ho_fromAgent := v; ho_toAgent := ho_toAgent h; ho_handoffAt := ho_handoffAt h;
     ho_reason := ho_reason h; ho_instructions := ho_instructions h |}.

Definition set_toAgent (v : AgentIdentity) (h : HandoffRecord) : HandoffRecord :=
  {| ho_fromAgent := ho_fromAgent h; ho_toAgent := Some v;
     ho_handoffAt := ho_handoffAt h; ho_reason := ho_reason h;
     ho_instructions := ho_instructions h |}.

(** [arr[arr.length - 1]] is [last arr]; a mutation of that element, which
    the array shares, is [update_last]. *)
Definition update_last {A} (f : A → A) (l : list A) : list A :=
  alter f (length l - 1)%nat l.

(** [n + 1] on JavaScript numbers, for an integer [n] from -2^53 on.  A
    number is a double.  Every integer up to 2^53 is a double, so below 2^53
    the sum is exact.  From 2^53 to 2^54 the doubles are the even integers:
    [n + 1] lies half way between [n] and [n + 2] and is rounded to the one
    whose significand, its half, is even.  From 2^54 on [n + 1] is rounded
    back to [n]. *)
Definition js_add_one (n : Z) : Z :=
  if n <? 2 ^ 53 then n + 1
  else if n <? 2 ^ 54 then (if Z.even (n / 2) then n else n + 2)
  else n.
Arguments js_add_one : simpl never.

(** ** Objects spread over one another

    [Partial<T>] has an [option] per key of [T]; [{...a, ...b}] takes the
    key from [b] where [b] has it. *)

Definition spread {A} (current : A) (update : option A) : A :=
  default current update.

Record ProgressPartial := {
  pp_currentPhase : option string;
  pp_checkpoints : option (list ProgressCheckpoint);
  pp_percentComplete : option Z }.

Record NextStepsPartial := {
  np_immediate : option (list string);
  np_considerations : option (list string);
  np_blockers : option (list string);
  np_resources : option (list Resource) }.

Record TaskStatePartial := {
  tp_id : option string;
  tp_version : option Z;
  tp_title : option string;
  tp_description : option string;
  tp_createdAt : option string;
  tp_updatedAt : option string;
  tp_status : option TaskStatus;
  tp_github : option Github;
  tp_session : option Session;
  tp_context : option Context;
  tp_progress : option Progress;
  tp_files : option Files;
  tp_handoffs : option (list HandoffRecord);
  tp_nextSteps : option NextSteps;
  tp_security : option Security }.

Definition no_updates : TaskStatePartial :=
  {| tp_id := None; tp_version := None; tp_title := None; tp_description := None;
     tp_createdAt := None; tp_updatedAt := None; tp_status := None;
     tp_github := None; tp_session := None; tp_context := None;
     tp_progress := None; tp_files := None; tp_handoffs := None;
     tp_nextSteps := None; tp_security := None |}.

Definition spread_progress (p : Progress) (u : ProgressPartial) : Progress :=
  {| pg_currentPhase := spread (pg_currentPhase p) (pp_currentPhase u);
     pg_checkpoints := spread (pg_checkpoints p) (pp_checkpoints u);
     pg_percentComplete := spread (pg_percentComplete p) (pp_percentComplete u) |}.

Definition spread_nextSteps (n : NextSteps) (u : NextStepsPartial) : NextSteps :=
  {| ns_immediate := spread (ns_immediate n) (np_immediate u);
     ns_considerations := spread (ns_considerations n) (np_considerations u);
     ns_blockers := spread (ns_blockers n) (np_blockers u);
     ns_resources := spread (ns_resources n) (np_resources u) |}.

Definition spread_task (t : TaskState) (u : TaskStatePartial) : TaskState :=
  {| ts_id := spread (ts_id t) (tp_id u);
     ts_version := spread (ts_version t) (tp_version u);
     ts_title := spread (ts_title t) (tp_title u);
     ts_description := spread (ts_description t) (tp_description u);
     ts_createdAt := spread (ts_createdAt t) (tp_createdAt u);
     ts_updatedAt := spread (ts_updatedAt t) (tp_updatedAt u);
     ts_status := spread (ts_status t) (tp_status u);
     ts_github := spread (ts_github t) (tp_github u);
     ts_session := spread (ts_session t) (tp_session u);
     ts_context := spread (ts_context t) (tp_context u);
     ts_progress := spread (ts_progress t) (tp_progress u);
     ts_files := spread (ts_files t) (tp_files u);
     ts_handoffs := spread (ts_handoffs t) (tp_handoffs u);
     ts_nextSteps := spread (ts_nextSteps t) (tp_nextSteps u);
     ts_security := spread (ts_security t) (tp_security u) |}.

(** ** Exceptions, the remote store and the [async] monad *)

(** What a [throw] carries: an [Error] with its message, a [ZodError] (an
    [Error] too) with the message zod renders from its issues, or a value
    that is not an [Error]. *)
Inductive Thrown :=
  | JsError (message : string)
  | ZodError (message : string)
  | NonError (value : string).

(** [error instanceof Error ? error.message : "Unknown error"] *)
Definition error_message (e : Thrown) : string :=
  match e with
  | JsError m => m
  | ZodError m => m
  | NonError _ => "Unknown error"
  end.

Inductive Outcome (A : Type) :=
  | Return (a : A)
  | Throw (e : Thrown).
Arguments Return {A} a.
Arguments Throw {A} e.

(** A plain JavaScript object with string values, keys in insertion order. *)
Definition JsObject := list (string * string).

Fixpoint prop (o : JsObject) (key : string) : option string :=
  match o with
  | [] => None
  | (k, v) :: o' => if String.eqb k key then Some v else prop o' key
  end.

(** The documents of the state repository: a task's [state.json], or
    [index.json], an object whose [tasks] key may be missing. *)
Inductive Blob :=
  | TaskDoc (t : TaskState)
  | IndexDoc (tasks : option (list JsObject)).

(** Two documents are the same content, and so have the same [sha], when
    they are equal. *)
#[global] Instance TaskStatus_eq_dec : EqDecision TaskStatus.
Proof. solve_decision. Defined.
#[global] Instance FileAction_eq_dec : EqDecision FileAction.
Proof. solve_decision. Defined.
#[global] Instance Role_eq_dec : EqDecision Role.
Proof. solve_decision. Defined.
#[global] Instance ResourceType_eq_dec : EqDecision ResourceType.
Proof. solve_decision. Defined.
#[global] Instance FileModification_eq_dec : EqDecision FileModification.
Proof. solve_decision. Defined.
#[global] Instance ToolCallRecord_eq_dec : EqDecision ToolCallRecord.
Proof. solve_decision. Defined.
#[global] Instance ConversationMessage_eq_dec : EqDecision ConversationMessage.
Proof. solve_decision. Defined.
#[global] Instance ProgressCheckpoint_eq_dec : EqDecision ProgressCheckpoint.
Proof. solve_decision. Defined.
#[global] Instance AgentIdentity_eq_dec : EqDecision AgentIdentity.
Proof. solve_decision. Defined.
#[global] Instance HandoffRecord_eq_dec : EqDecision HandoffRecord.
Proof. solve_decision. Defined.
#[global] Instance Resource_eq_dec : EqDecision Resource.
Proof. solve_decision. Defined.
#[global] Instance Github_eq_dec : EqDecision Github.
Proof. solve_decision. Defined.
#[global] Instance Session_eq_dec : EqDecision Session.
Proof. solve_decision. Defined.
#[global] Instance Context_eq_dec : EqDecision Context.
Proof. solve_decision. Defined.
#[global] Instance Progress_eq_dec : EqDecision Progress.
Proof. solve_decision. Defined.
#[global] Instance Files_eq_dec : EqDecision Files.
Proof. solve_decision. Defined.
#[global] Instance NextSteps_eq_dec : EqDecision NextSteps.
Proof. solve_decision. Defined.
#[global] Instance Security_eq_dec : EqDecision Security.
Proof. solve_decision. Defined.
#[global] Instance TaskState_eq_dec : EqDecision TaskState.
Proof. solve_decision. Defined.
#[global] Instance Blob_eq_dec : EqDecision Blob.
Proof. solve_decision. Defined.

(** The world: the files of the state repository by path, and how many times
    the clock and the UUID generator have been read. *)
Record World := {
  w_files : gmap string Blob;
  w_clock : nat;
  w_uuids : nat }.

Definition Async (A : Type) : Type := World → Outcome A * World.

Definition async_ret {A} (a : A) : Async A := λ w, (Return a, w).

Definition async_throw {A} (e : Thrown) : Async A := λ w, (Throw e, w).

Definition async_bind {A B} (m : Async A) (k : A → Async B) : Async B :=
  λ w, match m w with
       | (Return a, w') => k a w'
       | (Throw e, w') => (Throw e, w')
       end.

(** [try { m } catch (error) { h error }] *)
Definition try_catch {A} (m : Async A) (h : Thrown → Async A) : Async A :=
  λ w, match m w with
       | (Return a, w') => (Return a, w')
       | (Throw e, w') => h e w'
       end.

Notation "'do' x <- m ; k" := (async_bind m (λ x, k))
  (at level 10, x name, m at level 100, k at level 200,
   format "'[v' 'do'  x  <-  m ; '/' k ']'").
Notation "'run' m ; k" := (async_bind m (λ _, k))
  (at level 10, m at level 100, k at level 200,
   format "'[v' 'run'  m ; '/' k ']'").

Definition BASE_PATH : string := ".task-handoff".

Definition state_path (taskId : string) : string :=
  BASE_PATH +:+ "/tasks/" +:+ taskId +:+ "/state.json".

Definition transcript_path (taskId : string) : string :=
  BASE_PATH +:+ "/tasks/" +:+ taskId +:+ "/transcript.json".

Definition index_path : string := BASE_PATH +:+ "/index.json".

(** [octokit.repos.getContent]: the document at a path, [None] for a 404.
    The client is configured and the transport does not fail otherwise; the
    path names a file, so the answer has its [content] and its [sha]. *)
Definition getContent (path : string) : Async (option Blob) :=
  λ w, (Return (w_files w !! path), w).

(** [octokit.repos.createOrUpdateFileContents].  Every caller reads the
    current [sha] of the path just before it writes, so in one sequential
    run the conditional write goes through. *)
Definition createOrUpdateFileContents (path : string) (b : Blob) : Async unit :=
  λ w, (Return tt, {| w_files := <[path := b]> (w_files w);
                      w_clock := w_clock w; w_uuids := w_uuids w |}).

(** What the call throws when the repository answers 409 to a stale [sha].
    The message is the repository's and nothing in the program reads it;
    "409 Conflict" stands for it. *)
Definition sha_mismatch : Thrown := JsError "409 Conflict".

(** The same call when other writers run between the reading of the [sha]
    and the write: [read] is what the path held when the [sha] was read, and
    the repository refuses the write unless the path still holds it. *)
Definition createOrUpdateFileContents_sha (path : string) (b : Blob)
    (read : option Blob) : Async unit :=
  λ w, if decide (w_files w !! path = read)
       then createOrUpdateFileContents path b w
       else (Throw sha_mismatch, w).

(** ** [client.ts] *)

Fixpoint split_slash (s : string) : list string :=
  match s with
  | EmptyString => [EmptyString]
  | String c s' =>
      if Ascii.eqb c "/" then EmptyString :: split_slash s'
      else match split_slash s' with
           | [] => [String c EmptyString]
           | p :: ps => String c p :: ps
           end
  end.

Record RepoRef := { owner : string; repo : string }.

Definition parseRepoString (repoString : string) : Outcome RepoRef :=
  match split_slash repoString with
  | [o; r] => Return {| owner := o; repo := r |}
  | _ => Throw (JsError ("Invalid repo string: " +:+ repoString +:+
                         ". Expected format: owner/repo"))
  end.

(** [new TaskStateStore(stateRepoFullName)] and [new IssueTracker(repo)]:
    both constructors only parse the repository name. *)
Definition new_TaskStateStore (stateRepoFullName : string) : Async RepoRef :=
  λ w, (parseRepoString stateRepoFullName, w).

Definition new_IssueTracker (repoFullName : string) : Async RepoRef :=
  λ w, (parseRepoString repoFullName, w).

(** [a || b] on an optional string: [undefined] and the empty string are
    both falsy. *)
Definition truthy (o : option string) : option string :=
  match o with
  | Some s => if String.eqb s "" then None else Some s
  | None => None
  end.

Definition LF : string := String "010"%char EmptyString.

Definition role_name (r : Role) : string :=
  match r with
  | user => "user"
  | assistant => "assistant"
  | system => "system"
  end.

Record CreateTaskParams := {
  ct_id : option string;
  ct_title : string;
  ct_description : string;
  ct_repo : string;
  ct_branch : string;
  ct_stateRepo : option string;
  ct_agentId : string;
  ct_userId : string }.

(** [Omit<HandoffRecord, "toAgent">] *)
Record HandoffInit := {
  hi_fromAgent : AgentIdentity;
  hi_handoffAt : string;
  hi_reason : string;
  hi_instructions : string }.

Definition handoff_of_init (h : HandoffInit) : HandoffRecord :=
  {| ho_fromAgent := hi_fromAgent h; ho_toAgent := None;
     ho_handoffAt := hi_handoffAt h; ho_reason := hi_reason h;
     ho_instructions := hi_instructions h |}.

(** ** Values of the executor ([task-executor.ts], [agent/index.ts]) *)

Record TaskExecutorConfig := {
  cfg_taskId : string;
  cfg_model : string;
  cfg_maxTurns : Z }.

Record ExecutionResult := {
  er_sessionId : string;
  er_status : TaskStatus;
  er_progress : Z;
  er_result : option string;
  er_error : option string }.

(** The calls an agent turn can make on its tool surface, with their
    inputs. *)
Inductive ToolInvocation :=
  | call_updateProgress (phase : string) (percentComplete : Z)
      (completedSteps remainingSteps : list string)
  | call_updateNextSteps (immediate considerations blockers : list string)
  | call_recordFileChange (path : string) (action : FileAction)
      (summary : string)
  | call_requestHandoff (reason instructions urgency : string).

(** What happens in one turn: the tools the model invokes in its response,
    in order; the order in which the repository answers the calls of these
    tools while they run together, each entry naming by its position among
    the invocations, counted from 0, the tool whose pending call is answered
    next (an entry that names no waiting tool is passed over, and the tools
    still waiting after the last entry are answered to their end in the
    order of the invocations); and how [generateText] ends, with the final
    text or with an exception. *)
Record AgentTurn := {
  at_toolInvocations : list ToolInvocation;
  at_answers : list nat;
  at_outcome : Outcome string }.

(** The user prompt of a turn: the caller's text for [execute], the
    rendering of a snapshot with the caller's additional text for
    [resume] ([buildResumptionPrompt]). *)
Inductive Prompt :=
  | PromptText (prompt : string)
  | ResumptionPrompt (taskState : TaskState) (additionalPrompt : option string).

Record ContinueTaskOptions := {
  co_taskId : string;
  co_stateRepo : string;
  co_userId : string;
  co_agentId : string;
  co_additionalPrompt : option string;
  co_acceptHandoff : bool }.

(** ** What the program does not decide

    zod's [.uuid()] and [.datetime()] string checks and the message of a
    [ZodError] belong to the zod library.  [o_clock n] is the [n]-th reading
    of [new Date().toISOString()], [o_uuids n] the [n]-th result of
    [uuidv4()].  The language model is opaque, and so is the timing of the
    network: [buildSystemPrompt] renders the snapshot it is given, so a turn
    is a function of the model name, of that snapshot and of the prompt. *)
Record Oracles := {
  o_is_uuid : string → bool;
  o_is_datetime : string → bool;
  o_zod_message : Blob → string;
  o_clock : nat → string;
  o_uuids : nat → string;
  o_generateText : string → TaskState → Prompt → AgentTurn }.

(** ** The task state repository ([state-store.ts]) *)

Section TaskHandoff.

Variable env : Oracles.

Local Abbreviation is_uuid := (o_is_uuid env).
Local Abbreviation is_datetime := (o_is_datetime env).
Local Abbreviation zod_message := (o_zod_message env).
Local Abbreviation clock := (o_clock env).
Local Abbreviation uuids := (o_uuids env).
Local Abbreviation generateText := (o_generateText env).

Definition new_Date_toISOString : Async string :=
  λ w, (Return (clock (w_clock w)),
        {| w_files := w_files w; w_clock := S (w_clock w); w_uuids := w_uuids w |}).

Definition uuidv4 : Async string :=
  λ w, (Return (uuids (w_uuids w)),
        {| w_files := w_files w; w_clock := w_clock w; w_uuids := S (w_uuids w) |}).

(** *** [TaskStateSchema]

    Enumerations and the shape of the document are carried by the types;
    what is left to check are the string formats and the numeric bounds. *)

Definition AgentIdentitySchema (a : AgentIdentity) : bool :=
  is_datetime (ai_startedAt a) && from_option is_datetime true (ai_endedAt a).

Definition HandoffRecordSchema (h : HandoffRecord) : bool :=
  AgentIdentitySchema (ho_fromAgent h)
  && from_option AgentIdentitySchema true (ho_toAgent h)
  && is_datetime (ho_handoffAt h).

Definition ConversationMessageSchema (m : ConversationMessage) : bool :=
  is_datetime (msg_timestamp m).

Definition ProgressCheckpointSchema (c : ProgressCheckpoint) : bool :=
  is_uuid (cp_id c) && is_datetime (cp_timestamp c).

Definition TaskStateSchema (t : TaskState) : bool :=
  is_uuid (ts_id t)
  && (1 <=? ts_version t)
  && is_datetime (ts_createdAt t)
  && is_datetime (ts_updatedAt t)
  && forallb ConversationMessageSchema (cx_conversationHistory (ts_context t))
  && forallb ProgressCheckpointSchema (pg_checkpoints (ts_progress t))
  && (0 <=? pg_percentComplete (ts_progress t))
  && (pg_percentComplete (ts_progress t) <=? 100)
  && forallb HandoffRecordSchema (ts_handoffs t).

(** [TaskStateSchema.parse(doc)] *)
Definition TaskStateSchema_parse (doc : Blob) : Async TaskState :=
  match doc with
  | TaskDoc t =>
      if TaskStateSchema t then async_ret t
      else async_throw (ZodError (zod_message doc))
  | IndexDoc _ => async_throw (ZodError (zod_message doc))
  end.

(** *** Private helpers *)

Definition saveTaskState (state : TaskState) : Async unit :=
  createOrUpdateFileContents (state_path (ts_id state)) (TaskDoc state).

(** [index.tasks.push(...)] throws a [TypeError] when the stored index has
    no [tasks]; the entry's timestamp is read only after [index.tasks.push]
    was looked up. *)
Definition addToIndex (taskId title : string) : Async unit :=
  do data <- getContent index_path;
  let index :=
    match data with
    | None => Some []
    | Some (IndexDoc tasks) => tasks
    | Some (TaskDoc _) => None
    end in
  match index with
  | None =>
      async_throw
        (JsError "Cannot read properties of undefined (reading 'push')")
  | Some tasks =>
      do now <- new_Date_toISOString;
      createOrUpdateFileContents index_path
        (IndexDoc (Some (tasks ++
           [[("id", taskId); ("title", title); ("createdAt", now)]])))
  end.

Definition digest_line (m : ConversationMessage) : string :=
  "[" +:+ role_name (msg_role m) +:+ "]: "
      +:+ substring 0 100 (msg_content m) +:+ "...".

Definition compactHistory (task : TaskState) : TaskState :=
  let history := cx_conversationHistory (ts_context task) in
  let toCompact := take (length history - 20)%nat history in
  let toKeep := drop (length history - 20)%nat history in
  let summary := String.concat LF (map digest_line toCompact) in
  set_context
    {| cx_systemPrompt := cx_systemPrompt (ts_context task);
       cx_conversationHistory := toKeep;
       cx_compactedSummary :=
         Some (default "" (cx_compactedSummary (ts_context task))
               +:+ LF +:+ LF +:+ "---" +:+ LF +:+ summary) |}
    task.

(** *** Public methods *)

(** The object literal [taskState] of [createTask]. *)
Definition initial_taskState (self : RepoRef) (params : CreateTaskParams)
    (now taskId : string) : TaskState :=
  {| ts_id := taskId;
     ts_version := 1;
     ts_title := ct_title params;
     ts_description := ct_description params;
     ts_createdAt := now;
     ts_updatedAt := now;
     ts_status := pending;
     ts_github :=
       {| gh_repo := ct_repo params;
          gh_branch := ct_branch params;
          gh_stateRepo :=
            default (owner self +:+ "/" +:+ repo self)
                    (truthy (ct_stateRepo params));
          gh_issueNumber := None; gh_prNumber := None;
          gh_commitSha := None |};
     ts_session :=
       {| se_currentSessionId := "";
          se_transcriptPath := transcript_path taskId;
          se_lastMessageUuid := None |};
     ts_context :=
       {| cx_systemPrompt := None;
          cx_conversationHistory := [];
          cx_compactedSummary := None |};
     ts_progress :=
       {| pg_currentPhase := "initialization";
          pg_checkpoints := [];
          pg_percentComplete := 0 |};
     ts_files :=
       {| fl_modifications := []; fl_workingDirectory := "." |};
     ts_handoffs :=
       [ {| ho_fromAgent :=
              {| ai_userId := ct_userId params;
                 ai_agentId := ct_agentId params;
                 ai_sessionId := "";
                 ai_startedAt := now;
                 ai_endedAt := None |};
            ho_toAgent := None;
            ho_handoffAt := now;
            ho_reason := "Task created";
            ho_instructions := "Initial task creation" |} ];
     ts_nextSteps :=
       {| ns_immediate :=
            ["Analyze task requirements"; "Plan implementation approach"];
          ns_considerations := [];
          ns_blockers := [];
          ns_resources := [] |};
     ts_security :=
       {| sc_encryptedSecrets := None;
          sc_allowedAgents := ["*"];
          sc_requireApproval := false |} |}.

Definition createTask (self : RepoRef) (params : CreateTaskParams)
  : Async TaskState :=
  do now <- new_Date_toISOString;
  do taskId <- match truthy (ct_id params) with
               | Some i => async_ret i
               | None => uuidv4
               end;
  let taskState := initial_taskState self params now taskId in
  run TaskStateSchema_parse (TaskDoc taskState);
  run saveTaskState taskState;
  run addToIndex taskId (ct_title params);
  async_ret taskState.

(** A 404 is [null]; every other failure, a [ZodError] included, is
    thrown again. *)
Definition getTask (taskId : string) : Async (option TaskState) :=
  do data <- getContent (state_path taskId);
  match data with
  | Some doc => do t <- TaskStateSchema_parse doc; async_ret (Some t)
  | None => async_ret None
  end.

(** A task that must exist: [if (!task) throw new Error("Task not found")] *)
Definition getTask_or_throw (taskId : string) : Async TaskState :=
  do task <- getTask taskId;
  match task with
  | Some t => async_ret t
  | None => async_throw (JsError "Task not found")
  end.

Definition updateTask (taskId : string) (updates : TaskStatePartial)
  : Async TaskState :=
  do current <- getTask_or_throw taskId;
  do now <- new_Date_toISOString;
  let updated :=
    set_updatedAt now
      (set_version (js_add_one (ts_version current))
         (spread_task current updates)) in
  run TaskStateSchema_parse (TaskDoc updated);
  run saveTaskState updated;
  async_ret updated.

Definition updateSessionId (taskId sessionId : string) : Async unit :=
  do task <- getTask_or_throw taskId;
  let task :=
    set_session
      {| se_currentSessionId := sessionId;
         se_transcriptPath := se_transcriptPath (ts_session task);
         se_lastMessageUuid := se_lastMessageUuid (ts_session task) |}
      task in
  let task := set_status in_progress task in
  let task :=
    set_handoffs
      (update_last
         (λ h, set_fromAgent (set_sessionId sessionId (ho_fromAgent h)) h)
         (ts_handoffs task))
      task in
  saveTaskState task.

Definition addFileModification (taskId : string)
    (modification : FileModification) : Async unit :=
  do task <- getTask_or_throw taskId;
  let task :=
    set_files
      {| fl_modifications :=
           fl_modifications (ts_files task) ++ [modification];
         fl_workingDirectory := fl_workingDirectory (ts_files task) |}
      task in
  do now <- new_Date_toISOString;
  saveTaskState (set_updatedAt now task).

Definition addConversationMessage (taskId : string)
    (message : ConversationMessage) : Async unit :=
  do task <- getTask_or_throw taskId;
  let task :=
    set_context
      {| cx_systemPrompt := cx_systemPrompt (ts_context task);
         cx_conversationHistory :=
           cx_conversationHistory (ts_context task) ++ [message];
         cx_compactedSummary := cx_compactedSummary (ts_context task) |}
      task in
  let task :=
    if (50 <? length (cx_conversationHistory (ts_context task)))%nat
    then compactHistory task else task in
  do now <- new_Date_toISOString;
  saveTaskState (set_updatedAt now task).

Definition updateProgress (taskId : string) (progress : ProgressPartial)
  : Async unit :=
  do task <- getTask_or_throw taskId;
  let task := set_progress (spread_progress (ts_progress task) progress) task in
  do now <- new_Date_toISOString;
  saveTaskState (set_updatedAt now task).

Definition updateNextSteps (taskId : string) (nextSteps : NextStepsPartial)
  : Async unit :=
  do task <- getTask_or_throw taskId;
  let task :=
    set_nextSteps (spread_nextSteps (ts_nextSteps task) nextSteps) task in
  do now <- new_Date_toISOString;
  saveTaskState (set_updatedAt now task).

Definition initiateHandoff (taskId : string) (handoff : HandoffInit)
  : Async TaskState :=
  do task <- getTask_or_throw taskId;
  let task := set_status awaiting_handoff task in
  let task :=
    set_handoffs (ts_handoffs task ++ [handoff_of_init handoff]) task in
  do now <- new_Date_toISOString;
  let task := set_updatedAt now task in
  run saveTaskState task;
  async_ret task.

Definition acceptHandoff (taskId agentId userId : string) : Async TaskState :=
  do task <- getTask_or_throw taskId;
  match last (ts_handoffs task) with
  | None => async_throw (JsError "No handoff record found")
  | Some _ =>
      do startedAt <- new_Date_toISOString;
      let task :=
        set_handoffs
          (update_last
             (set_toAgent
                {| ai_userId := userId; ai_agentId := agentId;
                   ai_sessionId := ""; ai_startedAt := startedAt;
                   ai_endedAt := None |})
             (ts_handoffs task))
          task in
      let task := set_status handed_off task in
      do now <- new_Date_toISOString;
      let task := set_updatedAt now task in
      run saveTaskState task;
      async_ret task
  end.

Definition completeTask (taskId : string) : Async TaskState :=
  updateTask taskId
    {| tp_id := None; tp_version := None; tp_title := None;
       tp_description := None; tp_createdAt := None; tp_updatedAt := None;
       tp_status := Some completed;
       tp_github := None; tp_session := None; tp_context := None;
       tp_progress :=
         Some {| pg_currentPhase := "completed";
                 pg_checkpoints := [];
                 pg_percentComplete := 100 |};
       tp_files := None; tp_handoffs := None; tp_nextSteps := None;
       tp_security := None |}.

(** [JSON.parse(content).tasks || []]; a missing index is the empty list. *)
Definition listTasks : Async (list JsObject) :=
  do data <- getContent index_path;
  match data with
  | Some (IndexDoc tasks) => async_ret (default [] tasks)
  | Some (TaskDoc _) => async_ret []
  | None => async_ret []
  end.


(** ** The executor ([task-executor.ts]) *)

(** [execute] of each tool of [createTools], when the tool runs alone.
    Posting the hand-off comment on the issue tracker leaves the state
    repository alone. *)
Definition tool_execute (taskId sessionId : string) (call : ToolInvocation)
  : Async unit :=
  match call with
  | call_updateProgress phase percentComplete completedSteps remainingSteps =>
      do cid <- uuidv4;
      do now <- new_Date_toISOString;
      updateProgress taskId
        {| pp_currentPhase := Some phase;
           pp_percentComplete := Some percentComplete;
           pp_checkpoints :=
             Some [ {| cp_id := cid;
                       cp_timestamp := now;
                       cp_description := "Progress update: " +:+ phase;
                       cp_completedSteps := completedSteps;
                       cp_remainingSteps := remainingSteps;
                       cp_blockers := None |} ] |}
  | call_updateNextSteps immediate considerations blockers =>
      updateNextSteps taskId
        {| np_immediate := Some immediate;
           np_considerations := Some considerations;
           np_blockers := Some blockers;
           np_resources := None |}
  | call_recordFileChange path action summary =>
      addFileModification taskId
        {| fm_path := path; fm_action := action; fm_previousHash := None;
           fm_currentHash := ""; fm_summary := summary |}
  | call_requestHandoff reason instructions urgency =>
      do task <- getTask_or_throw taskId;
      do fromAgent <-
        match last (ts_handoffs task) with
        | Some lastHandoff => async_ret (ho_fromAgent lastHandoff)
        | None =>
            do now <- new_Date_toISOString;
            async_ret {| ai_userId := "unknown"; ai_agentId := "unknown";
                         ai_sessionId := sessionId; ai_startedAt := now;
                         ai_endedAt := None |}
        end;
      do now <- new_Date_toISOString;
      run initiateHandoff taskId
            {| hi_fromAgent := fromAgent; hi_handoffAt := now;
               hi_reason := reason; hi_instructions := instructions |};
      async_ret tt
  end.

(** *** Tools that run together

    [generateText] starts the tools of one response one after the other and
    awaits them together.  A tool runs until it awaits a call on the
    repository; it goes on, up to its next call, when that call is answered,
    and the calls of the tools are answered in an order the program does not
    decide.  [Await m k] is a tool waiting for an answer: [m] is the call
    together with what the tool does with the answer before it calls again,
    [k] is the rest of the tool.  A tool that throws is settled like one that
    returns: the error goes to the model and does not stop the turn. *)
Inductive Steps : Type :=
  | Settled
  | Await {A : Type} (m : Async A) (k : A → Steps).

(** [saveTaskState] awaits twice: the [sha] of the path, then the write. *)
Definition saveTaskState_steps (state : TaskState) : Steps :=
  Await (getContent (state_path (ts_id state)))
    (λ read,
       Await (createOrUpdateFileContents_sha (state_path (ts_id state))
                (TaskDoc state) read)
         (λ _, Settled)).

(** The helpers the tools call, cut at their awaits: [getTask] is awaited,
    the task is changed and stamped as above, and [saveTaskState] is
    awaited. *)
Definition addFileModification_steps (taskId : string)
    (modification : FileModification) : Steps :=
  Await
    (do task <- getTask_or_throw taskId;
     let task :=
       set_files
         {| fl_modifications :=
              fl_modifications (ts_files task) ++ [modification];
            fl_workingDirectory := fl_workingDirectory (ts_files task) |}
         task in
     do now <- new_Date_toISOString;
     async_ret (set_updatedAt now task))
    saveTaskState_steps.

Definition updateProgress_steps (taskId : string) (progress : ProgressPartial)
  : Steps :=
  Await
    (do task <- getTask_or_throw taskId;
     let task :=
       set_progress (spread_progress (ts_progress task) progress) task in
     do now <- new_Date_toISOString;
     async_ret (set_updatedAt now task))
    saveTaskState_steps.

Definition updateNextSteps_steps (taskId : string)
    (nextSteps : NextStepsPartial) : Steps :=
  Await
    (do task <- getTask_or_throw taskId;
     let task :=
       set_nextSteps (spread_nextSteps (ts_nextSteps task) nextSteps) task in
     do now <- new_Date_toISOString;
     async_ret (set_updatedAt now task))
    saveTaskState_steps.

Definition initiateHandoff_steps (taskId : string) (handoff : HandoffInit)
  : Steps :=
  Await
    (do task <- getTask_or_throw taskId;
     let task := set_status awaiting_handoff task in
     let task :=
       set_handoffs (ts_handoffs task ++ [handoff_of_init handoff]) task in
     do now <- new_Date_toISOString;
     async_ret (set_updatedAt now task))
    saveTaskState_steps.

(** A tool from its start: what it does before its first call on the
    repository, and the steps it then waits through. *)
Definition tool_steps (taskId sessionId : string) (call : ToolInvocation)
  : Async Steps :=
  match call with
  | call_updateProgress phase percentComplete completedSteps remainingSteps =>
      do cid <- uuidv4;
      do now <- new_Date_toISOString;
      async_ret
        (updateProgress_steps taskId
           {| pp_currentPhase := Some phase;
              pp_percentComplete := Some percentComplete;
              pp_checkpoints :=
                Some [ {| cp_id := cid;
                          cp_timestamp := now;
                          cp_description := "Progress update: " +:+ phase;
                          cp_completedSteps := completedSteps;
                          cp_remainingSteps := remainingSteps;
                          cp_blockers := None |} ] |})
  | call_updateNextSteps immediate considerations blockers =>
      async_ret
        (updateNextSteps_steps taskId
           {| np_immediate := Some immediate;
              np_considerations := Some considerations;
              np_blockers := Some blockers;
              np_resources := None |})
  | call_recordFileChange path action summary =>
      async_ret
        (addFileModification_steps taskId
           {| fm_path := path; fm_action := action; fm_previousHash := None;
              fm_currentHash := ""; fm_summary := summary |})
  | call_requestHandoff reason instructions urgency =>
      async_ret
        (Await
           (do task <- getTask_or_throw taskId;
            do fromAgent <-
              match last (ts_handoffs task) with
              | Some lastHandoff => async_ret (ho_fromAgent lastHandoff)
              | None =>
                  do now <- new_Date_toISOString;
                  async_ret {| ai_userId := "unknown"; ai_agentId := "unknown";
                               ai_sessionId := sessionId; ai_startedAt := now;
                               ai_endedAt := None |}
              end;
            do now <- new_Date_toISOString;
            async_ret {| hi_fromAgent := fromAgent; hi_handoffAt := now;
                         hi_reason := reason; hi_instructions := instructions |})
           (initiateHandoff_steps taskId))
  end.

Fixpoint start_tools (taskId sessionId : string) (calls : list ToolInvocation)
  : Async (list Steps) :=
  match calls with
  | [] => async_ret []
  | call :: calls' =>
      do tool <- tool_steps taskId sessionId call;
      do tools <- start_tools taskId sessionId calls';
      async_ret (tool :: tools)
  end.

(** A waiting tool that is answered until it is settled. *)
Fixpoint settle (tool : Steps) (w : World) : World :=
  match tool with
  | Settled => w
  | Await m k =>
      match m w with
      | (Return a, w') => settle (k a) w'
      | (Throw _, w') => w'
      end
  end.

(** The tools answered in the order of the turn. *)
Fixpoint answer (answers : list nat) (tools : list Steps) (w : World) : World :=
  match answers with
  | [] => foldl (λ w tool, settle tool w) w tools
  | i :: answers' =>
      match tools !! i with
      | Some (Await m k) =>
          match m w with
          | (Return a, w') => answer answers' (<[i := k a]> tools) w'
          | (Throw _, w') => answer answers' (<[i := Settled]> tools) w'
          end
      | _ => answer answers' tools w
      end
  end.

(** The tools of one response, from their start until all are settled. *)
Definition run_tools (answers : list nat) (taskId sessionId : string)
    (calls : list ToolInvocation) : Async unit :=
  do tools <- start_tools taskId sessionId calls;
  λ w, (Return tt, answer answers tools w).

(** [await generateText({ model, system, prompt, tools })] *)
Definition agent_turn (config : TaskExecutorConfig) (sessionId : string)
    (taskState : TaskState) (prompt : Prompt) : Async string :=
  let turn := generateText (cfg_model config) taskState prompt in
  run run_tools (at_answers turn) (cfg_taskId config) sessionId
        (at_toolInvocations turn);
  λ w, (at_outcome turn, w).

Definition status_update (s : TaskStatus) : TaskStatePartial :=
  {| tp_id := None; tp_version := None; tp_title := None;
     tp_description := None; tp_createdAt := None; tp_updatedAt := None;
     tp_status := Some s;
     tp_github := None; tp_session := None; tp_context := None;
     tp_progress := None; tp_files := None; tp_handoffs := None;
     tp_nextSteps := None; tp_security := None |}.

(** The statements of both [try] blocks after [generateText] returned. *)
Definition turn_succeeded (config : TaskExecutorConfig) (sessionId : string)
    (taskState : TaskState) (text : string) : Async ExecutionResult :=
  run updateTask (cfg_taskId config) (status_update in_progress);
  do now <- new_Date_toISOString;
  run addConversationMessage (cfg_taskId config)
        {| msg_role := assistant; msg_content := text;
           msg_timestamp := now; msg_toolCalls := None |};
  async_ret {| er_sessionId := sessionId;
               er_status := in_progress;
               er_progress := pg_percentComplete (ts_progress taskState);
               er_result := Some text;
               er_error := None |}.

Definition failure_result (sessionId : string) (taskState : TaskState)
    (error : Thrown) : ExecutionResult :=
  {| er_sessionId := sessionId;
     er_status := failed;
     er_progress := pg_percentComplete (ts_progress taskState);
     er_result := None;
     er_error := Some (error_message error) |}.

Definition execute (config : TaskExecutorConfig) (prompt : string)
  : Async ExecutionResult :=
  do taskState <- getTask_or_throw (cfg_taskId config);
  do sessionId <- uuidv4;
  run updateSessionId (cfg_taskId config) sessionId;
  try_catch
    (do text <- agent_turn config sessionId taskState (PromptText prompt);
     turn_succeeded config sessionId taskState text)
    (λ error,
       run updateTask (cfg_taskId config) (status_update failed);
       async_ret (failure_result sessionId taskState error)).

Definition resume (config : TaskExecutorConfig) (sessionId : string)
    (additionalPrompt : option string) : Async ExecutionResult :=
  do taskState <- getTask_or_throw (cfg_taskId config);
  try_catch
    (do text <- agent_turn config sessionId taskState
                  (ResumptionPrompt taskState additionalPrompt);
     turn_succeeded config sessionId taskState text)
    (λ error, async_ret (failure_result sessionId taskState error)).

(** ** The authorization gate and [continueTask] ([agent/index.ts]) *)

(** [Array.prototype.includes] on strings *)
Definition includes (l : list string) (x : string) : bool :=
  existsb (String.eqb x) l.

Definition authorized (task : TaskState) (agentId : string) : bool :=
  includes (sc_allowedAgents (ts_security task)) "*"
  || includes (sc_allowedAgents (ts_security task)) agentId.

Definition status_eqb (a b : TaskStatus) : bool :=
  match a, b with
  | pending, pending | in_progress, in_progress
  | awaiting_handoff, awaiting_handoff | handed_off, handed_off
  | completed, completed | failed, failed | cancelled, cancelled => true
  | _, _ => false
  end.

Definition not_authorized : Thrown :=
  JsError "Not authorized to continue this task".

Definition continueTask (options : ContinueTaskOptions)
  : Async (TaskState * ExecutionResult) :=
  run new_TaskStateStore (co_stateRepo options);
  do task <- getTask (co_taskId options);
  match task with
  | None => async_throw (JsError ("Task not found: " +:+ co_taskId options))
  | Some task =>
      if negb (includes (sc_allowedAgents (ts_security task)) "*")
         && negb (includes (sc_allowedAgents (ts_security task))
                           (co_agentId options))
      then async_throw not_authorized
      else
        run (if co_acceptHandoff options
                && status_eqb (ts_status task) awaiting_handoff
             then run acceptHandoff (co_taskId options) (co_agentId options)
                        (co_userId options);
                  async_ret tt
             else async_ret tt);
        run new_IssueTracker (gh_repo (ts_github task));
        do result <-
          resume {| cfg_taskId := co_taskId options;
                    cfg_model := "claude-sonnet-4-5-20250929";
                    cfg_maxTurns := 50 |}
                 (se_currentSessionId (ts_session task))
                 (co_additionalPrompt options);
        do updatedTask <- getTask (co_taskId options);
        async_ret (default task updatedTask, result)
  end.


(** ** Vocabulary of the statements *)

(** The identifier [createTask] gives the task: the caller's, unless it
    is missing or empty, else a fresh UUID. *)
Definition created_id (params : CreateTaskParams) (w : World) : string :=
  default (uuids (w_uuids w)) (truthy (ct_id params)).

(** The document stored for a task after a computation ran. *)
Definition persisted {A} (m : Async A) (w : World) (taskId : string)
  : option Blob :=
  w_files (m w).2 !! state_path taskId.

(** A computation that never throws "Not authorized", whatever the
    world it starts in. *)
Definition never_unauthorized {A} (m : Async A) : Prop :=
  ∀ w, (m w).1 ≠ Throw not_authorized.

(** The three assignments of [updateSessionId], as one function. *)
Definition assign_session (sessionId : string) (task : TaskState) : TaskState :=
  set_handoffs
    (update_last
       (λ h, set_fromAgent (set_sessionId sessionId (ho_fromAgent h)) h)
       (ts_handoffs task))
    (set_status in_progress
       (set_session
          {| se_currentSessionId := sessionId;
             se_transcriptPath := se_transcriptPath (ts_session task);
             se_lastMessageUuid := se_lastMessageUuid (ts_session task) |}
          task)).

(** ** A concrete run

    Stand-ins for the library checks, a clock that ticks once a second, a
    counter for UUIDs, and the world right after one [createTask]. *)

Definition digit (n : nat) : string :=
  String (ascii_of_nat (48 + n mod 10)) EmptyString.

Definition demo_is_uuid (s : string) : bool := (String.length s =? 36)%nat.

Definition demo_is_datetime (s : string) : bool := (String.length s =? 24)%nat.

Definition demo_zod_message (doc : Blob) : string := "Invalid input".

Definition demo_clock (n : nat) : string :=
  "2026-01-01T00:00:" +:+ digit (n / 10) +:+ digit n +:+ ".000Z".

Definition demo_uuids (n : nat) : string :=
  "00000000-0000-4000-8000-0000000000" +:+ digit (n / 10) +:+ digit n.

Definition demo_store : RepoRef := {| owner := "acme"; repo := "state" |}.

Definition demo_params : CreateTaskParams :=
  {| ct_id := None;
     ct_title := "Add dark mode";
     ct_description := "Theme toggle in the settings page";
     ct_repo := "acme/app";
     ct_branch := "main";
     ct_stateRepo := None;
     ct_agentId := "agent-a";
     ct_userId := "alice" |}.

Definition demo_id : string := demo_uuids 0.

Definition demo_task : TaskState :=
  initial_taskState demo_store demo_params (demo_clock 0) demo_id.

Definition empty_world : World :=
  {| w_files := ∅; w_clock := 0; w_uuids := 0 |}.

Definition demo_world : World :=
  {| w_files :=
       <[index_path :=
           IndexDoc (Some [[("id", demo_id); ("title", "Add dark mode");
                            ("createdAt", demo_clock 1)]])]>
         (<[state_path demo_id := TaskDoc demo_task]> ∅);
     w_clock := 2;
     w_uuids := 1 |}.

(** A model that is down: no tool is invoked and [generateText] throws. *)
Definition demo_model_down (model : string) (taskState : TaskState)
    (prompt : Prompt) : AgentTurn :=
  {| at_toolInvocations := []; at_answers := [];
     at_outcome := Throw (JsError "Overloaded") |}.

(** A model that reports progress through its tool and answers. *)
Definition demo_model_up (model : string) (taskState : TaskState)
    (prompt : Prompt) : AgentTurn :=
  {| at_toolInvocations :=
       [call_updateProgress "implementation" 45 ["wire toggle"] ["add tests"]];
     at_answers := [];
     at_outcome := Return "Toggle wired." |}.

Definition demo_env_up : Oracles :=
  {| o_is_uuid := demo_is_uuid;
     o_is_datetime := demo_is_datetime;
     o_zod_message := demo_zod_message;
     o_clock := demo_clock;
     o_uuids := demo_uuids;
     o_generateText := demo_model_up |}.

Definition demo_env : Oracles :=
  {| o_is_uuid := demo_is_uuid;
     o_is_datetime := demo_is_datetime;
     o_zod_message := demo_zod_message;
     o_clock := demo_clock;
     o_uuids := demo_uuids;
     o_generateText := demo_model_down |}.

(** A world with one document. *)
Definition world_with (task : TaskState) : World :=
  {| w_files := <[state_path (ts_id task) := TaskDoc task]> ∅;
     w_clock := 5;
     w_uuids := 1 |}.

(** The demo task after a hand-off was requested. *)
Definition demo_awaiting : TaskState :=
  set_status awaiting_handoff
    (set_handoffs
       (ts_handoffs demo_task ++
        [ {| ho_fromAgent :=
               {| ai_userId := "alice"; ai_agentId := "agent-a";
                  ai_sessionId := ""; ai_startedAt := demo_clock 0;
                  ai_endedAt := None |};
             ho_toAgent := None;
             ho_handoffAt := demo_clock 3;
             ho_reason := "expertise_needed";
             ho_instructions := "Add the tests" |} ])
       demo_task).

(** The demo task with a history of exactly fifty messages. *)
Definition demo_message (n : nat) : ConversationMessage :=
  {| msg_role := if Nat.even n then user else assistant;
     msg_content := "message " +:+ digit (n / 10) +:+ digit n;
     msg_timestamp := demo_clock n;
     msg_toolCalls := None |}.

Definition demo_talkative : TaskState :=
  set_context
    {| cx_systemPrompt := None;
       cx_conversationHistory := map demo_message (seq 0 50);
       cx_compactedSummary := None |}
    demo_task.

(** The demo task with the allow-list narrowed to its creator. *)
Definition demo_restricted : TaskState :=
  {| ts_id := ts_id demo_task; ts_version := ts_version demo_task;
     ts_title := ts_title demo_task; ts_description := ts_description demo_task;
     ts_createdAt := ts_createdAt demo_task;
     ts_updatedAt := ts_updatedAt demo_task;
     ts_status := ts_status demo_awaiting;
     ts_github := ts_github demo_task; ts_session := ts_session demo_task;
     ts_context := ts_context demo_task; ts_progress := ts_progress demo_task;
     ts_files := ts_files demo_task; ts_handoffs := ts_handoffs demo_awaiting;
     ts_nextSteps := ts_nextSteps demo_task;
     ts_security :=
       {| sc_encryptedSecrets := None;
          sc_allowedAgents := ["agent-a"];
          sc_requireApproval := false |} |}.

Definition demo_config : TaskExecutorConfig :=
  {| cfg_taskId := demo_id;
     cfg_model := "claude-sonnet-4-5-20250929";
     cfg_maxTurns := 50 |}.

Definition demo_options (agentId : string) : ContinueTaskOptions :=
  {| co_taskId := demo_id;
     co_stateRepo := "acme/state";
     co_userId := "bob";
     co_agentId := agentId;
     co_additionalPrompt := None;
     co_acceptHandoff := true |}.

(** ** Vocabulary of the further properties *)

(** A string without "/". *)
Fixpoint slash_free (s : string) : bool :=
  match s with
  | EmptyString => true
  | String c s' => negb (Ascii.eqb c "/") && slash_free s'
  end.

(** The document at a task's path, if it is a task document, carries the
    identifier of the path: every method then writes where it read. *)
Definition id_ok (taskId : string) (w : World) : Prop :=
  ∀ t, w_files w !! state_path taskId = Some (TaskDoc t) → ts_id t = taskId.

(** From [w] to [w']: the task's document still carries its identifier,
    every other path is as it was, and a task document [t] at the task's
    path has become one related to it by [R]. *)
Definition confined_at (R : TaskState → TaskState → Prop) (taskId : string)
    (w w' : World) : Prop :=
  id_ok taskId w'
  ∧ (∀ path, path ≠ state_path taskId →
       w_files w' !! path = w_files w !! path)
  ∧ (∀ t, w_files w !! state_path taskId = Some (TaskDoc t) →
       ∃ t', w_files w' !! state_path taskId = Some (TaskDoc t') ∧ R t t').

(** A computation that does so from every world where the task's document
    carries its identifier. *)
Definition confined (R : TaskState → TaskState → Prop) (taskId : string)
    {A} (m : Async A) : Prop :=
  ∀ w, id_ok taskId w → confined_at R taskId w (m w).2.

(** A waiting tool every step of which keeps a property of the world,
    whenever it is answered in a world that has the property. *)
Fixpoint steps_keep (I : World → Prop) (tool : Steps) : Prop :=
  match tool with
  | Settled => True
  | Await m k =>
      ∀ w, I w → I (m w).2 ∧ ∀ a, (m w).1 = Return a → steps_keep I (k a)
  end.

(** What no tool of the agent changes. *)
Definition same_identity (t t' : TaskState) : Prop :=
  ts_id t' = ts_id t
  ∧ ts_version t' = ts_version t
  ∧ ts_title t' = ts_title t
  ∧ ts_description t' = ts_description t
  ∧ ts_createdAt t' = ts_createdAt t
  ∧ ts_github t' = ts_github t
  ∧ ts_session t' = ts_session t
  ∧ ts_context t' = ts_context t
  ∧ ts_security t' = ts_security t.

(** What no turn of the executor changes; the version may only grow. *)
Definition same_task (t t' : TaskState) : Prop :=
  ts_id t' = ts_id t
  ∧ ts_version t ≤ ts_version t'
  ∧ ts_title t' = ts_title t
  ∧ ts_description t' = ts_description t
  ∧ ts_createdAt t' = ts_createdAt t
  ∧ ts_github t' = ts_github t
  ∧ ts_security t' = ts_security t.

(** ** Authentication ([utils/auth.ts]) *)

Record AgentToken := {
  tk_sub : string;
  tk_agentId : string;
  tk_iat : Z;
  tk_exp : Z;
  tk_scopes : list string }.

Record AuthResult := {
  ar_valid : bool;
  ar_userId : option string;
  ar_agentId : option string;
  ar_error : option string }.

(** What a server process is started with: whether [NODE_ENV] is
    "development"; what [jwt.verify(token, JWT_SECRET)] decodes when it runs
    at a given time, [None] when it throws (the library checks the signature
    and, against its own reading of the clock, the expiry); the
    [DEFAULT_STATE_REPO] variable; and the issues zod reports for a request
    body it rejects. *)
Record Server := {
  sv_development : bool;
  sv_verify : Z → string → option AgentToken;
  sv_default_state_repo : option string;
  sv_request_issues : string }.

(** [s.substring(n)] *)
Fixpoint string_drop (n : nat) (s : string) : string :=
  match n, s with
  | O, _ => s
  | S n', String _ s' => string_drop n' s'
  | S _, EmptyString => EmptyString
  end.

Definition auth_failed (error : string) : AuthResult :=
  {| ar_valid := false; ar_userId := None; ar_agentId := None;
     ar_error := Some error |}.

(** [verified_at] is the time at which [jwt.verify] runs and [now] the
    reading of [Date.now()] after it, both in milliseconds; on integers
    [exp < now / 1000] is [exp * 1000 < now]. *)
Definition validateAuth (server : Server) (verified_at now : Z)
    (authorization : option string) : AuthResult :=
  match truthy authorization with
  | None =>
      if sv_development server
      then {| ar_valid := true; ar_userId := Some "dev-user";
              ar_agentId := Some "dev-agent"; ar_error := None |}
      else auth_failed "Missing authorization header"
  | Some authHeader =>
      if negb (String.prefix "Bearer " authHeader)
      then auth_failed "Invalid authorization format"
      else
        match sv_verify server verified_at (string_drop 7 authHeader) with
        | Some decoded =>
            if tk_exp decoded * 1000 <? now
            then auth_failed "Token expired"
            else {| ar_valid := true; ar_userId := Some (tk_sub decoded);
                    ar_agentId := Some (tk_agentId decoded);
                    ar_error := None |}
        | None => auth_failed "Invalid token"
        end
  end.

(** The identity the routes act for: [(userId, agentId)].  The token is
    verified again, at the time [verified_at] of this call. *)
Definition getAuthInfo (server : Server) (verified_at now : Z)
    (authorization : option string) : string * string :=
  let fallback := ("dev-user", "agent-" +:+ pretty.pretty now) in
  match authorization with
  | Some authHeader =>
      if String.prefix "Bearer " authHeader
      then match sv_verify server verified_at (string_drop 7 authHeader) with
           | Some decoded => (tk_sub decoded, tk_agentId decoded)
           | None => fallback
           end
      else fallback
  | None => fallback
  end.

(** ** The HTTP routes ([api/agent/continue], [api/agent/handoff]) *)

(** What a route reads from the request: the [Authorization] header, the
    [stateRepo] query parameter and the JSON body, here already of the
    right shape.  A route is given the four readings of the clock of its
    two calls on the authentication: [verify_auth] and [now_auth] for
    [validateAuth], then, after the body was read, [verify_info] and
    [now_info] for [getAuthInfo]. *)
Record Request (Body : Type) := {
  rq_authorization : option string;
  rq_stateRepo : option string;
  rq_body : Body }.
#[global] Arguments rq_authorization {Body} _.
#[global] Arguments rq_stateRepo {Body} _.
#[global] Arguments rq_body {Body} _.

Record ContinueTaskBody := {
  cb_taskId : string;
  cb_prompt : option string;
  cb_acceptHandoff : option bool }.

Record HandoffRequestBody := {
  hb_taskId : string;
  hb_fromAgentId : string;
  hb_reason : string;
  hb_instructions : string;
  hb_urgency : string;
  hb_targetAgentId : option string }.

Inductive ResponseBody :=
  | ErrorBody (error : string)
  | ValidationBody (details : string)
  | ContinueBody (taskId sessionId : string) (status : TaskStatus)
      (progress : Z) (handoffAccepted : bool) (result : option string)
  | HandoffBody (taskId : string) (status : TaskStatus)
      (handoffUrl : option string).

Record Response := {
  rp_status : Z;
  rp_body : ResponseBody }.

(** [process.env.DEFAULT_STATE_REPO || "counciloftroas/task-handoff-state"] *)
Definition DEFAULT_STATE_REPO (server : Server) : string :=
  default "counciloftroas/task-handoff-state"
    (truthy (sv_default_state_repo server)).

(** The [catch] block of both routes. *)
Definition error_response (error : Thrown) : Response :=
  match error with
  | ZodError message =>
      {| rp_status := 400; rp_body := ValidationBody message |}
  | JsError message =>
      {| rp_status := 500; rp_body := ErrorBody message |}
  | NonError _ =>
      {| rp_status := 500; rp_body := ErrorBody "Internal server error" |}
  end.

Definition route_catch (m : Async Response) : Async Response :=
  try_catch m (λ error, async_ret (error_response error)).

Definition unauthorized_response (authResult : AuthResult) : Response :=
  {| rp_status := 401;
     rp_body := ErrorBody (default "Unauthorized" (truthy (ar_error authResult))) |}.

(** [ContinueTaskRequestSchema.parse(body)] *)
Definition ContinueTaskRequestSchema_parse (server : Server)
    (body : ContinueTaskBody) : Async ContinueTaskBody :=
  if is_uuid (cb_taskId body)
  then async_ret {| cb_taskId := cb_taskId body; cb_prompt := cb_prompt body;
                    cb_acceptHandoff :=
                      Some (default false (cb_acceptHandoff body)) |}
  else async_throw (ZodError (sv_request_issues server)).

Definition continue_POST (server : Server)
    (verify_auth now_auth verify_info now_info : Z)
    (request : Request ContinueTaskBody) : Async Response :=
  route_catch
    (let authResult :=
       validateAuth server verify_auth now_auth (rq_authorization request) in
     if negb (ar_valid authResult)
     then async_ret (unauthorized_response authResult)
     else
       do parsed <- ContinueTaskRequestSchema_parse server (rq_body request);
       let stateRepo :=
         default (DEFAULT_STATE_REPO server) (truthy (rq_stateRepo request)) in
       let identity :=
         getAuthInfo server verify_info now_info (rq_authorization request) in
       do continued <-
         continueTask
           {| co_taskId := cb_taskId parsed;
              co_stateRepo := stateRepo;
              co_userId := identity.1;
              co_agentId := identity.2;
              co_additionalPrompt := cb_prompt parsed;
              co_acceptHandoff := default false (cb_acceptHandoff parsed) |};
       async_ret
         {| rp_status := 200;
            rp_body :=
              ContinueBody (ts_id continued.1) (er_sessionId continued.2)
                (er_status continued.2) (er_progress continued.2)
                (default false (cb_acceptHandoff parsed))
                (er_result continued.2) |}).

(** [HandoffRequestSchema.parse(body)] *)
Definition HandoffRequestSchema_parse (server : Server)
    (body : HandoffRequestBody) : Async HandoffRequestBody :=
  if is_uuid (hb_taskId body)
     && includes ["task_complete_phase"; "expertise_needed"; "time_limit";
                  "user_request"; "error_recovery"] (hb_reason body)
     && includes ["low"; "medium"; "high"; "critical"] (hb_urgency body)
  then async_ret body
  else async_throw (ZodError (sv_request_issues server)).

(** [a !== b] where [a] may be [undefined] *)
Definition differs (a : option string) (b : string) : bool :=
  match a with
  | Some x => negb (String.eqb x b)
  | None => true
  end.

(** A number is truthy unless it is zero. *)
Definition truthy_number (n : option Z) : option Z :=
  match n with
  | Some x => if x =? 0 then None else Some x
  | None => None
  end.

Definition issue_url (repoName : string) (issueNumber : Z) : string :=
  "https://github.com/" +:+ repoName +:+ "/issues/" +:+ pretty.pretty issueNumber.

(** [addHandoffComment] is what posting the comment does for a repository,
    an issue number and a request: it leaves the state repository alone and
    may throw. *)
Definition handoff_POST
    (addHandoffComment : string → Z → HandoffRequestBody → Outcome unit)
    (server : Server) (verify_auth now_auth verify_info now_info : Z)
    (request : Request HandoffRequestBody) : Async Response :=
  route_catch
    (let authResult :=
       validateAuth server verify_auth now_auth (rq_authorization request) in
     if negb (ar_valid authResult)
     then async_ret (unauthorized_response authResult)
     else
       do handoffRequest <- HandoffRequestSchema_parse server (rq_body request);
       let stateRepo :=
         default (DEFAULT_STATE_REPO server) (truthy (rq_stateRepo request)) in
       let identity :=
         getAuthInfo server verify_info now_info (rq_authorization request) in
       run new_TaskStateStore stateRepo;
       do task <- getTask (hb_taskId handoffRequest);
       match task with
       | None =>
           async_ret {| rp_status := 404; rp_body := ErrorBody "Task not found" |}
       | Some task =>
           let currentHandoff := last (ts_handoffs task) in
           let holder := (λ h, ai_agentId (ho_fromAgent h)) <$> currentHandoff in
           if differs holder identity.2
              && differs holder (hb_fromAgentId handoffRequest)
              && (negb (includes (sc_allowedAgents (ts_security task)) "*")
                  && negb (includes (sc_allowedAgents (ts_security task))
                                    identity.2))
           then async_ret {| rp_status := 403;
                             rp_body := ErrorBody "Not authorized to handoff this task" |}
           else
             do endedAt <- new_Date_toISOString;
             do handoffAt <- new_Date_toISOString;
             run initiateHandoff (hb_taskId handoffRequest)
                   {| hi_fromAgent :=
                        {| ai_userId := identity.1;
                           ai_agentId := hb_fromAgentId handoffRequest;
                           ai_sessionId := se_currentSessionId (ts_session task);
                           ai_startedAt :=
                             default (ts_createdAt task)
                               (truthy ((λ h, ai_startedAt (ho_fromAgent h))
                                          <$> currentHandoff));
                           ai_endedAt := Some endedAt |};
                      hi_handoffAt := handoffAt;
                      hi_reason := hb_reason handoffRequest;
                      hi_instructions := hb_instructions handoffRequest |};
             run match truthy_number (gh_issueNumber (ts_github task)) with
                 | Some issueNumber =>
                     run new_IssueTracker (gh_repo (ts_github task));
                     λ w, (addHandoffComment (gh_repo (ts_github task))
                             issueNumber handoffRequest, w)
                 | None => async_ret tt
                 end;
             async_ret
               {| rp_status := 200;
                  rp_body :=
                    HandoffBody (hb_taskId handoffRequest) awaiting_handoff
                      (issue_url (gh_repo (ts_github task))
                         <$> truthy_number (gh_issueNumber (ts_github task))) |}
       end).

(** ** [createAndStartTask] ([agent/index.ts]) *)

(** A start request after [StartTaskRequestSchema.parse]. *)
Record StartTaskRequest := {
  sr_title : string;
  sr_description : string;
  sr_prompt : string;
  sr_repo : string;
  sr_branch : string;
  sr_createIssue : bool;
  sr_model : option string;
  sr_maxTurns : option Z }.

Record CreateTaskOptions := {
  cto_request : StartTaskRequest;
  cto_userId : string;
  cto_agentId : string;
  cto_stateRepo : string }.

Definition set_issueNumber (n : Z) (g : Github) : Github :=
  {| gh_repo := gh_repo g; gh_branch := gh_branch g;
     gh_stateRepo := gh_stateRepo g; gh_issueNumber := Some n;
     gh_prNumber := gh_prNumber g; gh_commitSha := gh_commitSha g |}.

Definition set_github (v : Github) (t : TaskState) : TaskState :=
  {| ts_id := ts_id t; ts_version := ts_version t; ts_title := ts_title t;
     ts_description := ts_description t; ts_createdAt := ts_createdAt t;
     ts_updatedAt := ts_updatedAt t; ts_status := ts_status t;
     ts_github := v; ts_session := ts_session t;
     ts_context := ts_context t; ts_progress := ts_progress t;
     ts_files := ts_files t; ts_handoffs := ts_handoffs t;
     ts_nextSteps := ts_nextSteps t; ts_security := ts_security t |}.

Definition github_update (g : Github) : TaskStatePartial :=
  {| tp_id := None; tp_version := None; tp_title := None;
     tp_description := None; tp_createdAt := None; tp_updatedAt := None;
     tp_status := None;
     tp_github := Some g; tp_session := None; tp_context := None;
     tp_progress := None; tp_files := None; tp_handoffs := None;
     tp_nextSteps := None; tp_security := None |}.

(** [createTaskIssue] is what the issue tracker answers for the task: the
    number of the new issue, or an exception. *)
Definition createAndStartTask (createTaskIssue : TaskState → Outcome Z)
    (options : CreateTaskOptions) : Async (TaskState * ExecutionResult) :=
  let request := cto_request options in
  do stateStore <- new_TaskStateStore (cto_stateRepo options);
  run new_IssueTracker (sr_repo request);
  do task <-
    createTask stateStore
      {| ct_id := None;
         ct_title := sr_title request;
         ct_description := sr_description request;
         ct_repo := sr_repo request;
         ct_branch := sr_branch request;
         ct_stateRepo := Some (cto_stateRepo options);
         ct_agentId := cto_agentId options;
         ct_userId := cto_userId options |};
  do task <-
    (if sr_createIssue request
     then
       do issueNumber <- (λ w, (createTaskIssue task, w));
       run updateTask (ts_id task)
             (github_update (set_issueNumber issueNumber (ts_github task)));
       async_ret (set_github (set_issueNumber issueNumber (ts_github task)) task)
     else async_ret task);
  do result <-
    execute
      {| cfg_taskId := ts_id task;
         cfg_model := default "claude-sonnet-4-5-20250929" (truthy (sr_model request));
         cfg_maxTurns := default 50 (truthy_number (sr_maxTurns request)) |}
      (sr_prompt request);
  do updatedTask <- getTask (ts_id task);
  async_ret (default task updatedTask, result).

(** ** More of the concrete run *)

(** A model that reports 150 percent. *)
Definition demo_model_careless (model : string) (taskState : TaskState)
    (prompt : Prompt) : AgentTurn :=
  {| at_toolInvocations :=
       [call_updateProgress "build" 150 ["wire toggle"] []];
     at_answers := [];
     at_outcome := Return "Done." |}.

(** A model that records a file and reports 150 percent in one response;
    the two tools are answered in turn, so both have read the task and its
    [sha] before either writes. *)
Definition demo_model_hasty (model : string) (taskState : TaskState)
    (prompt : Prompt) : AgentTurn :=
  {| at_toolInvocations :=
       [call_recordFileChange "src/theme.ts" created "theme toggle";
        call_updateProgress "build" 150 ["wire toggle"] []];
     at_answers := [0; 1; 0; 1; 0; 1]%nat;
     at_outcome := Return "Done." |}.

Definition demo_env_hasty : Oracles :=
  {| o_is_uuid := demo_is_uuid;
     o_is_datetime := demo_is_datetime;
     o_zod_message := demo_zod_message;
     o_clock := demo_clock;
     o_uuids := demo_uuids;
     o_generateText := demo_model_hasty |}.

Definition demo_env_careless : Oracles :=
  {| o_is_uuid := demo_is_uuid;
     o_is_datetime := demo_is_datetime;
     o_zod_message := demo_zod_message;
     o_clock := demo_clock;
     o_uuids := demo_uuids;
     o_generateText := demo_model_careless |}.

(** A model that asks for a hand-off and answers. *)
Definition demo_model_handing_off (model : string) (taskState : TaskState)
    (prompt : Prompt) : AgentTurn :=
  {| at_toolInvocations :=
       [call_requestHandoff "expertise_needed" "Add the tests" "high"];
     at_answers := [];
     at_outcome := Return "Handing off." |}.

Definition demo_env_handing_off : Oracles :=
  {| o_is_uuid := demo_is_uuid;
     o_is_datetime := demo_is_datetime;
     o_zod_message := demo_zod_message;
     o_clock := demo_clock;
     o_uuids := demo_uuids;
     o_generateText := demo_model_handing_off |}.

(** The demo task after a file was recorded and progress was reported at
    40 percent: one file modification and one checkpoint. *)
Definition demo_worked : TaskState :=
  set_progress
    {| pg_currentPhase := "build";
       pg_checkpoints :=
         [ {| cp_id := demo_uuids 1;
              cp_timestamp := demo_clock 3;
              cp_description := "Progress update: build";
              cp_completedSteps := ["wire toggle"];
              cp_remainingSteps := ["add tests"];
              cp_blockers := None |} ];
       pg_percentComplete := 40 |}
    (set_files
       {| fl_modifications :=
            [ {| fm_path := "src/theme.ts"; fm_action := created;
                 fm_previousHash := None; fm_currentHash := "";
                 fm_summary := "theme toggle" |} ];
          fl_workingDirectory := "." |}
       demo_task).

(** The demo task at version 2^53. *)
Definition demo_aged : TaskState := set_version (2 ^ 53) demo_task.

(** The restricted task with an issue on the tracker. *)
Definition demo_tracked : TaskState :=
  set_github (set_issueNumber 7 (ts_github demo_restricted)) demo_restricted.

Definition demo_token (user agent : string) : AgentToken :=
  {| tk_sub := user; tk_agentId := agent;
     tk_iat := 1767225600; tk_exp := 1767312000;
     tk_scopes := ["task:read"; "task:write"; "task:handoff"] |}.

(** A production server that knows two tokens and, as the library does,
    refuses them from the second of their expiry on. *)
Definition demo_server : Server :=
  {| sv_development := false;
     sv_verify :=
       λ verified_at token,
         let signed :=
           if String.eqb token "token-a"
           then Some (demo_token "alice" "agent-a")
           else if String.eqb token "token-b"
           then Some (demo_token "bob" "agent-b")
           else None in
         match signed with
         | Some decoded =>
             if tk_exp decoded * 1000 <=? verified_at then None
             else Some decoded
         | None => None
         end;
     sv_default_state_repo := None;
     sv_request_issues := "Invalid uuid" |}.

(** A time before the tokens expire, and the last millisecond before. *)
Definition demo_now : Z := 1767225700000.


Definition demo_continue_request (token : string) : Request ContinueTaskBody :=
  {| rq_authorization := Some ("Bearer " +:+ token);
     rq_stateRepo := Some "acme/state";
     rq_body := {| cb_taskId := demo_id; cb_prompt := None;
                   cb_acceptHandoff := Some true |} |}.

Definition demo_handoff_request (token fromAgentId : string)
  : Request HandoffRequestBody :=
  {| rq_authorization := Some ("Bearer " +:+ token);
     rq_stateRepo := Some "acme/state";
     rq_body := {| hb_taskId := demo_id; hb_fromAgentId := fromAgentId;
                   hb_reason := "time_limit";
                   hb_instructions := "Finish the tests";
                   hb_urgency := "low"; hb_targetAgentId := None |} |}.

Definition demo_start_options (createIssue : bool) : CreateTaskOptions :=
  {| cto_request :=
       {| sr_title := "Add dark mode";
          sr_description := "Theme toggle in the settings page";
          sr_prompt := "Add dark mode";
          sr_repo := "acme/app";
          sr_branch := "main";
          sr_createIssue := createIssue;
          sr_model := None;
          sr_maxTurns := None |};
     cto_userId := "alice";
     cto_agentId := "agent-a";
     cto_stateRepo := "acme/state" |}.


(** ** Properties *)

(** Runs the primitive steps of an [async] computation. *)
Ltac async_step :=
  unfold async_bind, async_ret, async_throw, new_Date_toISOString, uuidv4,
    saveTaskState, createOrUpdateFileContents, getContent;
  cbn [w_uuids w_clock w_files].

(** *** The version counter *)

Lemma js_add_one_exact n : n < 2 ^ 53 → js_add_one n = n + 1.
Proof. intros Hn. unfold js_add_one. by rewrite (proj2 (Z.ltb_lt _ _) Hn). Qed.

Lemma js_add_one_bounds n : n ≤ js_add_one n ≤ n + 2.
Proof.
  unfold js_add_one. destruct (n <? 2 ^ 53); [lia|].
  destruct (n <? 2 ^ 54); [|lia]. destruct (Z.even (n / 2)); lia.
Qed.

(** *** Reading a task *)

Lemma getTask_inv taskId task w w' :
  getTask taskId w = (Return (Some task), w') →
  w' = w ∧ w_files w !! state_path taskId = Some (TaskDoc task)
  ∧ TaskStateSchema task = true.
Proof.
  unfold getTask, async_bind, getContent.
  destruct (w_files w !! state_path taskId) as [[t|tasks]|] eqn:Hfile;
    cbn; [|discriminate..].
  destruct (TaskStateSchema t) eqn:Hvalid; cbn; [|discriminate].
  intros [= -> ->]. auto.
Qed.

Lemma getTask_found taskId task w :
  w_files w !! state_path taskId = Some (TaskDoc task) →
  TaskStateSchema task = true →
  getTask taskId w = (Return (Some task), w).
Proof.
  intros Hfile Hvalid. unfold getTask, async_bind, getContent.
  rewrite Hfile. cbn. by rewrite Hvalid.
Qed.

Lemma getTask_same_world taskId r w w' : getTask taskId w = (r, w') → w' = w.
Proof.
  unfold getTask, async_bind, getContent.
  destruct (w_files w !! state_path taskId) as [[t|tasks]|]; cbn;
    [destruct (TaskStateSchema t); cbn|..]; by intros [= _ <-].
Qed.

Lemma getTask_or_throw_found taskId task w :
  getTask taskId w = (Return (Some task), w) →
  getTask_or_throw taskId w = (Return task, w).
Proof. intros H. unfold getTask_or_throw, async_bind. by rewrite H. Qed.

(** What a write leaves at the path it wrote. *)
Lemma saveTaskState_spec state w :
  saveTaskState state w =
    (Return tt, {| w_files := <[state_path (ts_id state) := TaskDoc state]> (w_files w);
                   w_clock := w_clock w; w_uuids := w_uuids w |}).
Proof. reflexivity. Qed.

Lemma update_last_snoc {A} (f : A → A) (l : list A) (x : A) :
  update_last f (l ++ [x]) = l ++ [f x].
Proof.
  unfold update_last. rewrite length_app. cbn.
  replace (length l + 1 - 1)%nat with (length l + 0)%nat by lia.
  by rewrite alter_app_r.
Qed.

(** *** Accepting a hand-off *)

(** C3. On a task that can be read, [acceptHandoff] throws "No handoff
    record found" and writes nothing when [handoffs] is empty; otherwise
    it returns and persists the task with [toAgent] of the last hand-off
    set to the accepting identity stamped with the current time, the rest
    of that record and every earlier record as they were, and status
    [handed_off]. *)
Theorem acceptHandoff_last_only taskId agentId userId task w :
  getTask taskId w = (Return (Some task), w) →
  (ts_handoffs task = [] →
     acceptHandoff taskId agentId userId w
     = (Throw (JsError "No handoff record found"), w))
  ∧ (∀ earlier lastHandoff,
       ts_handoffs task = earlier ++ [lastHandoff] →
       ∃ task' w',
         acceptHandoff taskId agentId userId w = (Return task', w')
         ∧ ts_handoffs task' =
             earlier ++
             [ {| ho_fromAgent := ho_fromAgent lastHandoff;
                  ho_toAgent :=
                    Some {| ai_userId := userId; ai_agentId := agentId;
                            ai_sessionId := "";
                            ai_startedAt := clock (w_clock w);
                            ai_endedAt := None |};
                  ho_handoffAt := ho_handoffAt lastHandoff;
                  ho_reason := ho_reason lastHandoff;
                  ho_instructions := ho_instructions lastHandoff |} ]
         ∧ ts_status task' = handed_off
         ∧ w_files w' = <[state_path (ts_id task) := TaskDoc task']> (w_files w)).
Proof.
  intros Hget. split.
  - intros Hempty. unfold acceptHandoff, async_bind.
    rewrite (getTask_or_throw_found _ _ _ Hget), Hempty. reflexivity.
  - intros earlier lastHandoff Hhandoffs. unfold acceptHandoff, async_bind.
    rewrite (getTask_or_throw_found _ _ _ Hget), Hhandoffs, last_snoc.
    unfold new_Date_toISOString, saveTaskState, createOrUpdateFileContents,
      async_ret.
    rewrite !update_last_snoc.
    eexists _, _. split; [reflexivity|]. cbn. auto.
Qed.

(** *** Compaction of the conversation history *)

Lemma string_length_append (a b : string) :
  String.length (a +:+ b) = (String.length a + String.length b)%nat.
Proof. induction a as [|c a IH]; simpl; [done|]. by f_equal. Qed.

(** C4. On a readable task whose history holds exactly 50 messages,
    [addConversationMessage] returns and persists a history of exactly 20
    messages, the last 19 of the old ones followed by the new one,
    unchanged; the 31 older messages become the lines
    "[role]: first 100 characters..." with the role spelled "user",
    "assistant" or "system", joined by the newline character and appended
    to the previous summary after the delimiter (two newlines, three dashes,
    one newline), so the summary is no shorter than before. *)
Theorem addConversationMessage_at_50 taskId message task w :
  getTask taskId w = (Return (Some task), w) →
  length (cx_conversationHistory (ts_context task)) = 50%nat →
  let newline := String (ascii_of_nat 10) EmptyString in
  let line (m : ConversationMessage) :=
    "[" +:+ match msg_role m with
            | user => "user"
            | assistant => "assistant"
            | system => "system"
            end
        +:+ "]: " +:+ substring 0 100 (msg_content m) +:+ "..." in
  ∃ task' w',
    addConversationMessage taskId message w = (Return tt, w')
    ∧ w_files w' = <[state_path (ts_id task) := TaskDoc task']> (w_files w)
    ∧ cx_conversationHistory (ts_context task')
      = drop 31 (cx_conversationHistory (ts_context task)) ++ [message]
    ∧ length (cx_conversationHistory (ts_context task')) = 20%nat
    ∧ cx_compactedSummary (ts_context task')
      = Some (default "" (cx_compactedSummary (ts_context task))
              +:+ newline +:+ newline +:+ "---" +:+ newline
              +:+ String.concat newline
                    (map line
                       (take 31 (cx_conversationHistory (ts_context task)))))
    ∧ (String.length (default "" (cx_compactedSummary (ts_context task)))
       ≤ String.length (default "" (cx_compactedSummary (ts_context task'))))%nat.
Proof.
  intros Hget Hlen newline line.
  unfold addConversationMessage, async_bind.
  rewrite (getTask_or_throw_found _ _ _ Hget).
  cbn [set_context ts_context cx_conversationHistory].
  rewrite length_app, Hlen. cbn [length Nat.add Nat.ltb Nat.leb].
  unfold new_Date_toISOString, saveTaskState, createOrUpdateFileContents.
  eexists _, _. split; [reflexivity|]. split; [reflexivity|].
  cbn [compactHistory set_updatedAt set_context ts_context ts_id
       cx_conversationHistory cx_compactedSummary].
  rewrite length_app, Hlen. cbn [length Nat.add Nat.sub].
  rewrite drop_app_le, take_app_le by lia.
  repeat split.
  - rewrite length_app, length_drop, Hlen. reflexivity.
  - destruct (cx_compactedSummary (ts_context task)) as [old|];
      unfold default, from_option, id; rewrite string_length_append; lia.
Qed.

(** *** Creating a task *)

Lemma state_path_not_index taskId : state_path taskId ≠ index_path.
Proof. unfold state_path, index_path, BASE_PATH. simpl. discriminate. Qed.

Lemma initial_taskState_schema self params now taskId :
  TaskStateSchema (initial_taskState self params now taskId)
  = is_uuid taskId && is_datetime now.
Proof.
  unfold TaskStateSchema, HandoffRecordSchema, AgentIdentitySchema. cbn.
  destruct (is_uuid taskId), (is_datetime now); reflexivity.
Qed.

(** When [createTask] returns, it returns the literal it built, which
    passed the schema and is what [getTask] then reads. *)
Lemma createTask_returned self params task w w' :
  createTask self params w = (Return task, w') →
  task = initial_taskState self params (clock (w_clock w)) (created_id params w)
  ∧ TaskStateSchema task = true
  ∧ getTask (created_id params w) w' = (Return (Some task), w').
Proof.
  unfold createTask, created_id.
  destruct (truthy (ct_id params)) as [i|]; cbn [default from_option id];
    unfold TaskStateSchema_parse; async_step.
  all: match goal with
       | |- context [TaskStateSchema ?t] =>
           destruct (TaskStateSchema t) eqn:Hvalid
       end; [|discriminate].
  all: unfold addToIndex; async_step;
       cbn [ts_id initial_taskState];
       rewrite lookup_insert_ne by apply state_path_not_index.
  all: destruct (w_files w !! index_path) as [[t|[tasks|]]|];
         cbn [w_uuids w_clock w_files]; try discriminate.
  all: intros [= <- <-]; split; [reflexivity|]; split; [assumption|].
  all: apply getTask_found; [|assumption]; cbn [w_files].
  all: rewrite lookup_insert_ne
         by (apply not_eq_sym, state_path_not_index).
  all: apply lookup_insert_eq.
Qed.

(** C5. Whatever the input, the task [createTask] returns has exactly one
    hand-off record, the synthesized one with reason "Task created" (so
    the list is not empty), status [pending], version 1 and
    percentComplete 0; and [createTask] does return one whenever the
    identifier and the timestamp pass the schema and the index can take
    one more entry. *)
Theorem createTask_initial_state self params w :
  (∀ task w',
     createTask self params w = (Return task, w') →
     (∃ genesis, ts_handoffs task = [genesis]
                 ∧ ho_reason genesis = "Task created")
     ∧ ts_handoffs task ≠ []
     ∧ ts_status task = pending
     ∧ ts_version task = 1
     ∧ pg_percentComplete (ts_progress task) = 0)
  ∧ (is_uuid (created_id params w) = true →
     is_datetime (clock (w_clock w)) = true →
     (w_files w !! index_path = None
      ∨ ∃ tasks, w_files w !! index_path = Some (IndexDoc (Some tasks))) →
     ∃ task w', createTask self params w = (Return task, w')).
Proof.
  split.
  - intros task w' Hcreate.
    destruct (createTask_returned _ _ _ _ _ Hcreate) as (-> & _ & _).
    cbn. split; [eauto|]. done.
  - intros Hid Hnow Hindex.
    unfold createTask, created_id in *.
    assert (∀ w1, TaskStateSchema_parse
              (TaskDoc (initial_taskState self params (clock (w_clock w))
                          (default (uuids (w_uuids w)) (truthy (ct_id params)))))
              w1
            = (Return (initial_taskState self params (clock (w_clock w))
                         (default (uuids (w_uuids w)) (truthy (ct_id params)))),
               w1)) as Hparse.
    { intros w1. unfold TaskStateSchema_parse.
      by rewrite initial_taskState_schema, Hid, Hnow. }
    destruct (truthy (ct_id params)) as [i|]; cbn [default from_option id] in *;
      unfold async_bind at 1 2 3; unfold new_Date_toISOString at 1;
      [unfold async_ret at 1 | unfold uuidv4 at 1];
      cbn [w_uuids w_clock w_files];
      rewrite Hparse;
      unfold addToIndex; async_step;
      cbn [ts_id initial_taskState];
      rewrite lookup_insert_ne by apply state_path_not_index;
      destruct Hindex as [-> | [tasks ->]]; cbn [w_uuids w_clock w_files];
      eauto.
Qed.

(** *** The authorization gate *)

Lemma includes_In (l : list string) (x : string) :
  includes l x = true ↔ In x l.
Proof.
  unfold includes. rewrite existsb_exists. split.
  - intros (y & Hin & Heq). apply String.eqb_eq in Heq. by subst.
  - intros Hin. exists x. split; [done|]. apply String.eqb_refl.
Qed.

Lemma authorized_iff task agentId :
  authorized task agentId = true
  ↔ In agentId (sc_allowedAgents (ts_security task))
    ∨ In "*" (sc_allowedAgents (ts_security task)).
Proof.
  unfold authorized. rewrite orb_true_iff, !includes_In. tauto.
Qed.

Lemma never_unauthorized_ret {A} (a : A) : never_unauthorized (async_ret a).
Proof. intros w. discriminate. Qed.

Lemma never_unauthorized_throw {A} (e : Thrown) :
  e ≠ not_authorized → never_unauthorized (@async_throw A e).
Proof. intros He w. cbn. congruence. Qed.

Lemma never_unauthorized_bind {A B} (m : Async A) (k : A → Async B) :
  never_unauthorized m → (∀ a, never_unauthorized (k a)) →
  never_unauthorized (async_bind m k).
Proof.
  intros Hm Hk w. unfold async_bind. specialize (Hm w).
  destruct (m w) as [[a|e] w1]; [apply Hk|]. cbn in *. congruence.
Qed.

(** Both handlers of the executor swallow what the turn throws. *)
Lemma never_unauthorized_swallow {A} (m : Async A) (h : Thrown → A) :
  never_unauthorized (try_catch m (λ e, async_ret (h e))).
Proof. intros w. unfold try_catch. by destruct (m w) as [[a|e] w1]. Qed.

Lemma never_unauthorized_getTask taskId : never_unauthorized (getTask taskId).
Proof.
  intros w. unfold getTask, TaskStateSchema_parse. async_step.
  destruct (w_files w !! state_path taskId) as [[t|tasks]|];
    [destruct (TaskStateSchema t)|..]; discriminate.
Qed.

Lemma never_unauthorized_getTask_or_throw taskId :
  never_unauthorized (getTask_or_throw taskId).
Proof.
  apply never_unauthorized_bind; [apply never_unauthorized_getTask|].
  intros [t|]; [apply never_unauthorized_ret|].
  by apply never_unauthorized_throw.
Qed.

Lemma never_unauthorized_acceptHandoff taskId agentId userId :
  never_unauthorized (acceptHandoff taskId agentId userId).
Proof.
  apply never_unauthorized_bind; [apply never_unauthorized_getTask_or_throw|].
  intros t. destruct (last (ts_handoffs t));
    [|by apply never_unauthorized_throw].
  intros w. discriminate.
Qed.

Lemma never_unauthorized_resume config sessionId additionalPrompt :
  never_unauthorized (resume config sessionId additionalPrompt).
Proof.
  apply never_unauthorized_bind; [apply never_unauthorized_getTask_or_throw|].
  intros t. apply never_unauthorized_swallow.
Qed.

Lemma never_unauthorized_parse repoString :
  never_unauthorized (λ w, (parseRepoString repoString, w)).
Proof.
  intros w. unfold parseRepoString.
  destruct (split_slash repoString) as [|o [|r [|x l]]]; discriminate.
Qed.

(** Past the gate nothing throws "Not authorized". *)
Lemma continueTask_passes_gate options task w :
  getTask (co_taskId options) w = (Return (Some task), w) →
  authorized task (co_agentId options) = true →
  (continueTask options w).1 ≠ Throw not_authorized.
Proof.
  intros Hget Hauth. unfold continueTask, new_TaskStateStore, async_bind at 1.
  pose proof (never_unauthorized_parse (co_stateRepo options) w) as Hrepo.
  destruct (parseRepoString (co_stateRepo options)) as [r|e];
    [|cbn in *; congruence].
  unfold async_bind at 1. rewrite Hget.
  unfold authorized in Hauth. apply orb_true_iff in Hauth.
  replace (negb (includes (sc_allowedAgents (ts_security task)) "*")
           && negb (includes (sc_allowedAgents (ts_security task))
                             (co_agentId options)))
    with false by (destruct Hauth as [-> | ->]; by rewrite ?andb_false_r).
  clear Hget Hrepo.
  match goal with
  | |- (?m w).1 ≠ _ => revert w; change (never_unauthorized m)
  end.
  apply never_unauthorized_bind.
  { destruct (co_acceptHandoff options && _);
      [|apply never_unauthorized_ret].
    apply never_unauthorized_bind; [apply never_unauthorized_acceptHandoff|].
    intros _. apply never_unauthorized_ret. }
  intros _. apply never_unauthorized_bind; [apply never_unauthorized_parse|].
  intros _. apply never_unauthorized_bind; [apply never_unauthorized_resume|].
  intros result.
  apply never_unauthorized_bind; [apply never_unauthorized_getTask|].
  intros updatedTask. apply never_unauthorized_ret.
Qed.

(** C7. For a task that can be read through a well-formed repository
    name, [continueTask] lets the caller pass, and with it accept the
    hand-off, exactly when the caller's agent identifier is an element of
    [security.allowedAgents] or "*" is; any other caller gets "Not
    authorized to continue this task" and the world is left as it was. *)
Theorem continueTask_authorization options task store w :
  parseRepoString (co_stateRepo options) = Return store →
  getTask (co_taskId options) w = (Return (Some task), w) →
  ((continueTask options w).1 ≠ Throw not_authorized
   ↔ In (co_agentId options) (sc_allowedAgents (ts_security task))
     ∨ In "*" (sc_allowedAgents (ts_security task)))
  ∧ (¬ (In (co_agentId options) (sc_allowedAgents (ts_security task))
        ∨ In "*" (sc_allowedAgents (ts_security task))) →
     continueTask options w = (Throw not_authorized, w)).
Proof.
  intros Hrepo Hget.
  assert (authorized task (co_agentId options) = false →
          continueTask options w = (Throw not_authorized, w)) as Hreject.
  { intros Hauth. unfold continueTask, new_TaskStateStore, async_bind at 1.
    rewrite Hrepo. unfold async_bind at 1. rewrite Hget.
    unfold authorized in Hauth. apply orb_false_iff in Hauth as [-> ->].
    reflexivity. }
  rewrite <- authorized_iff. split; [split|].
  - intros Hpass. destruct (authorized task (co_agentId options)); [done|].
    by rewrite Hreject in Hpass.
  - by apply continueTask_passes_gate.
  - intros Hauth. apply Hreject. by destruct (authorized _ _).
Qed.

(** C10. The task [createTask] returns has [allowedAgents] equal to
    ["*"] and [requireApproval] false, so every agent identifier passes
    the gate: [continueTask] on the freshly created task never answers
    "Not authorized", with or without accepting a hand-off. *)
Theorem createTask_allows_every_agent self params task w w' :
  createTask self params w = (Return task, w') →
  sc_allowedAgents (ts_security task) = ["*"]
  ∧ sc_requireApproval (ts_security task) = false
  ∧ (∀ agentId, authorized task agentId = true)
  ∧ (∀ options, co_taskId options = ts_id task →
       (continueTask options w').1 ≠ Throw not_authorized).
Proof.
  intros Hcreate.
  destruct (createTask_returned _ _ _ _ _ Hcreate) as (Htask & _ & Hget).
  assert (sc_allowedAgents (ts_security task) = ["*"]) as Hallowed
    by (by subst task).
  assert (∀ agentId, authorized task agentId = true) as Hall.
  { intros agentId. unfold authorized. by rewrite Hallowed. }
  repeat split; [done|by subst task|done|].
  intros options Hid. apply continueTask_passes_gate with task; [|done].
  rewrite Hid. by subst task.
Qed.

(** *** What each mutation persists *)

Ltac run_helper Hget :=
  unfold persisted, updateSessionId, addFileModification,
    addConversationMessage, updateProgress, updateNextSteps,
    initiateHandoff, async_bind;
  rewrite (getTask_or_throw_found _ _ _ Hget);
  async_step;
  try match goal with
      | |- context [if ?c then _ else _] => destruct c
      end;
  cbn [snd fst w_files ts_id set_updatedAt set_status set_session
       set_context set_progress set_files set_handoffs set_nextSteps
       compactHistory];
  rewrite ?lookup_insert_eq.

(** [updateTask] is the one place that bumps [version]: what it returns
    and persists has the version read plus one, as JavaScript adds, and
    [updatedAt] read from the clock. *)
Lemma updateTask_bumps_version taskId updates task task' w w' :
  getTask taskId w = (Return (Some task), w) →
  updateTask taskId updates w = (Return task', w') →
  ts_version task' = js_add_one (ts_version task)
  ∧ ts_updatedAt task' = clock (w_clock w)
  ∧ w_files w' !! state_path (ts_id task') = Some (TaskDoc task').
Proof.
  intros Hget. unfold updateTask, async_bind.
  rewrite (getTask_or_throw_found _ _ _ Hget).
  unfold TaskStateSchema_parse. async_step.
  match goal with
  | |- context [TaskStateSchema ?t] => destruct (TaskStateSchema t)
  end; [|discriminate].
  intros [= <- <-]. cbn [set_updatedAt set_version ts_version ts_updatedAt].
  repeat split. apply lookup_insert_eq.
Qed.

Lemma completeTask_bumps_version taskId task task' w w' :
  getTask taskId w = (Return (Some task), w) →
  completeTask taskId w = (Return task', w') →
  ts_version task' = js_add_one (ts_version task).
Proof. intros Hget Hdone. by eapply updateTask_bumps_version. Qed.

(** The seven other mutations write the document back with the version
    they read. *)
Lemma helpers_keep_version taskId task w :
  getTask taskId w = (Return (Some task), w) →
  ∀ m : Async unit,
    (∃ sessionId, m = updateSessionId taskId sessionId)
    ∨ (∃ modification, m = addFileModification taskId modification)
    ∨ (∃ message, m = addConversationMessage taskId message)
    ∨ (∃ progress, m = updateProgress taskId progress)
    ∨ (∃ nextSteps, m = updateNextSteps taskId nextSteps)
    ∨ (∃ handoff, m = (run initiateHandoff taskId handoff; async_ret tt))
    ∨ (∃ agentId userId, ts_handoffs task ≠ []
         ∧ m = (run acceptHandoff taskId agentId userId; async_ret tt)) →
    ∃ task',
      (m w).1 = Return tt
      ∧ persisted m w (ts_id task) = Some (TaskDoc task')
      ∧ ts_version task' = ts_version task.
Proof.
  intros Hget m
    [[x ->]|[[x ->]|[[x ->]|[[x ->]|[[x ->]|[[x ->]|(a & u & Hne & ->)]]]]]].
  1-6: run_helper Hget;
       eexists; (split; [reflexivity|split; reflexivity]).
  unfold persisted, acceptHandoff, async_bind.
  rewrite (getTask_or_throw_found _ _ _ Hget).
  destruct (last (ts_handoffs task)) eqn:Hlast;
    [|by apply last_None in Hlast].
  async_step.
  cbn [snd fst w_files ts_id set_updatedAt set_status set_handoffs].
  rewrite lookup_insert_eq.
  eexists; (split; [reflexivity|split; reflexivity]).
Qed.

(** Four of the five semantic helpers stamp [updatedAt] with the clock
    before they write. *)
Lemma helpers_refresh_updatedAt taskId task w :
  getTask taskId w = (Return (Some task), w) →
  ∀ m : Async unit,
    (∃ modification, m = addFileModification taskId modification)
    ∨ (∃ message, m = addConversationMessage taskId message)
    ∨ (∃ progress, m = updateProgress taskId progress)
    ∨ (∃ nextSteps, m = updateNextSteps taskId nextSteps) →
    ∃ task',
      (m w).1 = Return tt
      ∧ persisted m w (ts_id task) = Some (TaskDoc task')
      ∧ ts_updatedAt task' = clock (w_clock w).
Proof.
  intros Hget m [[x ->]|[[x ->]|[[x ->]|[x ->]]]];
    run_helper Hget;
    eexists; (split; [reflexivity|split; reflexivity]).
Qed.

(** [updateSessionId] does not: it never reads the clock and writes the
    document back with the [updatedAt] it read. *)
Lemma updateSessionId_keeps_updatedAt taskId sessionId task w :
  getTask taskId w = (Return (Some task), w) →
  ∃ task',
    (updateSessionId taskId sessionId w).1 = Return tt
    ∧ persisted (updateSessionId taskId sessionId) w (ts_id task)
      = Some (TaskDoc task')
    ∧ se_currentSessionId (ts_session task') = sessionId
    ∧ ts_status task' = in_progress
    ∧ ts_updatedAt task' = ts_updatedAt task
    ∧ w_clock (updateSessionId taskId sessionId w).2 = w_clock w.
Proof.
  intros Hget. run_helper Hget.
  eexists. split; [reflexivity|]. split; [reflexivity|]. by cbn.
Qed.

(** [updateProgress] writes the merged progress without parsing it with
    the schema: whatever [percentComplete] it is given is persisted. *)
Lemma updateProgress_unchecked taskId progress task w :
  getTask taskId w = (Return (Some task), w) →
  ∃ task',
    (updateProgress taskId progress w).1 = Return tt
    ∧ persisted (updateProgress taskId progress) w (ts_id task)
      = Some (TaskDoc task')
    ∧ ts_progress task' = spread_progress (ts_progress task) progress.
Proof.
  intros Hget. run_helper Hget.
  eexists. split; [reflexivity|]. split; reflexivity.
Qed.

(** A document whose [percentComplete] is out of range cannot be read
    back. *)
Lemma getTask_rejects_out_of_range taskId task w :
  w_files w !! state_path taskId = Some (TaskDoc task) →
  ¬ (0 ≤ pg_percentComplete (ts_progress task) ≤ 100) →
  getTask taskId w = (Throw (ZodError (zod_message (TaskDoc task))), w).
Proof.
  intros Hfile Hrange. unfold getTask, TaskStateSchema_parse. async_step.
  rewrite Hfile. replace (TaskStateSchema task) with false; [done|].
  symmetry. unfold TaskStateSchema.
  destruct (0 <=? pg_percentComplete (ts_progress task)) eqn:Hlo;
    destruct (pg_percentComplete (ts_progress task) <=? 100) eqn:Hhi;
    rewrite ?andb_false_r; try done.
  apply Z.leb_le in Hlo, Hhi. lia.
Qed.

(** *** The index *)

Lemma listTasks_without_index w :
  w_files w !! index_path = None → listTasks w = (Return [], w).
Proof. intros Hindex. unfold listTasks. async_step. by rewrite Hindex. Qed.

(** What [addToIndex] appends has the keys [id], [title] and [createdAt],
    and no [status]. *)
Lemma addToIndex_entry taskId title tasks w :
  w_files w !! index_path = Some (IndexDoc (Some tasks)) →
  ∃ entry w',
    addToIndex taskId title w = (Return tt, w')
    ∧ listTasks w' = (Return (tasks ++ [entry]), w')
    ∧ prop entry "id" = Some taskId
    ∧ prop entry "title" = Some title
    ∧ prop entry "createdAt" = Some (clock (w_clock w))
    ∧ prop entry "status" = None.
Proof.
  intros Hindex. unfold addToIndex, listTasks. async_step. rewrite Hindex.
  async_step. eexists _, _. split; [reflexivity|].
  cbn [w_files]. rewrite lookup_insert_eq. by cbn.
Qed.

(** *** Failures of the agent turn *)

Lemma answer_nil answers w : answer answers [] w = w.
Proof. induction answers as [|i answers IH]; [done|]. apply IH. Qed.

(** Starting the tools never throws and leaves the files alone. *)
Lemma tool_steps_starts taskId sessionId call w :
  ∃ tool w', tool_steps taskId sessionId call w = (Return tool, w')
             ∧ w_files w' = w_files w.
Proof. destruct call; cbn [tool_steps]; async_step; eauto. Qed.

Lemma start_tools_starts taskId sessionId calls w :
  ∃ tools w', start_tools taskId sessionId calls w = (Return tools, w')
              ∧ w_files w' = w_files w
              ∧ length tools = length calls.
Proof.
  revert w. induction calls as [|call calls IH]; intros w;
    cbn [start_tools]; [by eexists _, _|].
  destruct (tool_steps_starts taskId sessionId call w)
    as (tool & w1 & Htool & Hfiles1).
  destruct (IH w1) as (tools & w2 & Htools & Hfiles2 & Hlength).
  unfold async_bind at 1. rewrite Htool.
  unfold async_bind at 1. rewrite Htools.
  eexists _, _. split; [reflexivity|]. cbn. split; [congruence|by f_equal].
Qed.

Lemma run_tools_returns answers taskId sessionId calls w :
  (run_tools answers taskId sessionId calls w).1 = Return tt.
Proof.
  unfold run_tools, async_bind.
  by destruct (start_tools_starts taskId sessionId calls w)
    as (tools & w' & -> & _).
Qed.

(** [resume] answers a failed turn with the failure result and leaves the
    world as the turn's tools left it: it writes nothing itself. *)
Lemma resume_turn_failed config sessionId additionalPrompt task error w :
  getTask (cfg_taskId config) w = (Return (Some task), w) →
  at_outcome (generateText (cfg_model config) task
                (ResumptionPrompt task additionalPrompt)) = Throw error →
  resume config sessionId additionalPrompt w
  = (Return (failure_result sessionId task error),
     (run_tools
        (at_answers
           (generateText (cfg_model config) task
              (ResumptionPrompt task additionalPrompt)))
        (cfg_taskId config) sessionId
        (at_toolInvocations
           (generateText (cfg_model config) task
              (ResumptionPrompt task additionalPrompt))) w).2).
Proof.
  intros Hget Hturn. unfold resume, async_bind at 1.
  rewrite (getTask_or_throw_found _ _ _ Hget).
  unfold try_catch, async_bind at 1, agent_turn, async_bind at 1.
  pose proof (run_tools_returns
    (at_answers
       (generateText (cfg_model config) task
          (ResumptionPrompt task additionalPrompt)))
    (cfg_taskId config) sessionId
    (at_toolInvocations
       (generateText (cfg_model config) task
          (ResumptionPrompt task additionalPrompt))) w) as Htools.
  destruct (run_tools _ _ _ _ w) as [[[]|e] w1]; [|done].
  by rewrite Hturn.
Qed.

Lemma forallb_alter {A} (P : A → bool) (f : A → A) (i : nat) (l : list A) :
  (∀ x, P (f x) = P x) → forallb P (alter f i l) = forallb P l.
Proof.
  intros Hf. revert i. induction l as [|x l IH]; intros [|i]; cbn; try done.
  - by rewrite Hf.
  - by rewrite IH.
Qed.

Lemma updateSessionId_unfold taskId sessionId :
  updateSessionId taskId sessionId
  = (do task <- getTask_or_throw taskId;
     saveTaskState (assign_session sessionId task)).
Proof. reflexivity. Qed.

(** Assigning a session keeps a valid document valid. *)
Lemma assign_session_schema sessionId task :
  TaskStateSchema (assign_session sessionId task) = TaskStateSchema task.
Proof.
  unfold TaskStateSchema. cbn. unfold update_last.
  by rewrite forallb_alter.
Qed.

(** So does [updateTask] with a status alone, at a well-formed time. *)
Lemma status_update_schema now status task :
  TaskStateSchema task = true → is_datetime now = true →
  TaskStateSchema
    (set_updatedAt now
       (set_version (js_add_one (ts_version task))
          (spread_task task (status_update status)))) = true.
Proof.
  unfold TaskStateSchema. cbn. intros Hvalid ->.
  repeat (apply andb_prop in Hvalid as [Hvalid ?]).
  repeat (apply andb_true_intro; split); try done.
  apply Z.leb_le. assert (1 ≤ ts_version task) by by apply Z.leb_le.
  pose proof (js_add_one_bounds (ts_version task)). lia.
Qed.

(** [execute] answers a failed turn by writing status [failed] through
    [updateTask] before it returns the failure result. *)
Lemma execute_turn_failed config prompt task error w :
  getTask (cfg_taskId config) w = (Return (Some task), w) →
  ts_id task = cfg_taskId config →
  is_datetime (clock (w_clock w)) = true →
  at_toolInvocations (generateText (cfg_model config) task (PromptText prompt))
  = [] →
  at_outcome (generateText (cfg_model config) task (PromptText prompt))
  = Throw error →
  ∃ task' w',
    execute config prompt w
    = (Return (failure_result (uuids (w_uuids w)) task error), w')
    ∧ w_files w' !! state_path (cfg_taskId config) = Some (TaskDoc task')
    ∧ ts_status task' = failed
    ∧ ts_version task' = js_add_one (ts_version task).
Proof.
  intros Hget Hid Hnow Hcalls Hturn. unfold execute, async_bind at 1.
  rewrite (getTask_or_throw_found _ _ _ Hget).
  apply getTask_inv in Hget as (_ & Hfile & Hvalid).
  unfold async_bind at 1, uuidv4 at 1, async_bind at 1.
  rewrite updateSessionId_unfold. unfold async_bind at 1.
  set (w1 := {| w_files := w_files w; w_clock := w_clock w;
                w_uuids := S (w_uuids w) |}).
  rewrite (getTask_or_throw_found _ task w1)
    by (by apply getTask_found).
  set (task1 := assign_session (uuids (w_uuids w)) task).
  assert (ts_id task1 = cfg_taskId config) as Hid1 by done.
  assert (TaskStateSchema task1 = true) as Hvalid1
    by (by unfold task1; rewrite assign_session_schema).
  unfold saveTaskState at 1, createOrUpdateFileContents at 1.
  rewrite Hid1. cbn [w_files w_clock w_uuids w1].
  unfold try_catch, async_bind at 1, agent_turn. rewrite Hcalls, Hturn.
  unfold run_tools. cbn [start_tools]. async_step. rewrite answer_nil.
  unfold updateTask, async_bind at 1.
  match goal with
  | |- context [getTask_or_throw _ ?w2] =>
      rewrite (getTask_or_throw_found (cfg_taskId config) task1 w2)
        by (by apply getTask_found; [apply lookup_insert_eq|])
  end.
  unfold TaskStateSchema_parse. async_step.
  rewrite status_update_schema by done.
  eexists _, _. split; [reflexivity|]. cbn [w_files].
  replace (ts_id _) with (cfg_taskId config) by done.
  rewrite lookup_insert_eq. split; [reflexivity|]. by cbn.
Qed.

(** ** Further properties *)

(** *** Repository names ([parseRepoString]) *)

Lemma split_slash_nonempty s : split_slash s ≠ [].
Proof.
  induction s as [|c s IH]; cbn; [done|].
  destruct (Ascii.eqb c "/"); [done|]. by destruct (split_slash s).
Qed.

Lemma split_slash_free s : slash_free s = true → split_slash s = [s].
Proof.
  induction s as [|c s IH]; cbn; [done|].
  destruct (Ascii.eqb c "/"); cbn; [done|]. intros Hs. by rewrite IH.
Qed.

Lemma split_slash_app a b :
  slash_free a = true →
  split_slash (a +:+ "/" +:+ b) = a :: split_slash b.
Proof.
  induction a as [|c a IH]; simpl; [done|].
  destruct (Ascii.eqb c "/"); simpl; [done|]. intros Ha.
  simpl in IH. by rewrite IH.
Qed.

Lemma split_slash_join s :
  String.concat "/" (split_slash s) = s
  ∧ Forall (λ part, slash_free part = true) (split_slash s).
Proof.
  induction s as [|c s [IHjoin IHfree]]; cbn; [by repeat constructor|].
  pose proof (split_slash_nonempty s) as Hne.
  destruct (Ascii.eqb c "/") eqn:Hc.
  - apply Ascii.eqb_eq in Hc as ->. split; [|by constructor].
    destruct (split_slash s) as [|p ps]; [done|]. cbn in *. by rewrite IHjoin.
  - destruct (split_slash s) as [|p [|q ps]]; cbn in *.
    + done.
    + subst p. split; [done|]. constructor; [|done]. cbn. rewrite Hc.
      by inversion IHfree.
    + split; [by rewrite <- IHjoin|].
      inversion IHfree as [|? ? Hp Hps]; subst.
      constructor; [|done]. cbn. by rewrite Hc.
Qed.

(** X1. [parseRepoString] accepts exactly the strings with one "/": it
    returns [owner] and [repo] precisely when the input is [owner/repo]
    with no "/" in either part (either may be empty), and putting the
    parts back together gives the input. *)
Theorem parseRepoString_exactly_one_slash repoString ref :
  parseRepoString repoString = Return ref
  ↔ repoString = owner ref +:+ "/" +:+ repo ref
    ∧ slash_free (owner ref) = true
    ∧ slash_free (repo ref) = true.
Proof.
  split.
  - unfold parseRepoString. destruct (split_slash_join repoString) as [Hjoin Hfree].
    destruct (split_slash repoString) as [|o [|r [|x l]]]; try discriminate.
    intros [= <-]. cbn in *. inversion Hfree as [|? ? Ho Hr]; subst.
    inversion Hr; subst. by repeat split.
  - intros (-> & Ho & Hr). unfold parseRepoString.
    rewrite split_slash_app, split_slash_free by done. by destruct ref.
Qed.

(** *** What a computation may touch *)

Lemma same_identity_refl t : same_identity t t.
Proof. by repeat split. Qed.

Lemma same_identity_trans t1 t2 t3 :
  same_identity t1 t2 → same_identity t2 t3 → same_identity t1 t3.
Proof. unfold same_identity. intros. intuition congruence. Qed.

Lemma same_task_refl t : same_task t t.
Proof. by repeat split. Qed.

Lemma same_task_trans t1 t2 t3 :
  same_task t1 t2 → same_task t2 t3 → same_task t1 t3.
Proof.
  unfold same_task. intros (?&?&?&?&?&?&?) (?&?&?&?&?&?&?).
  repeat split; try congruence. lia.
Qed.

Lemma same_identity_task t t' : same_identity t t' → same_task t t'.
Proof.
  unfold same_identity, same_task. intros (?&Hv&?&?&?&?&?&?&?).
  repeat split; try done. rewrite Hv. lia.
Qed.

Lemma confined_at_same R taskId w w' :
  (∀ t, R t t) → id_ok taskId w → w_files w' = w_files w →
  confined_at R taskId w w'.
Proof.
  intros Hrefl Hok Hfiles. unfold confined_at, id_ok. rewrite Hfiles.
  repeat split; [done..|]. eauto.
Qed.

Lemma confined_at_trans R taskId w1 w2 w3 :
  (∀ t1 t2 t3, R t1 t2 → R t2 t3 → R t1 t3) →
  confined_at R taskId w1 w2 → confined_at R taskId w2 w3 →
  confined_at R taskId w1 w3.
Proof.
  intros Htrans (Hok2 & Hframe2 & Hdoc2) (Hok3 & Hframe3 & Hdoc3).
  repeat split; [done|..].
  - intros path Hpath. by rewrite Hframe3, Hframe2.
  - intros t1 Ht1. destruct (Hdoc2 t1 Ht1) as (t2 & Ht2 & HR2).
    destruct (Hdoc3 t2 Ht2) as (t3 & Ht3 & HR3). eauto.
Qed.

Lemma confined_at_weaken (R R' : TaskState → TaskState → Prop) taskId w w' :
  (∀ t t', R t t' → R' t t') →
  confined_at R taskId w w' → confined_at R' taskId w w'.
Proof.
  intros Hsub (Hok & Hframe & Hdoc). repeat split; [done..|].
  intros t Ht. destruct (Hdoc t Ht) as (t' & Ht' & HR). eauto.
Qed.

(** Writing [t'] where the task [t] was read. *)
Lemma confined_at_write R taskId t t' c u w :
  ts_id t' = taskId → R t t' →
  w_files w !! state_path taskId = Some (TaskDoc t) →
  confined_at R taskId w
    {| w_files := <[state_path (ts_id t') := TaskDoc t']> (w_files w);
       w_clock := c; w_uuids := u |}.
Proof.
  intros Hid HR Hfile. unfold confined_at, id_ok. cbn [w_files]. rewrite Hid.
  repeat split.
  - intros t0. rewrite lookup_insert_eq. by intros [= <-].
  - intros path Hpath. by rewrite lookup_insert_ne.
  - intros t0 Ht0. rewrite lookup_insert_eq.
    rewrite Hfile in Ht0. injection Ht0 as <-. eauto.
Qed.

Lemma confined_ret R taskId {A} (a : A) :
  (∀ t, R t t) → confined R taskId (async_ret a).
Proof. intros Hrefl w Hok. by apply confined_at_same. Qed.

Lemma confined_throw R taskId {A} (e : Thrown) :
  (∀ t, R t t) → confined R taskId (@async_throw A e).
Proof. intros Hrefl w Hok. by apply confined_at_same. Qed.

Lemma confined_bind R taskId {A B} (m : Async A) (k : A → Async B) :
  (∀ t, R t t) → (∀ t1 t2 t3, R t1 t2 → R t2 t3 → R t1 t3) →
  confined R taskId m → (∀ a, confined R taskId (k a)) →
  confined R taskId (async_bind m k).
Proof.
  intros Hrefl Htrans Hm Hk w Hok. unfold async_bind.
  specialize (Hm w Hok). destruct (m w) as [[a|e] w1]; cbn [snd] in *; [|done].
  eapply confined_at_trans; [done|exact Hm|]. apply Hk, Hm.
Qed.

Lemma confined_try_catch R taskId {A} (m : Async A) (h : Thrown → Async A) :
  (∀ t, R t t) → (∀ t1 t2 t3, R t1 t2 → R t2 t3 → R t1 t3) →
  confined R taskId m → (∀ e, confined R taskId (h e)) →
  confined R taskId (try_catch m h).
Proof.
  intros Hrefl Htrans Hm Hh w Hok. unfold try_catch.
  specialize (Hm w Hok). destruct (m w) as [[a|e] w1]; cbn [snd] in *; [done|].
  eapply confined_at_trans; [done|exact Hm|]. apply Hh, Hm.
Qed.

Lemma confined_weaken (R R' : TaskState → TaskState → Prop) taskId {A}
    (m : Async A) :
  (∀ t t', R t t' → R' t t') → confined R taskId m → confined R' taskId m.
Proof. intros Hsub Hm w Hok. eapply confined_at_weaken; [done|]. by apply Hm. Qed.

Lemma confined_clock R taskId :
  (∀ t, R t t) → confined R taskId new_Date_toISOString.
Proof. intros Hrefl w Hok. by apply confined_at_same. Qed.

Lemma confined_uuidv4 R taskId : (∀ t, R t t) → confined R taskId uuidv4.
Proof. intros Hrefl w Hok. by apply confined_at_same. Qed.

Lemma confined_getTask R taskId otherId :
  (∀ t, R t t) → confined R taskId (getTask otherId).
Proof.
  intros Hrefl w Hok. apply confined_at_same; [done..|].
  destruct (getTask otherId w) as [r w'] eqn:Hget.
  by rewrite (getTask_same_world _ _ _ _ Hget).
Qed.

(** How reading a task that must exist ends. *)
Lemma getTask_or_throw_cases taskId w :
  (∃ task, getTask_or_throw taskId w = (Return task, w)
           ∧ w_files w !! state_path taskId = Some (TaskDoc task)
           ∧ TaskStateSchema task = true)
  ∨ (∃ e, getTask_or_throw taskId w = (Throw e, w)).
Proof.
  unfold getTask_or_throw, async_bind.
  destruct (getTask taskId w) as [[[task|]|e] w'] eqn:Hget.
  - apply getTask_inv in Hget as (-> & Hfile & Hvalid). left. eauto.
  - apply getTask_same_world in Hget as ->. right. eauto.
  - apply getTask_same_world in Hget as ->. right. eauto.
Qed.

(** The shape of every in-place method: read the task, compute, write. *)
Ltac confined_method taskId w Hok :=
  destruct (getTask_or_throw_cases taskId w) as
    [(task & -> & Hfile & Hvalid)|(e & ->)];
  [|by apply confined_at_same; [intros; repeat split; (done || lia)|..]];
  async_step; cbn [snd];
  apply (confined_at_write _ _ task);
    [cbn; by apply Hok|repeat split; cbn; (done || lia)|done].

Lemma confined_updateSessionId taskId sessionId :
  confined same_task taskId (updateSessionId taskId sessionId).
Proof.
  intros w Hok. unfold updateSessionId, async_bind.
  confined_method taskId w Hok.
Qed.

Lemma confined_addFileModification taskId modification :
  confined same_identity taskId (addFileModification taskId modification).
Proof.
  intros w Hok. unfold addFileModification, async_bind.
  confined_method taskId w Hok.
Qed.

Lemma confined_updateProgress taskId progress :
  confined same_identity taskId (updateProgress taskId progress).
Proof.
  intros w Hok. unfold updateProgress, async_bind.
  confined_method taskId w Hok.
Qed.

Lemma confined_updateNextSteps taskId nextSteps :
  confined same_identity taskId (updateNextSteps taskId nextSteps).
Proof.
  intros w Hok. unfold updateNextSteps, async_bind.
  confined_method taskId w Hok.
Qed.

Lemma confined_initiateHandoff taskId handoff :
  confined same_identity taskId (initiateHandoff taskId handoff).
Proof.
  intros w Hok. unfold initiateHandoff, async_bind.
  confined_method taskId w Hok.
Qed.

Lemma confined_acceptHandoff taskId agentId userId :
  confined same_identity taskId (acceptHandoff taskId agentId userId).
Proof.
  intros w Hok. unfold acceptHandoff, async_bind.
  destruct (getTask_or_throw_cases taskId w) as
    [(task & -> & Hfile & Hvalid)|(e & ->)];
    [|by apply confined_at_same; [apply same_identity_refl|..]].
  destruct (last (ts_handoffs task));
    [|by apply confined_at_same; [apply same_identity_refl|..]].
  async_step. cbn [snd].
  apply (confined_at_write _ _ task); [cbn; by apply Hok|by repeat split|done].
Qed.

Lemma confined_addConversationMessage taskId message :
  confined same_task taskId (addConversationMessage taskId message).
Proof.
  intros w Hok. unfold addConversationMessage, async_bind.
  destruct (getTask_or_throw_cases taskId w) as
    [(task & -> & Hfile & Hvalid)|(e & ->)];
    [|by apply confined_at_same; [apply same_task_refl|..]].
  async_step. cbn [snd].
  destruct (50 <? _)%nat;
    (apply (confined_at_write _ _ task); [cbn; by apply Hok| |done]);
    repeat split; cbn; lia.
Qed.

(** [updateTask] with updates that leave the identifier and what
    [same_task] lists alone. *)
Lemma confined_updateTask_status taskId status :
  confined same_task taskId (updateTask taskId (status_update status)).
Proof.
  intros w Hok. unfold updateTask, async_bind.
  destruct (getTask_or_throw_cases taskId w) as
    [(task & -> & Hfile & Hvalid)|(e & ->)];
    [|by apply confined_at_same; [apply same_task_refl|..]].
  unfold TaskStateSchema_parse. async_step.
  match goal with
  | |- context [TaskStateSchema ?t] => destruct (TaskStateSchema t)
  end; async_step; cbn [snd].
  - apply (confined_at_write _ _ task); [cbn; by apply Hok| |done].
    repeat split; cbn; try done.
    by destruct (js_add_one_bounds (ts_version task)).
  - apply confined_at_same; [apply same_task_refl|done|reflexivity].
Qed.

Lemma confined_getTask_or_throw R taskId otherId :
  (∀ t, R t t) → confined R taskId (getTask_or_throw otherId).
Proof.
  intros Hrefl w Hok. apply confined_at_same; [done..|].
  by destruct (getTask_or_throw_cases otherId w) as [(t & -> & _)|(e & ->)].
Qed.

Lemma confined_tool_execute taskId sessionId call :
  confined same_identity taskId (tool_execute taskId sessionId call).
Proof.
  pose proof same_identity_refl as Hrefl.
  pose proof same_identity_trans as Htrans.
  destruct call; cbn [tool_execute].
  - apply confined_bind; [done..|by apply confined_uuidv4|]. intros cid.
    apply confined_bind; [done..|by apply confined_clock|]. intros now.
    apply confined_updateProgress.
  - apply confined_updateNextSteps.
  - apply confined_addFileModification.
  - apply confined_bind; [done..|by apply confined_getTask_or_throw|].
    intros task. apply confined_bind; [done..| |].
    + destruct (last (ts_handoffs task)); [by apply confined_ret|].
      apply confined_bind; [done..|by apply confined_clock|].
      intros now. by apply confined_ret.
    + intros fromAgent.
      apply confined_bind; [done..|by apply confined_clock|]. intros now.
      apply confined_bind; [done..|apply confined_initiateHandoff|].
      intros _. by apply confined_ret.
Qed.

(** *** Tools that run together *)

Lemma settle_keep (I : World → Prop) tool w :
  steps_keep I tool → I w → I (settle tool w).
Proof.
  revert w. induction tool as [|A m k IH]; intros w Hkeep Hw; [done|].
  cbn [settle steps_keep] in *. destruct (Hkeep w Hw) as [Hnext Hrest].
  destruct (m w) as [[a|e] w']; cbn [fst snd] in *; [|done].
  apply IH; [by apply Hrest|done].
Qed.

Lemma answer_keep (I : World → Prop) answers tools w :
  Forall (steps_keep I) tools → I w → I (answer answers tools w).
Proof.
  revert tools w. induction answers as [|i answers IH]; intros tools w Hkeep Hw.
  - cbn [answer]. revert w Hw.
    induction Hkeep as [|tool tools Htool _ IHtools]; intros w Hw; [done|].
    cbn [foldl]. apply IHtools. by apply settle_keep.
  - cbn [answer]. destruct (tools !! i) as [[|A m k]|] eqn:Htool;
      [by apply IH..| |by apply IH].
    pose proof (proj1 (Forall_lookup _ _) Hkeep i _ Htool) as Hstep.
    cbn [steps_keep] in Hstep. destruct (Hstep w Hw) as [Hnext Hrest].
    destruct (m w) as [[a|e] w']; cbn [fst snd] in *;
      (apply IH; [apply Forall_insert; [done|]|done]); [by apply Hrest|done].
Qed.

(** Once the tools started, an answered tool writes only documents that
    carry the task's identifier and what [same_identity] lists of the
    document the turn began with, whichever document it read. *)
Lemma saveTaskState_steps_keep taskId state w0 :
  ts_id state = taskId →
  (∀ t, w_files w0 !! state_path taskId = Some (TaskDoc t) →
        same_identity t state) →
  steps_keep (confined_at same_identity taskId w0) (saveTaskState_steps state).
Proof.
  intros Hid Hclass. unfold saveTaskState_steps. cbn [steps_keep].
  intros w Hw. split; [exact Hw|]. intros read _ w1 Hw1.
  split; [|done]. unfold createOrUpdateFileContents_sha.
  destruct (decide _); [|exact Hw1].
  destruct Hw1 as (Hok1 & Hframe1 & Hdoc1).
  unfold createOrUpdateFileContents, confined_at, id_ok. cbn [snd w_files].
  rewrite Hid. repeat split.
  - intros t. rewrite lookup_insert_eq. by intros [= <-].
  - intros path Hpath. rewrite lookup_insert_ne by done. by apply Hframe1.
  - intros t Ht. rewrite lookup_insert_eq. eauto.
Qed.

(** The first step of a helper: the task is read, changed by [f] and
    stamped. *)
Lemma helper_steps_keep taskId (f : TaskState → TaskState) w0 :
  (∀ t, ts_id (f t) = ts_id t) →
  (∀ t now, same_identity t (set_updatedAt now (f t))) →
  steps_keep (confined_at same_identity taskId w0)
    (Await (do task <- getTask_or_throw taskId;
            do now <- new_Date_toISOString;
            async_ret (set_updatedAt now (f task)))
       saveTaskState_steps).
Proof.
  intros Hid Hsame. cbn [steps_keep]. intros w Hw. unfold async_bind.
  destruct (getTask_or_throw_cases taskId w) as
    [(task & -> & Hfile & Hvalid)|(e & ->)]; [|by split].
  async_step. cbn [fst snd]. split.
  - destruct Hw as (Hok & Hframe & Hdoc). by repeat split.
  - intros state [= <-]. destruct Hw as (Hok & Hframe & Hdoc).
    apply saveTaskState_steps_keep.
    + cbn [ts_id set_updatedAt]. rewrite Hid. by apply Hok.
    + intros t Ht. destruct (Hdoc t Ht) as (t' & Ht' & Hsame').
      rewrite Hfile in Ht'. injection Ht' as <-.
      eapply same_identity_trans; [exact Hsame'|apply Hsame].
Qed.

Lemma tool_steps_keep taskId sessionId call w0 w tool w' :
  tool_steps taskId sessionId call w = (Return tool, w') →
  steps_keep (confined_at same_identity taskId w0) tool.
Proof.
  destruct call; cbn [tool_steps];
    [unfold async_bind at 1 2, uuidv4 at 1, new_Date_toISOString at 1|..];
    unfold async_ret at 1; intros [= <- _].
  - apply (helper_steps_keep taskId
             (λ task, set_progress (spread_progress (ts_progress task) _) task));
      [done|by repeat split].
  - apply (helper_steps_keep taskId
             (λ task, set_nextSteps (spread_nextSteps (ts_nextSteps task) _) task));
      [done|by repeat split].
  - apply (helper_steps_keep taskId
             (λ task, set_files
                        {| fl_modifications :=
                             fl_modifications (ts_files task) ++ [_];
                           fl_workingDirectory :=
                             fl_workingDirectory (ts_files task) |} task));
      [done|by repeat split].
  - cbn [steps_keep]. intros w1 Hw1. split.
    + assert (w_files ((do task <- getTask_or_throw taskId;
                        do fromAgent <-
                          match last (ts_handoffs task) with
                          | Some lastHandoff =>
                              async_ret (ho_fromAgent lastHandoff)
                          | None =>
                              do now <- new_Date_toISOString;
                              async_ret
                                {| ai_userId := "unknown";
                                   ai_agentId := "unknown";
                                   ai_sessionId := sessionId;
                                   ai_startedAt := now;
                                   ai_endedAt := None |}
                          end;
                        do now <- new_Date_toISOString;
                        async_ret
                          {| hi_fromAgent := fromAgent; hi_handoffAt := now;
                             hi_reason := reason;
                             hi_instructions := instructions |}) w1).2
              = w_files w1) as Hfiles.
      { unfold async_bind.
        destruct (getTask_or_throw_cases taskId w1) as
          [(task & -> & _)|(e & ->)]; [|done].
        by destruct (last (ts_handoffs task)). }
      destruct Hw1 as (Hok & Hframe & Hdoc).
      unfold confined_at, id_ok. rewrite Hfiles. by repeat split.
    + intros handoff _.
      apply (helper_steps_keep taskId
               (λ task, set_handoffs (ts_handoffs task ++ [handoff_of_init handoff])
                          (set_status awaiting_handoff task)));
        [done|by repeat split].
Qed.

Lemma start_tools_keep taskId sessionId calls w0 w tools w' :
  start_tools taskId sessionId calls w = (Return tools, w') →
  Forall (steps_keep (confined_at same_identity taskId w0)) tools.
Proof.
  revert w tools w'. induction calls as [|call calls IH]; intros w tools w';
    cbn [start_tools]; [by intros [= <- _]|].
  unfold async_bind at 1.
  destruct (tool_steps taskId sessionId call w) as [[tool|e] w1] eqn:Htool;
    [|discriminate].
  unfold async_bind at 1.
  destruct (start_tools taskId sessionId calls w1) as [[others|e] w2] eqn:Hothers;
    [|discriminate].
  intros [= <- _]. constructor; [by eapply tool_steps_keep|by eapply IH].
Qed.

Lemma confined_run_tools answers taskId sessionId calls :
  confined same_identity taskId (run_tools answers taskId sessionId calls).
Proof.
  intros w Hok. unfold run_tools, async_bind.
  destruct (start_tools_starts taskId sessionId calls w)
    as (tools & w1 & Hstart & Hfiles & _).
  rewrite Hstart. cbn [snd].
  apply answer_keep; [by eapply start_tools_keep|].
  by apply confined_at_same; [apply same_identity_refl|..].
Qed.

(** A tool that runs alone goes through its steps without a refusal. *)
Lemma settle_saveTaskState state w :
  settle (saveTaskState_steps state) w = (saveTaskState state w).2.
Proof.
  unfold saveTaskState_steps. cbn [settle]. unfold getContent.
  unfold createOrUpdateFileContents_sha. by rewrite decide_True.
Qed.

Lemma tool_alone taskId sessionId call w :
  ∃ tool w0,
    tool_steps taskId sessionId call w = (Return tool, w0)
    ∧ settle tool w0 = (tool_execute taskId sessionId call w).2.
Proof.
  destruct call; cbn [tool_steps tool_execute]; async_step;
    eexists _, _; (split; [reflexivity|]).
  - unfold updateProgress_steps, updateProgress. cbn [settle].
    unfold async_bind.
    match goal with
    | |- context [getTask_or_throw taskId ?w1] =>
        destruct (getTask_or_throw_cases taskId w1) as
          [(task & -> & _)|(e & ->)]; [|done]
    end.
    async_step. by rewrite settle_saveTaskState.
  - unfold updateNextSteps_steps, updateNextSteps. cbn [settle].
    unfold async_bind.
    destruct (getTask_or_throw_cases taskId w) as
      [(task & -> & _)|(e & ->)]; [|done].
    async_step. by rewrite settle_saveTaskState.
  - unfold addFileModification_steps, addFileModification. cbn [settle].
    unfold async_bind.
    destruct (getTask_or_throw_cases taskId w) as
      [(task & -> & _)|(e & ->)]; [|done].
    async_step. by rewrite settle_saveTaskState.
  - unfold initiateHandoff_steps, initiateHandoff. cbn [settle].
    unfold async_bind.
    destruct (getTask_or_throw_cases taskId w) as
      [(task & Hread & Hfile & Hvalid)|(e & ->)]; [rewrite Hread|done].
    destruct (last (ts_handoffs task)); async_step;
      match goal with
      | |- context [getTask_or_throw _ ?w1] =>
          rewrite (getTask_or_throw_found _ task w1)
            by (by apply getTask_found)
      end;
      async_step; by rewrite settle_saveTaskState.
Qed.

Lemma answer_single answers tool w : answer answers [tool] w = settle tool w.
Proof.
  revert tool w. induction answers as [|i answers IH]; intros tool w; [done|].
  cbn [answer]. destruct i as [|i]; cbn [lookup list_lookup]; [|apply IH].
  destruct tool as [|A m k]; [apply IH|]. cbn [settle].
  destruct (m w) as [[a|e] w']; cbn [insert list_insert]; rewrite IH; done.
Qed.

(** A turn with one tool call: the tool runs alone, whatever the order of
    the answers. *)
Lemma run_tools_single answers taskId sessionId call w :
  run_tools answers taskId sessionId [call] w
  = (Return tt, (tool_execute taskId sessionId call w).2).
Proof.
  unfold run_tools. cbn [start_tools]. unfold async_bind at 1 2.
  destruct (tool_alone taskId sessionId call w) as (tool & w0 & -> & <-).
  async_step. by rewrite answer_single.
Qed.

(** X2. Whatever tools the agent invokes in one response, with whatever
    inputs, and in whatever order their calls on the repository are
    answered while they run together, they only write the document of the
    turn's task: every other task and the index stay as they were, and in
    the task's document, when it is stored under the task's own identifier,
    the tools change neither the identifier, the version, the title, the
    description, the creation time, the GitHub linkage, the session, the
    conversation context nor the security settings (so no tool call can
    widen the allow-list). *)
Theorem agent_tools_keep_identity answers taskId sessionId calls task w :
  id_ok taskId w →
  w_files w !! state_path taskId = Some (TaskDoc task) →
  let w' := (run_tools answers taskId sessionId calls w).2 in
  (∃ task', w_files w' !! state_path taskId = Some (TaskDoc task')
            ∧ same_identity task task')
  ∧ (∀ path, path ≠ state_path taskId → w_files w' !! path = w_files w !! path).
Proof.
  intros Hok Hfile.
  destruct (confined_run_tools answers taskId sessionId calls w Hok)
    as (_ & Hframe & Hdoc).
  split; [by apply Hdoc|exact Hframe].
Qed.

Lemma confined_agent_turn config sessionId taskState prompt :
  confined same_identity (cfg_taskId config)
    (agent_turn config sessionId taskState prompt).
Proof.
  apply confined_bind;
    [apply same_identity_refl|apply same_identity_trans
    |apply confined_run_tools|].
  intros _ w Hok. apply confined_at_same; [apply same_identity_refl|done..].
Qed.

Lemma confined_turn_succeeded config sessionId taskState text :
  confined same_task (cfg_taskId config)
    (turn_succeeded config sessionId taskState text).
Proof.
  pose proof same_task_refl as Hrefl. pose proof same_task_trans as Htrans.
  apply confined_bind; [done..|apply confined_updateTask_status|]. intros _.
  apply confined_bind; [done..|by apply confined_clock|]. intros now.
  apply confined_bind; [done..|apply confined_addConversationMessage|].
  intros _. by apply confined_ret.
Qed.

Lemma confined_execute config prompt :
  confined same_task (cfg_taskId config) (execute config prompt).
Proof.
  pose proof same_task_refl as Hrefl. pose proof same_task_trans as Htrans.
  apply confined_bind; [done..|by apply confined_getTask_or_throw|].
  intros taskState.
  apply confined_bind; [done..|by apply confined_uuidv4|]. intros sessionId.
  apply confined_bind; [done..|apply confined_updateSessionId|]. intros _.
  apply confined_try_catch; [done..| |].
  - apply confined_bind; [done..| |intros text; apply confined_turn_succeeded].
    eapply confined_weaken; [apply same_identity_task|].
    apply confined_agent_turn.
  - intros e.
    apply confined_bind; [done..|apply confined_updateTask_status|].
    intros _. by apply confined_ret.
Qed.

Lemma confined_resume config sessionId additionalPrompt :
  confined same_task (cfg_taskId config)
    (resume config sessionId additionalPrompt).
Proof.
  pose proof same_task_refl as Hrefl. pose proof same_task_trans as Htrans.
  apply confined_bind; [done..|by apply confined_getTask_or_throw|].
  intros taskState. apply confined_try_catch; [done..| |].
  - apply confined_bind; [done..| |intros text; apply confined_turn_succeeded].
    eapply confined_weaken; [apply same_identity_task|].
    apply confined_agent_turn.
  - intros e. by apply confined_ret.
Qed.

Lemma confined_parse R taskId repoString :
  (∀ t, R t t) → confined R taskId (λ w, (parseRepoString repoString, w)).
Proof. intros Hrefl w Hok. by apply confined_at_same. Qed.

Lemma confined_continueTask options :
  confined same_task (co_taskId options) (continueTask options).
Proof.
  pose proof same_task_refl as Hrefl. pose proof same_task_trans as Htrans.
  apply confined_bind; [done..|by apply confined_parse|]. intros _.
  apply confined_bind; [done..|by apply confined_getTask|].
  intros [task|]; [|by apply confined_throw].
  destruct (negb _ && negb _); [by apply confined_throw|].
  apply confined_bind; [done..| |].
  { destruct (co_acceptHandoff options && _); [|by apply confined_ret].
    apply confined_bind; [done..| |intros _; by apply confined_ret].
    eapply confined_weaken; [apply same_identity_task|].
    apply confined_acceptHandoff. }
  intros _. apply confined_bind; [done..|by apply confined_parse|]. intros _.
  apply confined_bind; [done..| |].
  { apply (confined_resume
             {| cfg_taskId := co_taskId options;
                cfg_model := "claude-sonnet-4-5-20250929";
                cfg_maxTurns := 50 |}). }
  intros result. apply confined_bind; [done..|by apply confined_getTask|].
  intros updatedTask. by apply confined_ret.
Qed.

(** X3. A whole turn, [execute], [resume] or [continueTask] with or without
    accepting a hand-off, whatever the model answers and whatever tools it
    calls, writes only the document of its own task: every other task and
    the index are left as they were.  In the task's document it never
    changes the identifier, the title, the description, the creation time,
    the GitHub linkage or the security settings, and never lowers the
    version. *)
Theorem turn_touches_only_its_task config prompt sessionId additionalPrompt options :
  confined same_task (cfg_taskId config) (execute config prompt)
  ∧ confined same_task (cfg_taskId config)
      (resume config sessionId additionalPrompt)
  ∧ confined same_task (co_taskId options) (continueTask options).
Proof.
  split; [apply confined_execute|].
  split; [apply confined_resume|apply confined_continueTask].
Qed.

(** *** Errors and validation in the repository *)

Lemma getTask_or_throw_missing taskId w :
  w_files w !! state_path taskId = None →
  getTask_or_throw taskId w = (Throw (JsError "Task not found"), w).
Proof.
  intros Hfile. unfold getTask_or_throw, getTask. async_step. by rewrite Hfile.
Qed.

(** X4. When no document is stored for a task, [getTask] returns null, and
    every mutation of the repository, as well as [execute] and [resume],
    throws "Task not found" without reading the clock or writing
    anything. *)
Theorem missing_task_is_not_found taskId w :
  w_files w !! state_path taskId = None →
  getTask taskId w = (Return None, w)
  ∧ (∀ updates,
       updateTask taskId updates w = (Throw (JsError "Task not found"), w))
  ∧ completeTask taskId w = (Throw (JsError "Task not found"), w)
  ∧ (∀ sessionId,
       updateSessionId taskId sessionId w
       = (Throw (JsError "Task not found"), w))
  ∧ (∀ modification,
       addFileModification taskId modification w
       = (Throw (JsError "Task not found"), w))
  ∧ (∀ message,
       addConversationMessage taskId message w
       = (Throw (JsError "Task not found"), w))
  ∧ (∀ progress,
       updateProgress taskId progress w
       = (Throw (JsError "Task not found"), w))
  ∧ (∀ nextSteps,
       updateNextSteps taskId nextSteps w
       = (Throw (JsError "Task not found"), w))
  ∧ (∀ handoff,
       initiateHandoff taskId handoff w
       = (Throw (JsError "Task not found"), w))
  ∧ (∀ agentId userId,
       acceptHandoff taskId agentId userId w
       = (Throw (JsError "Task not found"), w))
  ∧ (∀ config prompt, cfg_taskId config = taskId →
       execute config prompt w = (Throw (JsError "Task not found"), w))
  ∧ (∀ config sessionId additionalPrompt, cfg_taskId config = taskId →
       resume config sessionId additionalPrompt w
       = (Throw (JsError "Task not found"), w)).
Proof.
  intros Hfile. pose proof (getTask_or_throw_missing _ _ Hfile) as Hthrow.
  split; [unfold getTask; async_step; by rewrite Hfile|].
  repeat split; intros;
    unfold completeTask, updateTask, updateSessionId, addFileModification,
      addConversationMessage, updateProgress, updateNextSteps,
      initiateHandoff, acceptHandoff, execute, resume, async_bind;
    subst; by rewrite Hthrow.
Qed.

(** X5. [updateTask] is all or nothing.  When it returns, the document it
    returns passed the schema, carries the current time and the version
    read plus one, as JavaScript adds, whatever [version] and [updatedAt]
    the updates carried, is what [getTask] reads under its identifier, and
    no other path changed.  The version is exactly one more while the
    version read is below 2^53; at 2^53 the sum is rounded and the version
    stays what it was; it is never lower than the version read, nor more
    than two above.  When [updateTask] throws, no file changed. *)
Theorem updateTask_all_or_nothing taskId updates w :
  match updateTask taskId updates w with
  | (Return task', w') =>
      TaskStateSchema task' = true
      ∧ (∃ current,
           w_files w !! state_path taskId = Some (TaskDoc current)
           ∧ ts_version task' = js_add_one (ts_version current)
           ∧ (ts_version current < 2 ^ 53 →
              ts_version task' = ts_version current + 1)
           ∧ (ts_version current = 2 ^ 53 → ts_version task' = 2 ^ 53)
           ∧ ts_version current ≤ ts_version task' ≤ ts_version current + 2)
      ∧ ts_updatedAt task' = clock (w_clock w)
      ∧ getTask (ts_id task') w' = (Return (Some task'), w')
      ∧ (∀ path, path ≠ state_path (ts_id task') →
           w_files w' !! path = w_files w !! path)
  | (Throw e, w') => w_files w' = w_files w
  end.
Proof.
  unfold updateTask, async_bind.
  destruct (getTask_or_throw_cases taskId w) as
    [(task & -> & Hfile & Hvalid)|(e & ->)]; [|done].
  unfold TaskStateSchema_parse. async_step.
  match goal with
  | |- context [TaskStateSchema ?t] => destruct (TaskStateSchema t) eqn:Hnew
  end; async_step; [|done].
  split; [done|]. split.
  { exists task. split; [done|]. cbn [ts_version set_updatedAt set_version].
    split; [done|]. split; [apply js_add_one_exact|].
    split; [by intros ->|apply js_add_one_bounds]. }
  split; [done|]. split.
  - apply getTask_found; [apply lookup_insert_eq|done].
  - intros path Hpath. cbn [w_files]. by rewrite lookup_insert_ne.
Qed.

(** *** The bound on the conversation history *)

(** X6. After [addConversationMessage] on a readable task, however long the
    stored history was, the persisted history has at most 50 messages, ends
    with the new message and is a suffix of the old history followed by the
    new message; while the old history has fewer than 50 messages nothing
    is compacted: the message is appended and the summary is untouched. *)
Theorem addConversationMessage_bounded taskId message task w :
  getTask taskId w = (Return (Some task), w) →
  ∃ task',
    (addConversationMessage taskId message w).1 = Return tt
    ∧ persisted (addConversationMessage taskId message) w (ts_id task)
      = Some (TaskDoc task')
    ∧ (length (cx_conversationHistory (ts_context task')) ≤ 50)%nat
    ∧ last (cx_conversationHistory (ts_context task')) = Some message
    ∧ (∃ older, cx_conversationHistory (ts_context task) ++ [message]
                = older ++ cx_conversationHistory (ts_context task'))
    ∧ ((length (cx_conversationHistory (ts_context task)) < 50)%nat →
       cx_conversationHistory (ts_context task')
       = cx_conversationHistory (ts_context task) ++ [message]
       ∧ cx_compactedSummary (ts_context task')
         = cx_compactedSummary (ts_context task)).
Proof.
  intros Hget. unfold persisted, addConversationMessage, async_bind.
  rewrite (getTask_or_throw_found _ _ _ Hget). async_step.
  cbn [ts_context set_context cx_conversationHistory].
  set (history := cx_conversationHistory (ts_context task)).
  destruct (50 <? length (history ++ [message]))%nat eqn:Hlong;
    cbn [snd fst w_files ts_id set_updatedAt set_context compactHistory];
    rewrite lookup_insert_eq; eexists; (split; [reflexivity|]);
    (split; [reflexivity|]);
    cbn [ts_context set_context set_updatedAt cx_conversationHistory
         cx_compactedSummary];
    rewrite length_app in *; cbn [length] in *.
  - apply Nat.ltb_lt in Hlong.
    unfold compactHistory.
    cbn [ts_context set_context cx_conversationHistory cx_compactedSummary].
    rewrite length_app. cbn [length].
    assert (length history + 1 - 20 ≤ length history)%nat as Hcut by lia.
    rewrite drop_app_le by done.
    split; [rewrite length_app, length_drop; cbn; lia|].
    split; [by rewrite last_snoc|].
    split; [|lia].
    exists (take (length history + 1 - 20) history).
    by rewrite app_assoc, take_drop.
  - apply Nat.ltb_ge in Hlong.
    split; [lia|].
    split; [by rewrite last_snoc|]. split; [by exists []|done].
Qed.

(** *** Which helpers keep a task readable *)

Lemma forallb_drop {A} (P : A → bool) (n : nat) (l : list A) :
  forallb P l = true → forallb P (drop n l) = true.
Proof.
  revert n. induction l as [|x l IH]; intros [|n]; cbn; try done.
  intros [_ Hl]%andb_prop. by apply IH.
Qed.

(** The checks of the schema, one by one. *)
Lemma TaskStateSchema_true t :
  TaskStateSchema t = true
  ↔ is_uuid (ts_id t) = true
    ∧ 1 ≤ ts_version t
    ∧ is_datetime (ts_createdAt t) = true
    ∧ is_datetime (ts_updatedAt t) = true
    ∧ forallb ConversationMessageSchema
        (cx_conversationHistory (ts_context t)) = true
    ∧ forallb ProgressCheckpointSchema (pg_checkpoints (ts_progress t)) = true
    ∧ 0 ≤ pg_percentComplete (ts_progress t) ≤ 100
    ∧ forallb HandoffRecordSchema (ts_handoffs t) = true.
Proof.
  unfold TaskStateSchema. rewrite !andb_true_iff, !Z.leb_le. tauto.
Qed.

(** X7. [updateSessionId], [addFileModification], [updateNextSteps] and,
    for a message with a well-formed timestamp, [addConversationMessage]
    never make a task unreadable: on a readable task stored under its own
    identifier, at a well-formed time, the document they persist passes the
    schema and [getTask] reads it back. *)
Theorem helpers_keep_task_readable taskId task w :
  getTask taskId w = (Return (Some task), w) →
  ts_id task = taskId →
  is_datetime (clock (w_clock w)) = true →
  ∀ m : Async unit,
    (∃ sessionId, m = updateSessionId taskId sessionId)
    ∨ (∃ modification, m = addFileModification taskId modification)
    ∨ (∃ nextSteps, m = updateNextSteps taskId nextSteps)
    ∨ (∃ message, is_datetime (msg_timestamp message) = true
                  ∧ m = addConversationMessage taskId message) →
    ∃ task',
      (m w).1 = Return tt
      ∧ getTask taskId (m w).2 = (Return (Some task'), (m w).2).
Proof.
  intros Hget Hid Hnow m Hm.
  pose proof Hget as (_ & _ & Hvalid)%getTask_inv.
  destruct Hm as [[x ->]|[[x ->]|[[x ->]|(x & Hx & ->)]]].
  - rewrite updateSessionId_unfold. unfold async_bind.
    rewrite (getTask_or_throw_found _ _ _ Hget). async_step. cbn [fst snd].
    eexists. split; [done|]. apply getTask_found.
    + cbn [w_files]. replace (ts_id _) with taskId by done.
      apply lookup_insert_eq.
    + by rewrite assign_session_schema.
  - unfold addFileModification, async_bind.
    rewrite (getTask_or_throw_found _ _ _ Hget). async_step. cbn [fst snd].
    eexists. split; [done|]. apply getTask_found.
    + cbn [w_files]. replace (ts_id _) with taskId by done.
      apply lookup_insert_eq.
    + apply TaskStateSchema_true in Hvalid. apply TaskStateSchema_true.
      cbn. tauto.
  - unfold updateNextSteps, async_bind.
    rewrite (getTask_or_throw_found _ _ _ Hget). async_step. cbn [fst snd].
    eexists. split; [done|]. apply getTask_found.
    + cbn [w_files]. replace (ts_id _) with taskId by done.
      apply lookup_insert_eq.
    + apply TaskStateSchema_true in Hvalid. apply TaskStateSchema_true.
      cbn. tauto.
  - unfold addConversationMessage, async_bind.
    rewrite (getTask_or_throw_found _ _ _ Hget). async_step. cbn [fst snd].
    apply TaskStateSchema_true in Hvalid.
    destruct Hvalid as (?&?&?&?&Hhistory&?&?&?).
    assert (forallb ConversationMessageSchema
              (cx_conversationHistory (ts_context task) ++ [x]) = true)
      as Hhistory'.
    { rewrite forallb_app, Hhistory. cbn. unfold ConversationMessageSchema.
      by rewrite Hx. }
    destruct (50 <? _)%nat; eexists; (split; [done|]); apply getTask_found.
    + cbn [w_files]. replace (ts_id _) with taskId by done.
      apply lookup_insert_eq.
    + apply TaskStateSchema_true. cbn.
      repeat split; first [done|lia|by apply forallb_drop].
    + cbn [w_files]. replace (ts_id _) with taskId by done.
      apply lookup_insert_eq.
    + apply TaskStateSchema_true. cbn. repeat split; first [done|lia].
Qed.

(** *** How [createTask] fails, and what it adds to the index *)

(** X8. [createTask] is not atomic.  When the document fails the schema
    (the identifier is not a UUID or the time is not well formed) it throws
    a [ZodError] before it wrote anything.  When the document is valid but
    the stored index has no [tasks] array, it throws a [TypeError] after
    the task was written: the task exists and can be read, and the index
    does not list it. *)
Theorem createTask_failure_modes self params w :
  (is_uuid (created_id params w) && is_datetime (clock (w_clock w)) = false →
   ∃ message w',
     createTask self params w = (Throw (ZodError message), w')
     ∧ w_files w' = w_files w)
  ∧ (is_uuid (created_id params w) && is_datetime (clock (w_clock w)) = true →
     (w_files w !! index_path = Some (IndexDoc None)
      ∨ ∃ t, w_files w !! index_path = Some (TaskDoc t)) →
     ∃ w',
       createTask self params w
       = (Throw (JsError "Cannot read properties of undefined (reading 'push')"),
          w')
       ∧ getTask (created_id params w) w'
         = (Return (Some (initial_taskState self params (clock (w_clock w))
                            (created_id params w))), w')
       ∧ w_files w' !! index_path = w_files w !! index_path).
Proof.
  unfold createTask, created_id. split.
  - intros Hinvalid.
    destruct (truthy (ct_id params)) as [i|]; cbn [default from_option id] in *;
      unfold TaskStateSchema_parse; async_step;
      rewrite initial_taskState_schema, Hinvalid; async_step; eauto.
  - intros Hvalid Hindex.
    destruct (truthy (ct_id params)) as [i|]; cbn [default from_option id] in *;
      unfold TaskStateSchema_parse; async_step;
      rewrite initial_taskState_schema, Hvalid;
      unfold addToIndex; async_step; cbn [ts_id initial_taskState];
      rewrite lookup_insert_ne by apply state_path_not_index;
      destruct Hindex as [Hindex|[t Hindex]]; rewrite Hindex; async_step;
      eexists; (split; [reflexivity|]);
      (split;
       [apply getTask_found;
        [apply lookup_insert_eq|by rewrite initial_taskState_schema]
       |cbn [w_files]; rewrite lookup_insert_ne by apply state_path_not_index;
        done]).
Qed.

(** X9. When [createTask] returns, the index holds the entries it held
    before, in the same order, followed by one new entry with the task's
    identifier and title; a missing index counts as empty.  Apart from the
    index and the task's own document no file changed. *)
Theorem createTask_appends_to_index self params task w w' :
  createTask self params w = (Return task, w') →
  ∃ before entry,
    listTasks w = (Return before, w)
    ∧ listTasks w' = (Return (before ++ [entry]), w')
    ∧ prop entry "id" = Some (ts_id task)
    ∧ prop entry "title" = Some (ts_title task)
    ∧ (∀ path, path ≠ index_path → path ≠ state_path (ts_id task) →
         w_files w' !! path = w_files w !! path).
Proof.
  unfold createTask, listTasks.
  destruct (truthy (ct_id params)) as [i|];
    unfold TaskStateSchema_parse; async_step.
  all: match goal with
       | |- context [TaskStateSchema ?t] => destruct (TaskStateSchema t)
       end; [|discriminate].
  all: unfold addToIndex; async_step; cbn [ts_id initial_taskState];
       rewrite lookup_insert_ne by apply state_path_not_index.
  all: destruct (w_files w !! index_path) as [[t|[tasks|]]|];
         cbn [w_uuids w_clock w_files]; try discriminate.
  all: intros [= <- <-]; eexists _, _; (split; [reflexivity|]);
       cbn [w_files]; rewrite lookup_insert_eq; (split; [reflexivity|]);
       (split; [reflexivity|]); (split; [reflexivity|]);
       intros path Hindex Hstate; cbn [ts_id initial_taskState] in Hstate;
       by rewrite !lookup_insert_ne.
Qed.

(** *** Hand-offs and completion *)

(** X10. A hand-off that is initiated and then accepted ends as one more
    record at the end of the chain, with the initiator's [fromAgent],
    reason and instructions and the acceptor's identity in [toAgent]; the
    earlier records are as they were, and the status goes through
    [awaiting_handoff] to [handed_off].  This holds for a readable task
    stored under its identifier when the record and the time are well
    formed. *)
Theorem initiate_then_accept taskId handoff agentId userId task w :
  getTask taskId w = (Return (Some task), w) →
  ts_id task = taskId →
  HandoffRecordSchema (handoff_of_init handoff) = true →
  is_datetime (clock (w_clock w)) = true →
  ∃ initiated w1 accepted w2,
    initiateHandoff taskId handoff w = (Return initiated, w1)
    ∧ ts_status initiated = awaiting_handoff
    ∧ ts_handoffs initiated = ts_handoffs task ++ [handoff_of_init handoff]
    ∧ acceptHandoff taskId agentId userId w1 = (Return accepted, w2)
    ∧ ts_status accepted = handed_off
    ∧ ts_handoffs accepted
      = ts_handoffs task ++
        [ {| ho_fromAgent := hi_fromAgent handoff;
             ho_toAgent :=
               Some {| ai_userId := userId; ai_agentId := agentId;
                       ai_sessionId := "";
                       ai_startedAt := clock (S (w_clock w));
                       ai_endedAt := None |};
             ho_handoffAt := hi_handoffAt handoff;
             ho_reason := hi_reason handoff;
             ho_instructions := hi_instructions handoff |} ]
    ∧ w_files w2 !! state_path taskId = Some (TaskDoc accepted).
Proof.
  intros Hget Hid Hrecord Hnow.
  pose proof Hget as (_ & _ & Hvalid)%getTask_inv.
  unfold initiateHandoff, async_bind at 1.
  rewrite (getTask_or_throw_found _ _ _ Hget). async_step.
  eexists _, _. eexists _, _. split; [reflexivity|].
  split; [reflexivity|]. split; [reflexivity|].
  unfold acceptHandoff, async_bind at 1.
  erewrite getTask_or_throw_found; cycle 1.
  { apply getTask_found.
    - cbn [w_files]. replace (ts_id _) with taskId by done.
      apply lookup_insert_eq.
    - apply TaskStateSchema_true in Hvalid.
      destruct Hvalid as (?&?&?&?&?&?&?&Hhandoffs).
      assert (forallb HandoffRecordSchema
                (ts_handoffs task ++ [handoff_of_init handoff]) = true)
        by (rewrite forallb_app, Hhandoffs; cbn [forallb]; by rewrite Hrecord).
      apply TaskStateSchema_true. cbn -[forallb HandoffRecordSchema].
      repeat split; first [done|lia]. }
  cbn [ts_handoffs set_handoffs set_updatedAt set_status].
  rewrite last_snoc. async_step.
  rewrite update_last_snoc. split; [reflexivity|]. split; [reflexivity|].
  split; [reflexivity|]. replace (ts_id _) with taskId by done.
  apply lookup_insert_eq.
Qed.

(** X11. [completeTask] on a readable task, at a well-formed time, always
    returns: the task it returns and persists is [completed] at 100
    percent in phase "completed" with its checkpoints cleared, and keeps
    its hand-offs, files, next steps, context, session and security
    settings.  Its version is the version read plus one as JavaScript adds:
    exactly one more while the version read is below 2^53, and unchanged
    at 2^53. *)
Theorem completeTask_result taskId task w :
  getTask taskId w = (Return (Some task), w) →
  is_datetime (clock (w_clock w)) = true →
  ∃ task' w',
    completeTask taskId w = (Return task', w')
    ∧ ts_status task' = completed
    ∧ ts_progress task'
      = {| pg_currentPhase := "completed"; pg_checkpoints := [];
           pg_percentComplete := 100 |}
    ∧ ts_version task' = js_add_one (ts_version task)
    ∧ (ts_version task < 2 ^ 53 → ts_version task' = ts_version task + 1)
    ∧ (ts_version task = 2 ^ 53 → ts_version task' = 2 ^ 53)
    ∧ ts_handoffs task' = ts_handoffs task
    ∧ ts_files task' = ts_files task
    ∧ ts_nextSteps task' = ts_nextSteps task
    ∧ ts_context task' = ts_context task
    ∧ ts_session task' = ts_session task
    ∧ ts_security task' = ts_security task
    ∧ w_files w' !! state_path (ts_id task) = Some (TaskDoc task').
Proof.
  intros Hget Hnow.
  pose proof Hget as (_ & _ & Hvalid)%getTask_inv.
  unfold completeTask, updateTask, async_bind.
  rewrite (getTask_or_throw_found _ _ _ Hget).
  unfold TaskStateSchema_parse. async_step.
  match goal with
  | |- context [TaskStateSchema ?t] =>
      replace (TaskStateSchema t) with true
  end.
  - async_step. eexists _, _. split; [reflexivity|].
    cbn [ts_status ts_progress ts_version ts_handoffs ts_files ts_nextSteps
         ts_context ts_session ts_security ts_id set_updatedAt set_version
         spread_task spread default from_option id tp_status tp_progress
         tp_handoffs tp_files tp_nextSteps tp_context tp_session tp_security
         tp_id w_files].
    split; [done|]. split; [done|]. split; [done|].
    split; [apply js_add_one_exact|]. split; [by intros ->|].
    repeat split. apply lookup_insert_eq.
  - symmetry. apply TaskStateSchema_true in Hvalid. apply TaskStateSchema_true.
    pose proof (js_add_one_bounds (ts_version task)).
    cbn. repeat split; first [done|lia|tauto].
Qed.

(** *** How a turn ends *)

Lemma run_tools_run answers taskId sessionId calls w :
  run_tools answers taskId sessionId calls w
  = (Return tt, (run_tools answers taskId sessionId calls w).2).
Proof.
  pose proof (run_tools_returns answers taskId sessionId calls w) as Hreturns.
  destruct (run_tools answers taskId sessionId calls w) as [[[]|e] w'];
    cbn in *; congruence.
Qed.

Lemma agent_turn_run config sessionId taskState prompt w :
  agent_turn config sessionId taskState prompt w
  = (at_outcome (generateText (cfg_model config) taskState prompt),
     (run_tools
        (at_answers (generateText (cfg_model config) taskState prompt))
        (cfg_taskId config) sessionId
        (at_toolInvocations (generateText (cfg_model config) taskState prompt))
        w).2).
Proof. unfold agent_turn, async_bind. by rewrite run_tools_run. Qed.

Lemma turn_succeeded_result config sessionId taskState text result w w' :
  turn_succeeded config sessionId taskState text w = (Return result, w') →
  result = {| er_sessionId := sessionId;
              er_status := in_progress;
              er_progress := pg_percentComplete (ts_progress taskState);
              er_result := Some text;
              er_error := None |}.
Proof.
  unfold turn_succeeded, async_bind.
  destruct (updateTask _ _ w) as [[u|e] w1]; [|discriminate].
  async_step.
  match goal with
  | |- context [addConversationMessage ?i ?m ?w2] =>
      destruct (addConversationMessage i m w2) as [[[]|e] w3]
  end; [|discriminate].
  by intros [= <- _].
Qed.

(** X12. [resume] on a readable task always returns, whatever the model
    and its tools do and whatever fails while the result is persisted.
    The result carries the caller's session identifier and the
    percentComplete read before the turn, not what the turn's tools set;
    it is either [in_progress] with the model's text, or [failed] with an
    error message and no text. *)
Theorem resume_always_returns config sessionId additionalPrompt task w :
  getTask (cfg_taskId config) w = (Return (Some task), w) →
  ∃ result w',
    resume config sessionId additionalPrompt w = (Return result, w')
    ∧ er_sessionId result = sessionId
    ∧ er_progress result = pg_percentComplete (ts_progress task)
    ∧ ((er_status result = in_progress
        ∧ er_error result = None
        ∧ ∃ text,
            at_outcome (generateText (cfg_model config) task
                          (ResumptionPrompt task additionalPrompt))
            = Return text
            ∧ er_result result = Some text)
       ∨ (er_status result = failed
          ∧ er_result result = None
          ∧ ∃ message, er_error result = Some message)).
Proof.
  intros Hget. unfold resume, async_bind at 1.
  rewrite (getTask_or_throw_found _ _ _ Hget).
  unfold try_catch, async_bind at 1. rewrite agent_turn_run.
  destruct (at_outcome _) as [text|e] eqn:Hturn.
  - match goal with
    | |- context [turn_succeeded ?c ?s ?t ?x ?w1] =>
        destruct (turn_succeeded c s t x w1) as [[result|e] w2] eqn:Hdone
    end.
    + apply turn_succeeded_result in Hdone as ->.
      eexists _, _. split; [reflexivity|]. cbn. repeat split. left. eauto.
    + eexists _, _. split; [reflexivity|]. cbn. repeat split. right. eauto.
  - eexists _, _. split; [reflexivity|]. cbn. repeat split. right. eauto.
Qed.

(** A document that is stored and fails the schema. *)
Lemma getTask_or_throw_unreadable taskId t w :
  w_files w !! state_path taskId = Some (TaskDoc t) →
  TaskStateSchema t = false →
  getTask_or_throw taskId w = (Throw (ZodError (zod_message (TaskDoc t))), w).
Proof.
  intros Hfile Hinvalid.
  unfold getTask_or_throw, getTask, TaskStateSchema_parse. async_step.
  rewrite Hfile. by rewrite Hinvalid.
Qed.

(** The progress tool with a percentage out of range leaves a document
    that fails the schema. *)
Lemma progress_tool_out_of_range taskId sessionId phase percent done todo t w :
  w_files w !! state_path taskId = Some (TaskDoc t) →
  TaskStateSchema t = true →
  ts_id t = taskId →
  ¬ (0 ≤ percent ≤ 100) →
  ∃ t',
    w_files (tool_execute taskId sessionId
               (call_updateProgress phase percent done todo) w).2
      !! state_path taskId = Some (TaskDoc t')
    ∧ TaskStateSchema t' = false.
Proof.
  intros Hfile Hvalid Hid Hrange.
  cbn [tool_execute]. unfold updateProgress. async_step.
  erewrite getTask_or_throw_found by (by apply getTask_found).
  async_step. cbn [snd w_files ts_id set_updatedAt set_progress].
  rewrite Hid. eexists. split; [apply lookup_insert_eq|].
  apply not_true_is_false. intros Hnew%TaskStateSchema_true.
  cbn in Hnew. tauto.
Qed.

(** X13. The agent's progress tool accepts any number.  When the one tool
    call of a turn of [execute], on a readable task stored under its
    identifier, is a progress update with a percentage outside [0, 100],
    the stored document stops passing the schema, so whatever the model
    answers afterwards, the [updateTask] of the success path and the
    [updateTask] of the [catch] block both fail: [execute] throws a
    [ZodError] instead of returning a result. *)
Theorem execute_throws_after_bad_progress
    config prompt task phase percent done todo w :
  getTask (cfg_taskId config) w = (Return (Some task), w) →
  ts_id task = cfg_taskId config →
  at_toolInvocations (generateText (cfg_model config) task (PromptText prompt))
  = [call_updateProgress phase percent done todo] →
  ¬ (0 ≤ percent ≤ 100) →
  ∃ message w', execute config prompt w = (Throw (ZodError message), w').
Proof.
  intros Hget Hid Hcalls Hrange. unfold execute, async_bind at 1.
  rewrite (getTask_or_throw_found _ _ _ Hget).
  apply getTask_inv in Hget as (_ & Hfile & Hvalid).
  unfold async_bind at 1, uuidv4 at 1, async_bind at 1.
  rewrite updateSessionId_unfold. unfold async_bind at 1.
  set (w0 := {| w_files := w_files w; w_clock := w_clock w;
                w_uuids := S (w_uuids w) |}).
  rewrite (getTask_or_throw_found _ task w0) by (by apply getTask_found).
  set (task1 := assign_session (uuids (w_uuids w)) task).
  unfold saveTaskState at 1, createOrUpdateFileContents at 1.
  replace (ts_id task1) with (cfg_taskId config) by done.
  cbn [w_files w_clock w_uuids w0].
  set (w1 := {| w_files := <[state_path (cfg_taskId config) := TaskDoc task1]>
                             (w_files w);
                w_clock := w_clock w; w_uuids := S (w_uuids w) |}).
  unfold try_catch, async_bind at 1. rewrite agent_turn_run, Hcalls.
  rewrite run_tools_single. cbn [snd].
  destruct (progress_tool_out_of_range (cfg_taskId config) (uuids (w_uuids w))
              phase percent done todo task1 w1) as (t2 & Hfile2 & Hinvalid2);
    [apply lookup_insert_eq|by unfold task1; rewrite assign_session_schema
    |done|done|].
  set (w2 := (tool_execute _ _ _ w1).2) in *.
  assert (∀ status w3, w_files w3 = w_files w2 →
            updateTask (cfg_taskId config) (status_update status) w3
            = (Throw (ZodError (zod_message (TaskDoc t2))), w3)) as Hupdate.
  { intros status w3 Hsame. unfold updateTask, async_bind.
    rewrite (getTask_or_throw_unreadable _ t2); [done| |done].
    by rewrite Hsame. }
  destruct (at_outcome _) as [text|e].
  - unfold turn_succeeded, async_bind at 1. rewrite Hupdate by done.
    unfold async_bind. rewrite Hupdate by done. eauto.
  - unfold async_bind. rewrite Hupdate by done. eauto.
Qed.

(** What the statements after a successful [generateText] leave. *)
Lemma turn_succeeded_state config sessionId taskState text current result w w' :
  id_ok (cfg_taskId config) w →
  w_files w !! state_path (cfg_taskId config) = Some (TaskDoc current) →
  turn_succeeded config sessionId taskState text w = (Return result, w') →
  ∃ task',
    w_files w' !! state_path (cfg_taskId config) = Some (TaskDoc task')
    ∧ ts_status task' = in_progress
    ∧ ts_session task' = ts_session current
    ∧ ts_version task' = js_add_one (ts_version current)
    ∧ ∃ message,
        last (cx_conversationHistory (ts_context task')) = Some message
        ∧ msg_role message = assistant
        ∧ msg_content message = text.
Proof.
  intros Hok Hfile. unfold turn_succeeded, async_bind at 1.
  unfold updateTask, async_bind at 1.
  destruct (getTask_or_throw_cases (cfg_taskId config) w) as
    [(task0 & -> & Hfile0 & Hvalid0)|(e & ->)]; [|discriminate].
  rewrite Hfile in Hfile0. injection Hfile0 as <-.
  unfold TaskStateSchema_parse. async_step.
  match goal with
  | |- context [TaskStateSchema ?t] =>
      destruct (TaskStateSchema t) eqn:Hupdated
  end; async_step; [|discriminate].
  cbn [ts_id set_updatedAt set_version spread_task status_update spread
       default from_option id].
  rewrite ?(Hok current Hfile).
  unfold addConversationMessage, async_bind at 1.
  erewrite getTask_or_throw_found; cycle 1.
  { apply getTask_found; [apply lookup_insert_eq|exact Hupdated]. }
  async_step.
  cbn [ts_id set_updatedAt set_version set_context spread_task status_update
       spread default from_option id].
  rewrite ?(Hok current Hfile).
  destruct (50 <? _)%nat eqn:Hlong; intros [= _ <-];
    cbn [w_files ts_id set_updatedAt set_version set_context compactHistory
         spread_task status_update spread default from_option id];
    rewrite ?(Hok current Hfile), lookup_insert_eq;
    eexists; (split; [reflexivity|]); cbn;
    (split; [done|]); (split; [done|]); (split; [done|]);
    exists {| msg_role := assistant; msg_content := text;
              msg_timestamp := clock (S (w_clock w)); msg_toolCalls := None |};
    (split; [|split; reflexivity]).
  - apply Nat.ltb_lt in Hlong.
    cbn [cx_conversationHistory ts_context set_context] in Hlong.
    rewrite length_app in *. cbn [length] in *.
    rewrite drop_app_le by lia. apply last_snoc.
  - apply last_snoc.
Qed.

(** X14. When [execute], on a readable task stored under its identifier,
    returns an [in_progress] result, the stored task is [in_progress] as
    well, even if a tool of the turn had requested a hand-off: the status
    the tools set is overwritten.  The stored task carries the fresh
    session identifier of the result, the model's text as its last message
    and the version read plus one as JavaScript adds, which is exactly one
    more while the version read is below 2^53; the result's [progress] is
    the percentage read before the turn. *)
Theorem execute_success_state config prompt task result w w' :
  getTask (cfg_taskId config) w = (Return (Some task), w) →
  ts_id task = cfg_taskId config →
  execute config prompt w = (Return result, w') →
  er_status result = in_progress →
  ∃ task' text,
    at_outcome (generateText (cfg_model config) task (PromptText prompt))
    = Return text
    ∧ er_result result = Some text
    ∧ er_sessionId result = uuids (w_uuids w)
    ∧ er_progress result = pg_percentComplete (ts_progress task)
    ∧ w_files w' !! state_path (cfg_taskId config) = Some (TaskDoc task')
    ∧ ts_status task' = in_progress
    ∧ se_currentSessionId (ts_session task') = uuids (w_uuids w)
    ∧ ts_version task' = js_add_one (ts_version task)
    ∧ (ts_version task < 2 ^ 53 → ts_version task' = ts_version task + 1)
    ∧ ∃ message,
        last (cx_conversationHistory (ts_context task')) = Some message
        ∧ msg_role message = assistant
        ∧ msg_content message = text.
Proof.
  intros Hget Hid. unfold execute, async_bind at 1.
  rewrite (getTask_or_throw_found _ _ _ Hget).
  apply getTask_inv in Hget as (_ & Hfile & Hvalid).
  unfold async_bind at 1, uuidv4 at 1, async_bind at 1.
  rewrite updateSessionId_unfold. unfold async_bind at 1.
  set (w0 := {| w_files := w_files w; w_clock := w_clock w;
                w_uuids := S (w_uuids w) |}).
  rewrite (getTask_or_throw_found _ task w0) by (by apply getTask_found).
  set (task1 := assign_session (uuids (w_uuids w)) task).
  unfold saveTaskState at 1, createOrUpdateFileContents at 1.
  replace (ts_id task1) with (cfg_taskId config) by done.
  cbn [w_files w_clock w_uuids w0].
  set (w1 := {| w_files := <[state_path (cfg_taskId config) := TaskDoc task1]>
                             (w_files w);
                w_clock := w_clock w; w_uuids := S (w_uuids w) |}).
  assert (id_ok (cfg_taskId config) w1) as Hok1.
  { intros t. unfold w1. cbn [w_files]. rewrite lookup_insert_eq.
    by intros [= <-]. }
  assert (w_files w1 !! state_path (cfg_taskId config) = Some (TaskDoc task1))
    as Hfile1 by apply lookup_insert_eq.
  destruct (confined_run_tools
              (at_answers
                 (generateText (cfg_model config) task (PromptText prompt)))
              (cfg_taskId config) (uuids (w_uuids w))
              (at_toolInvocations
                 (generateText (cfg_model config) task (PromptText prompt)))
              w1 Hok1) as (Hok2 & _ & Hdoc2).
  destruct (Hdoc2 task1 Hfile1) as (task2 & Hfile2 & Hsame).
  unfold try_catch, async_bind at 1. rewrite agent_turn_run.
  set (w2 := (run_tools _ _ _ _ w1).2) in *.
  destruct (at_outcome _) as [text|e].
  - match goal with
    | |- context [turn_succeeded ?c ?s ?t ?x w2] =>
        destruct (turn_succeeded c s t x w2) as [[r|e] w3] eqn:Hdone
    end.
    + intros [= <- <-] _.
      destruct (turn_succeeded_state _ _ _ _ _ _ _ _ Hok2 Hfile2 Hdone)
        as (task' & Hfile' & Hstatus & Hsession & Hversion & Hmessage).
      apply turn_succeeded_result in Hdone as ->.
      destruct Hsame as (_ & Hv & _ & _ & _ & _ & Hs & _).
      assert (ts_version task' = js_add_one (ts_version task)) as Hbumped
        by (by rewrite Hversion, Hv).
      exists task', text. repeat split; try done.
      * by rewrite Hsession, Hs.
      * intros Hsmall. rewrite Hbumped. by apply js_add_one_exact.
    + unfold async_bind.
      match goal with
      | |- context [updateTask ?i ?u w3] =>
          destruct (updateTask i u w3) as [[u'|e'] w4]
      end; [|discriminate].
      by intros [= <- _] [=].
  - unfold async_bind.
    match goal with
    | |- context [updateTask ?i ?u w2] =>
        destruct (updateTask i u w2) as [[u'|e'] w4]
    end; [|discriminate].
    by intros [= <- _] [=].
Qed.

(** *** Authentication *)


(** *** The continue route *)

Lemma route_catch_returns m w :
  ∃ response w', route_catch m w = (Return response, w').
Proof. unfold route_catch, try_catch. destruct (m w) as [[r|e] w']; eauto. Qed.

(** How [continueTask] ends before its first write. *)
Lemma continueTask_early_exits options store w :
  parseRepoString (co_stateRepo options) = Return store →
  (w_files w !! state_path (co_taskId options) = None →
   continueTask options w
   = (Throw (JsError ("Task not found: " +:+ co_taskId options)), w))
  ∧ (∀ task,
       getTask (co_taskId options) w = (Return (Some task), w) →
       authorized task (co_agentId options) = false →
       continueTask options w = (Throw not_authorized, w))
  ∧ (∀ doc,
       w_files w !! state_path (co_taskId options) = Some (TaskDoc doc) →
       TaskStateSchema doc = false →
       continueTask options w
       = (Throw (ZodError (zod_message (TaskDoc doc))), w)).
Proof.
  intros Hstore. split; [|split].
  - intros Hfile. unfold continueTask, new_TaskStateStore, async_bind at 1.
    rewrite Hstore. unfold async_bind at 1, getTask. async_step.
    by rewrite Hfile.
  - intros task Hget Hauth.
    unfold continueTask, new_TaskStateStore, async_bind at 1.
    rewrite Hstore. unfold async_bind at 1. rewrite Hget.
    unfold authorized in Hauth. apply orb_false_iff in Hauth as [-> ->].
    reflexivity.
  - intros doc Hfile Hinvalid.
    unfold continueTask, new_TaskStateStore, async_bind at 1.
    rewrite Hstore. unfold async_bind at 1, getTask, TaskStateSchema_parse.
    async_step. rewrite Hfile. by rewrite Hinvalid.
Qed.

(** X16. The continue route never throws; it answers 401 without touching
    the store when the request is not authenticated, and 400 when the task
    identifier is not a UUID.  For an authenticated, well-formed request
    through a well-formed repository name it answers 500, not 404 or 403,
    with the store untouched, when the task does not exist ("Task not
    found: <id>") and when the caller is not on the allow-list ("Not
    authorized to continue this task"); and it answers 400 "validation
    error" when the stored document itself fails the schema. *)
Theorem continue_route_answers
    server verify_auth now_auth verify_info now_info request w :
  let authResult :=
    validateAuth server verify_auth now_auth (rq_authorization request) in
  let taskId := cb_taskId (rq_body request) in
  let agentId :=
    (getAuthInfo server verify_info now_info (rq_authorization request)).2 in
  (∃ response w',
     continue_POST server verify_auth now_auth verify_info now_info
       request w = (Return response, w'))
  ∧ (ar_valid authResult = false →
     continue_POST server verify_auth now_auth verify_info now_info
       request w
     = (Return (unauthorized_response authResult), w))
  ∧ (ar_valid authResult = true → is_uuid taskId = false →
     continue_POST server verify_auth now_auth verify_info now_info
       request w
     = (Return {| rp_status := 400;
                  rp_body := ValidationBody (sv_request_issues server) |}, w))
  ∧ (ar_valid authResult = true → is_uuid taskId = true →
     (∃ store,
        parseRepoString
          (default (DEFAULT_STATE_REPO server) (truthy (rq_stateRepo request)))
        = Return store) →
     (w_files w !! state_path taskId = None →
      continue_POST server verify_auth now_auth verify_info now_info
       request w
      = (Return {| rp_status := 500;
                   rp_body := ErrorBody ("Task not found: " +:+ taskId) |}, w))
     ∧ (∀ task,
          getTask taskId w = (Return (Some task), w) →
          authorized task agentId = false →
          continue_POST server verify_auth now_auth verify_info now_info
       request w
          = (Return {| rp_status := 500;
                       rp_body := ErrorBody "Not authorized to continue this task" |},
             w))
     ∧ (∀ doc,
          w_files w !! state_path taskId = Some (TaskDoc doc) →
          TaskStateSchema doc = false →
          continue_POST server verify_auth now_auth verify_info now_info
       request w
          = (Return {| rp_status := 400;
                       rp_body := ValidationBody (zod_message (TaskDoc doc)) |},
             w))).
Proof.
  cbv zeta. split; [apply route_catch_returns|].
  unfold continue_POST, route_catch, try_catch.
  split; [by intros ->|]. split.
  - intros -> Huuid. cbn [negb]. unfold ContinueTaskRequestSchema_parse.
    unfold async_bind at 1. by rewrite Huuid.
  - intros -> Huuid [store Hstore]. cbn [negb].
    split; [|split]; intros;
      unfold ContinueTaskRequestSchema_parse, async_bind at 1;
      rewrite Huuid; unfold async_ret at 1;
      cbn [cb_taskId cb_prompt cb_acceptHandoff]; unfold async_bind at 1;
      match goal with
      | |- context [continueTask ?options w] =>
          destruct (continueTask_early_exits options store w Hstore)
            as (Hmissing & Hrejected & Hunreadable)
      end;
      cbn [co_taskId co_agentId] in *.
    + by rewrite Hmissing.
    + by erewrite Hrejected.
    + by erewrite Hunreadable.
Qed.

(** *** The hand-off route *)

(** X17. The hand-off route takes the initiating agent's identifier from the
    request body and lets the request through when that identifier is the
    one holding the task: for an authenticated request with a well-formed
    body, through a well-formed repository name, on a readable task stored
    under its identifier, any caller who names the agent of the last
    hand-off record as [fromAgentId] gets the hand-off written, whatever the
    allow-list says and whoever the caller is.  The record appended to the
    chain carries the named agent with the caller's user, and the task goes
    to [awaiting_handoff].  The answer is 200, without a link when the task
    has no issue number and with the link of the issue when the comment was
    posted; when posting fails, or the task's repository name is not
    well formed, the answer is that of the [catch] block, although the
    hand-off is already written. *)
Theorem handoff_route_trusts_fromAgentId
    addHandoffComment server verify_auth now_auth verify_info now_info
    request task holder store w :
  let body := rq_body request in
  let identity :=
    getAuthInfo server verify_info now_info (rq_authorization request) in
  ar_valid (validateAuth server verify_auth now_auth (rq_authorization request))
  = true →
  HandoffRequestSchema_parse server body w = (Return body, w) →
  parseRepoString
    (default (DEFAULT_STATE_REPO server) (truthy (rq_stateRepo request)))
  = Return store →
  getTask (hb_taskId body) w = (Return (Some task), w) →
  ts_id task = hb_taskId body →
  last (ts_handoffs task) = Some holder →
  hb_fromAgentId body = ai_agentId (ho_fromAgent holder) →
  ∃ task' w' response,
    handoff_POST addHandoffComment server verify_auth now_auth verify_info
      now_info request w
    = (Return response, w')
    ∧ w_files w' !! state_path (hb_taskId body) = Some (TaskDoc task')
    ∧ ts_status task' = awaiting_handoff
    ∧ ts_security task' = ts_security task
    ∧ ts_handoffs task'
      = ts_handoffs task ++
        [ {| ho_fromAgent :=
               {| ai_userId := identity.1;
                  ai_agentId := hb_fromAgentId body;
                  ai_sessionId := se_currentSessionId (ts_session task);
                  ai_startedAt :=
                    default (ts_createdAt task)
                      (truthy (Some (ai_startedAt (ho_fromAgent holder))));
                  ai_endedAt := Some (clock (w_clock w)) |};
             ho_toAgent := None;
             ho_handoffAt := clock (S (w_clock w));
             ho_reason := hb_reason body;
             ho_instructions := hb_instructions body |} ]
    ∧ response
      = match truthy_number (gh_issueNumber (ts_github task)) with
        | None =>
            {| rp_status := 200;
               rp_body := HandoffBody (hb_taskId body) awaiting_handoff None |}
        | Some issueNumber =>
            match parseRepoString (gh_repo (ts_github task)) with
            | Return _ =>
                match addHandoffComment (gh_repo (ts_github task))
                        issueNumber body with
                | Return _ =>
                    {| rp_status := 200;
                       rp_body :=
                         HandoffBody (hb_taskId body) awaiting_handoff
                           (Some (issue_url (gh_repo (ts_github task))
                                    issueNumber)) |}
                | Throw error => error_response error
                end
            | Throw error => error_response error
            end
        end.
Proof.
  cbv zeta. intros Hvalid Hparse Hstore Hget Hid Hlast Hholder.
  unfold handoff_POST, route_catch, try_catch. rewrite Hvalid. cbn [negb].
  unfold async_bind at 1. rewrite Hparse.
  unfold async_bind at 1, new_TaskStateStore. rewrite Hstore.
  unfold async_bind at 1. rewrite Hget, Hlast. cbn [fmap option_fmap option_map].
  replace (differs (Some (ai_agentId (ho_fromAgent holder)))
             (hb_fromAgentId (rq_body request))) with false
    by (rewrite Hholder; cbn; by rewrite String.eqb_refl).
  rewrite andb_false_r. cbn [andb].
  unfold initiateHandoff.
  unfold async_bind at 1 2 3 4. unfold new_Date_toISOString at 1 2.
  rewrite (getTask_or_throw_found _ task)
    by (apply getTask_inv in Hget as (_ & Hfile & Hvalid');
        by apply getTask_found).
  async_step. unfold new_IssueTracker.
  destruct (truthy_number (gh_issueNumber (ts_github task))) as [issueNumber|];
    [destruct (parseRepoString (gh_repo (ts_github task))) as [tracker|error];
     [destruct (addHandoffComment (gh_repo (ts_github task)) issueNumber
                  (rq_body request)) as [[]|error]|]|];
    cbn [fmap option_fmap option_map];
    eexists _, _, _; (split; [reflexivity|]); cbn [w_files];
    replace (ts_id _) with (hb_taskId (rq_body request)) by done;
    rewrite lookup_insert_eq; by repeat split.
Qed.

(** X18. The hand-off route answers 404 when the task does not exist, and
    403 when the caller is authenticated but neither the caller nor the
    agent named in the body holds the task and the caller is not on the
    allow-list (for a task without hand-offs the allow-list alone
    decides); in both cases nothing is written. *)
Theorem handoff_route_refusals
    addHandoffComment server verify_auth now_auth verify_info now_info
    request store w :
  let body := rq_body request in
  let agentId :=
    (getAuthInfo server verify_info now_info (rq_authorization request)).2 in
  ar_valid (validateAuth server verify_auth now_auth (rq_authorization request))
  = true →
  HandoffRequestSchema_parse server body w = (Return body, w) →
  parseRepoString
    (default (DEFAULT_STATE_REPO server) (truthy (rq_stateRepo request)))
  = Return store →
  (w_files w !! state_path (hb_taskId body) = None →
   handoff_POST addHandoffComment server verify_auth now_auth verify_info
       now_info request w
   = (Return {| rp_status := 404; rp_body := ErrorBody "Task not found" |}, w))
  ∧ (∀ task,
       getTask (hb_taskId body) w = (Return (Some task), w) →
       (∀ holder, last (ts_handoffs task) = Some holder →
          ai_agentId (ho_fromAgent holder) ≠ agentId
          ∧ ai_agentId (ho_fromAgent holder) ≠ hb_fromAgentId body) →
       authorized task agentId = false →
       handoff_POST addHandoffComment server verify_auth now_auth verify_info
       now_info request w
       = (Return {| rp_status := 403;
                    rp_body := ErrorBody "Not authorized to handoff this task" |},
          w)).
Proof.
  cbv zeta. intros Hvalid Hparse Hstore. split.
  - intros Hfile.
    unfold handoff_POST, route_catch, try_catch. rewrite Hvalid. cbn [negb].
    unfold async_bind at 1. rewrite Hparse.
    unfold async_bind at 1, new_TaskStateStore. rewrite Hstore.
    unfold async_bind at 1, getTask. async_step. by rewrite Hfile.
  - intros task Hget Hholder Hauth.
    unfold handoff_POST, route_catch, try_catch. rewrite Hvalid. cbn [negb].
    unfold async_bind at 1. rewrite Hparse.
    unfold async_bind at 1, new_TaskStateStore. rewrite Hstore.
    unfold async_bind at 1. rewrite Hget.
    unfold authorized in Hauth. apply orb_false_iff in Hauth as [-> ->].
    cbn [negb andb].
    destruct (last (ts_handoffs task)) as [holder|];
      cbn [fmap option_fmap option_map differs]; [|done].
    destruct (Hholder holder eq_refl) as [Hcaller Hnamed].
    apply String.eqb_neq in Hcaller, Hnamed. by rewrite Hcaller, Hnamed.
Qed.

(** *** Creating and starting a task *)

Lemma updateTask_github taskId github task updated w w' :
  getTask taskId w = (Return (Some task), w) →
  ts_id task = taskId →
  updateTask taskId (github_update github) w = (Return updated, w') →
  w_files w' !! state_path taskId = Some (TaskDoc updated)
  ∧ id_ok taskId w'
  ∧ ts_github updated = github
  ∧ ts_id updated = taskId
  ∧ ts_title updated = ts_title task
  ∧ ts_description updated = ts_description task
  ∧ ts_security updated = ts_security task.
Proof.
  intros Hget Hid. unfold updateTask, async_bind.
  rewrite (getTask_or_throw_found _ _ _ Hget).
  unfold TaskStateSchema_parse. async_step.
  match goal with
  | |- context [TaskStateSchema ?t] => destruct (TaskStateSchema t)
  end; async_step; [|discriminate].
  intros [= <- <-].
  cbn [w_files ts_id ts_github ts_title ts_description ts_security
       set_updatedAt set_version spread_task github_update spread default
       from_option id].
  rewrite Hid. split; [apply lookup_insert_eq|]. split; [|done].
  intros t. cbn [w_files]. rewrite lookup_insert_eq. intros [= <-]. by cbn.
Qed.

(** X19. When [createAndStartTask] returns, the task it returns is the one
    created by this call: it has the fresh identifier, the title,
    description, repository and branch of the request and the open
    allow-list, whatever the model and its tools did in the first turn;
    and its issue number is the one the tracker gave when an issue was
    asked for, and absent otherwise. *)
Theorem createAndStartTask_returns createTaskIssue options task result w w' :
  createAndStartTask createTaskIssue options w = (Return (task, result), w') →
  ts_id task = uuids (w_uuids w)
  ∧ ts_title task = sr_title (cto_request options)
  ∧ ts_description task = sr_description (cto_request options)
  ∧ gh_repo (ts_github task) = sr_repo (cto_request options)
  ∧ gh_branch (ts_github task) = sr_branch (cto_request options)
  ∧ sc_allowedAgents (ts_security task) = ["*"]
  ∧ (if sr_createIssue (cto_request options)
     then ∃ created issueNumber,
            createTaskIssue created = Return issueNumber
            ∧ ts_id created = ts_id task
            ∧ gh_issueNumber (ts_github task) = Some issueNumber
     else gh_issueNumber (ts_github task) = None).
Proof.
  unfold createAndStartTask, new_TaskStateStore, new_IssueTracker.
  unfold async_bind at 1.
  destruct (parseRepoString (cto_stateRepo options)) as [store|e];
    [|discriminate].
  unfold async_bind at 1.
  destruct (parseRepoString (sr_repo (cto_request options))) as [tracker|e];
    [|discriminate].
  unfold async_bind at 1.
  match goal with
  | |- context [createTask ?s ?p w] =>
      destruct (createTask s p w) as [[created|e] w1] eqn:Hcreate
  end; [|discriminate].
  destruct (createTask_returned _ _ _ _ _ Hcreate) as (Hcreated & _ & Hget).
  unfold created_id in *. cbn [ct_id truthy default from_option id] in *.
  assert (ts_id created = uuids (w_uuids w)) as Hid by (by subst created).
  assert (id_ok (uuids (w_uuids w)) w1) as Hok1.
  { intros t Ht. apply getTask_inv in Hget as (_ & Hfile & _).
    rewrite Hfile in Ht. by injection Ht as <-. }
  assert (∀ (start local : TaskState) (w2 : World),
            id_ok (uuids (w_uuids w)) w2 →
            w_files w2 !! state_path (uuids (w_uuids w)) = Some (TaskDoc start) →
            ts_id local = uuids (w_uuids w) →
            same_task local local →
            ts_github local = ts_github start →
            ts_title local = ts_title start →
            ts_description local = ts_description start →
            ts_security local = ts_security start →
            (do result <-
               execute
                 {| cfg_taskId := ts_id local;
                    cfg_model :=
                      default "claude-sonnet-4-5-20250929"
                        (truthy (sr_model (cto_request options)));
                    cfg_maxTurns :=
                      default 50 (truthy_number (sr_maxTurns (cto_request options))) |}
                 (sr_prompt (cto_request options));
             do updatedTask <- getTask (ts_id local);
             async_ret (default local updatedTask, result)) w2
            = (Return (task, result), w') →
            ts_id task = uuids (w_uuids w)
            ∧ ts_github task = ts_github start
            ∧ ts_title task = ts_title start
            ∧ ts_description task = ts_description start
            ∧ ts_security task = ts_security start) as Hturn.
  { intros start local w2 Hok2 Hfile2 Hlocal _ Hg Ht Hd Hs.
    unfold async_bind at 1.
    match goal with
    | |- context [execute ?c ?p w2] =>
        pose proof (confined_execute c p w2) as Hconfined;
        destruct (execute c p w2) as [[r|e] w3]
    end; [|discriminate].
    cbn [cfg_taskId snd] in Hconfined. rewrite Hlocal in *.
    destruct (Hconfined Hok2) as (_ & _ & Hdoc3).
    destruct (Hdoc3 start Hfile2) as (t3 & Hfile3 & Hsame).
    unfold async_bind.
    destruct (getTask (uuids (w_uuids w)) w3) as [[[t|]|e] w4] eqn:Hget3;
      [| |discriminate].
    - apply getTask_inv in Hget3 as (-> & Hfile3' & _).
      rewrite Hfile3 in Hfile3'. injection Hfile3' as <-.
      intros [= <- _ _]. destruct Hsame as (Hsame_id&?&?&?&?&?&?).
      rewrite (Hok2 start Hfile2) in Hsame_id. by repeat split.
    - intros [= <- _ _]. by repeat split. }
  destruct (sr_createIssue (cto_request options)).
  - unfold async_bind at 1 2.
    destruct (createTaskIssue created) as [issueNumber|e] eqn:Hissue;
      [|discriminate].
    unfold async_bind at 1.
    match goal with
    | |- context [updateTask ?i ?u w1] =>
        destruct (updateTask i u w1) as [[updated|e] w2] eqn:Hupdate
    end; [|discriminate].
    rewrite Hid in Hupdate.
    destruct (updateTask_github _ _ _ _ _ _ Hget Hid Hupdate)
      as (Hfile2 & Hok2 & Hgithub & _ & Htitle & Hdescription & Hsecurity).
    unfold async_ret at 1. intros Hrest.
    apply (Hturn updated) in Hrest as (Htask & Hg & Ht & Hd & Hs);
      try done; try apply same_task_refl;
      rewrite ?Hgithub, ?Htitle, ?Hdescription, ?Hsecurity; try done.
    rewrite Hg, Ht, Hd, Hs, Hgithub, Htitle, Hdescription, Hsecurity.
    subst created. cbn. repeat split; try done.
    eexists _, issueNumber. split; [exact Hissue|]. by rewrite Htask.
  - unfold async_bind at 1. unfold async_ret at 1. intros Hrest.
    apply (Hturn created) in Hrest as (Htask & Hg & Ht & Hd & Hs);
      try done; try apply same_task_refl;
      try (by apply getTask_inv in Hget as (_&?&_)).
    rewrite Hg, Ht, Hd, Hs. subst created. by cbn.
Qed.

(** X20. [createAndStartTask] is not atomic either: when an issue was asked
    for and the tracker fails, it throws the tracker's error although the
    task is already created; the task stays stored, readable and
    [pending], and no turn was run. *)
Theorem createAndStartTask_issue_failure
    createTaskIssue options store tracker created error w w1 :
  parseRepoString (cto_stateRepo options) = Return store →
  parseRepoString (sr_repo (cto_request options)) = Return tracker →
  sr_createIssue (cto_request options) = true →
  createTask store
    {| ct_id := None;
       ct_title := sr_title (cto_request options);
       ct_description := sr_description (cto_request options);
       ct_repo := sr_repo (cto_request options);
       ct_branch := sr_branch (cto_request options);
       ct_stateRepo := Some (cto_stateRepo options);
       ct_agentId := cto_agentId options;
       ct_userId := cto_userId options |} w
  = (Return created, w1) →
  createTaskIssue created = Throw error →
  createAndStartTask createTaskIssue options w = (Throw error, w1)
  ∧ getTask (ts_id created) w1 = (Return (Some created), w1)
  ∧ ts_status created = pending
  ∧ se_currentSessionId (ts_session created) = "".
Proof.
  intros Hstore Htracker Hissue Hcreate Hfails.
  destruct (createTask_returned _ _ _ _ _ Hcreate) as (Hcreated & _ & Hget).
  split.
  - unfold createAndStartTask, new_TaskStateStore, new_IssueTracker.
    unfold async_bind at 1. rewrite Hstore.
    unfold async_bind at 1. rewrite Htracker.
    unfold async_bind at 1. rewrite Hcreate, Hissue.
    unfold async_bind. by rewrite Hfails.
  - split; [|by subst created].
    replace (ts_id created) with
      (created_id
         {| ct_id := None;
            ct_title := sr_title (cto_request options);
            ct_description := sr_description (cto_request options);
            ct_repo := sr_repo (cto_request options);
            ct_branch := sr_branch (cto_request options);
            ct_stateRepo := Some (cto_stateRepo options);
            ct_agentId := cto_agentId options;
            ct_userId := cto_userId options |} w) by (by subst created).
    exact Hget.
Qed.

(** X21. The agent's progress tool does not add to the checkpoints, it
    replaces them: after a call on a readable task the stored progress has
    the phase and the percentage of the call and exactly one checkpoint,
    the one of this call, whatever checkpoints were recorded before. *)
Theorem progress_tool_replaces_checkpoints
    taskId sessionId phase percent done todo task w :
  getTask taskId w = (Return (Some task), w) →
  ∃ task' w',
    tool_execute taskId sessionId (call_updateProgress phase percent done todo) w
    = (Return tt, w')
    ∧ w_files w' !! state_path (ts_id task) = Some (TaskDoc task')
    ∧ ts_progress task'
      = {| pg_currentPhase := phase;
           pg_checkpoints :=
             [ {| cp_id := uuids (w_uuids w);
                  cp_timestamp := clock (w_clock w);
                  cp_description := "Progress update: " +:+ phase;
                  cp_completedSteps := done;
                  cp_remainingSteps := todo;
                  cp_blockers := None |} ];
           pg_percentComplete := percent |}
    ∧ ts_handoffs task' = ts_handoffs task
    ∧ ts_status task' = ts_status task.
Proof.
  intros Hget. apply getTask_inv in Hget as (_ & Hfile & Hvalid).
  cbn [tool_execute]. unfold updateProgress. async_step.
  erewrite getTask_or_throw_found by (by apply getTask_found).
  async_step. cbn [snd].
  eexists _, _. split; [reflexivity|].
  cbn [w_files ts_id set_updatedAt set_progress].
  split; [apply lookup_insert_eq|]. done.
Qed.

End TaskHandoff.

(** ** The concrete run *)

(** [createTask] in the empty world gives the demo task and the demo
    world. *)
Lemma demo_world_created :
  createTask demo_env demo_store demo_params empty_world
  = (Return demo_task, demo_world).
Proof. vm_compute. reflexivity. Qed.

(** One turn that calls the progress tool with 45 percent: the task is
    [in_progress] at 45 percent with one checkpoint, version 2 (the one
    [updateTask] of the turn), and the answer is in the history. *)
Lemma demo_first_turn :
  ∃ result task',
    (execute demo_env_up demo_config "Add dark mode" demo_world).1 = Return result
    ∧ er_status result = in_progress
    ∧ er_result result = Some "Toggle wired."
    ∧ persisted (execute demo_env_up demo_config "Add dark mode") demo_world demo_id
      = Some (TaskDoc task')
    ∧ ts_status task' = in_progress
    ∧ pg_percentComplete (ts_progress task') = 45
    ∧ length (pg_checkpoints (ts_progress task')) = 1%nat
    ∧ length (cx_conversationHistory (ts_context task')) = 1%nat
    ∧ ts_version task' = 2.
Proof.
  eexists _, _. split; [vm_compute; reflexivity|].
  split; [reflexivity|]. split; [reflexivity|].
  split; [vm_compute; reflexivity|]. by cbn.
Qed.

(** *** Witnesses of the theorems above *)

Lemma acceptHandoff_last_only_witness :
  getTask demo_env demo_id (world_with demo_awaiting)
  = (Return (Some demo_awaiting), world_with demo_awaiting)
  ∧ ∃ task' w',
      acceptHandoff demo_env demo_id "agent-b" "bob" (world_with demo_awaiting)
      = (Return task', w')
      ∧ ts_status task' = handed_off
      ∧ (ho_toAgent <$> ts_handoffs task')
        = [ None;
            Some {| ai_userId := "bob"; ai_agentId := "agent-b";
                    ai_sessionId := ""; ai_startedAt := demo_clock 5;
                    ai_endedAt := None |} ].
Proof.
  assert (getTask demo_env demo_id (world_with demo_awaiting)
          = (Return (Some demo_awaiting), world_with demo_awaiting)) as Hget
    by (vm_compute; reflexivity).
  split; [exact Hget|].
  destruct (acceptHandoff_last_only demo_env demo_id "agent-b" "bob"
              demo_awaiting (world_with demo_awaiting) Hget) as [_ Hlast].
  destruct (Hlast (ts_handoffs demo_task) _ eq_refl)
    as (task' & w' & Hrun & Hhandoffs & Hstatus & _).
  exists task', w'. split; [exact Hrun|]. split; [exact Hstatus|].
  rewrite Hhandoffs. reflexivity.
Defined.

Lemma addConversationMessage_at_50_witness :
  getTask demo_env demo_id (world_with demo_talkative)
  = (Return (Some demo_talkative), world_with demo_talkative)
  ∧ length (cx_conversationHistory (ts_context demo_talkative)) = 50%nat
  ∧ ∃ task' w',
      addConversationMessage demo_env demo_id (demo_message 50)
        (world_with demo_talkative) = (Return tt, w')
      ∧ cx_conversationHistory (ts_context task')
        = map demo_message (seq 31 20)
      ∧ length (cx_conversationHistory (ts_context task')) = 20%nat
      ∧ cx_compactedSummary (ts_context task')
        = Some
            (String (ascii_of_nat 10) "" +:+ String (ascii_of_nat 10) ""
             +:+ "---" +:+ String (ascii_of_nat 10) "" +:+
             String.concat (String (ascii_of_nat 10) "")
               ["[user]: message 00...";
                "[assistant]: message 01...";
                "[user]: message 02...";
                "[assistant]: message 03...";
                "[user]: message 04...";
                "[assistant]: message 05...";
                "[user]: message 06...";
                "[assistant]: message 07...";
                "[user]: message 08...";
                "[assistant]: message 09...";
                "[user]: message 10...";
                "[assistant]: message 11...";
                "[user]: message 12...";
                "[assistant]: message 13...";
                "[user]: message 14...";
                "[assistant]: message 15...";
                "[user]: message 16...";
                "[assistant]: message 17...";
                "[user]: message 18...";
                "[assistant]: message 19...";
                "[user]: message 20...";
                "[assistant]: message 21...";
                "[user]: message 22...";
                "[assistant]: message 23...";
                "[user]: message 24...";
                "[assistant]: message 25...";
                "[user]: message 26...";
                "[assistant]: message 27...";
                "[user]: message 28...";
                "[assistant]: message 29...";
                "[user]: message 30..."])
      ∧ digest_line
          {| msg_role := system;
             msg_content :=
               "0123456789012345678901234567890123456789012345678901234567890123456789012345678901234567890123456789 and more";
             msg_timestamp := demo_clock 0; msg_toolCalls := None |}
        = "[system]: 0123456789012345678901234567890123456789012345678901234567890123456789012345678901234567890123456789...".
Proof.
  assert (getTask demo_env demo_id (world_with demo_talkative)
          = (Return (Some demo_talkative), world_with demo_talkative)) as Hget
    by (vm_compute; reflexivity).
  split; [exact Hget|]. split; [reflexivity|].
  destruct (addConversationMessage_at_50 demo_env demo_id (demo_message 50)
              demo_talkative (world_with demo_talkative) Hget eq_refl)
    as (task' & w' & Hrun & _ & Hhistory & Hlength & Hsummary & _).
  exists task', w'. split; [exact Hrun|].
  split; [rewrite Hhistory; reflexivity|]. split; [exact Hlength|].
  split; [rewrite Hsummary; vm_compute; reflexivity|reflexivity].
Defined.

Lemma createTask_initial_state_witness :
  createTask demo_env demo_store demo_params empty_world
  = (Return demo_task, demo_world)
  ∧ length (ts_handoffs demo_task) = 1%nat
  ∧ ts_status demo_task = pending
  ∧ ts_version demo_task = 1
  ∧ pg_percentComplete (ts_progress demo_task) = 0
  ∧ ∃ task w',
      createTask demo_env demo_store demo_params empty_world = (Return task, w').
Proof.
  assert (createTask demo_env demo_store demo_params empty_world
          = (Return demo_task, demo_world)) as Hcreate
    by (vm_compute; reflexivity).
  destruct (createTask_initial_state demo_env demo_store demo_params empty_world)
    as [Hstate Hreturns].
  destruct (Hstate demo_task demo_world Hcreate)
    as ((genesis & Hhandoffs & _) & _ & Hstatus & Hversion & Hpercent).
  split; [exact Hcreate|]. split; [by rewrite Hhandoffs|].
  split; [exact Hstatus|]. split; [exact Hversion|]. split; [exact Hpercent|].
  apply Hreturns; [reflexivity|reflexivity|left; reflexivity].
Defined.

Lemma continueTask_authorization_witness :
  parseRepoString "acme/state" = Return demo_store
  ∧ getTask demo_env demo_id (world_with demo_restricted)
    = (Return (Some demo_restricted), world_with demo_restricted)
  ∧ continueTask demo_env (demo_options "agent-b") (world_with demo_restricted)
    = (Throw not_authorized, world_with demo_restricted)
  ∧ (continueTask demo_env (demo_options "agent-a")
       (world_with demo_restricted)).1 ≠ Throw not_authorized
  ∧ ∃ task' result,
      (continueTask demo_env (demo_options "agent-a")
         (world_with demo_restricted)).1 = Return (task', result)
      ∧ ts_status task' = handed_off
      ∧ (ai_agentId <$> (last (ts_handoffs task') ≫= ho_toAgent))
        = Some "agent-a".
Proof.
  assert (getTask demo_env demo_id (world_with demo_restricted)
          = (Return (Some demo_restricted), world_with demo_restricted)) as Hget
    by (vm_compute; reflexivity).
  split; [reflexivity|]. split; [exact Hget|]. split; [|split].
  - apply (continueTask_authorization demo_env (demo_options "agent-b")
             demo_restricted demo_store (world_with demo_restricted)
             eq_refl Hget).
    intros [[H|[]]|[H|[]]]; discriminate H.
  - apply (continueTask_authorization demo_env (demo_options "agent-a")
             demo_restricted demo_store (world_with demo_restricted)
             eq_refl Hget).
    left. left. reflexivity.
  - eexists _, _. split; [vm_compute; reflexivity|]. split; reflexivity.
Defined.

Lemma createTask_allows_every_agent_witness :
  createTask demo_env demo_store demo_params empty_world
  = (Return demo_task, demo_world)
  ∧ sc_allowedAgents (ts_security demo_task) = ["*"]
  ∧ sc_requireApproval (ts_security demo_task) = false
  ∧ authorized demo_task "agent-b" = true
  ∧ (continueTask demo_env (demo_options "agent-b") demo_world).1
    ≠ Throw not_authorized.
Proof.
  assert (createTask demo_env demo_store demo_params empty_world
          = (Return demo_task, demo_world)) as Hcreate
    by (vm_compute; reflexivity).
  destruct (createTask_allows_every_agent demo_env demo_store demo_params
              demo_task empty_world demo_world Hcreate)
    as (Hallowed & Happroval & Hall & Hcontinue).
  split; [exact Hcreate|]. split; [exact Hallowed|]. split; [exact Happroval|].
  split; [apply Hall|]. apply Hcontinue. reflexivity.
Defined.

(** *** Where the code departs from its description *)

(** C1. After creation (version 1) three mutations in a row,
    [updateSessionId], [addFileModification] and [updateNextSteps], all
    return and all write the document, and the persisted version is still
    1, not 1 + 3: only [updateTask] increments it. *)
Theorem version_unchanged_by_helpers :
  let mutations :=
    (run updateSessionId demo_env demo_id "session-1";
     run addFileModification demo_env demo_id
           {| fm_path := "src/theme.ts"; fm_action := created;
              fm_previousHash := None; fm_currentHash := "";
              fm_summary := "theme toggle" |};
     updateNextSteps demo_env demo_id
       {| np_immediate := Some ["add tests"]; np_considerations := None;
          np_blockers := None; np_resources := None |}) in
  createTask demo_env demo_store demo_params empty_world
  = (Return demo_task, demo_world)
  ∧ ts_version demo_task = 1
  ∧ (mutations demo_world).1 = Return tt
  ∧ ∃ task',
      persisted mutations demo_world demo_id = Some (TaskDoc task')
      ∧ fl_modifications (ts_files task') ≠ []
      ∧ ns_immediate (ts_nextSteps task') = ["add tests"]
      ∧ ts_version task' = 1
      ∧ ts_version task' ≠ 1 + 3.
Proof.
  cbv zeta. split; [vm_compute; reflexivity|]. split; [reflexivity|].
  split; [vm_compute; reflexivity|].
  eexists. split; [vm_compute; reflexivity|].
  cbn. repeat split; discriminate.
Qed.

(** C2. [updateProgress] with percentComplete 150, as the progress tool
    passes it on, returns normally and persists 150: nothing validates the
    document before the write and nothing clamps it.  The task can no
    longer be read afterwards, [getTask] rejects the stored document. *)
Theorem updateProgress_persists_out_of_range :
  let progress :=
    {| pp_currentPhase := None; pp_checkpoints := None;
       pp_percentComplete := Some 150 |} in
  let tool := tool_execute demo_env demo_id "" (call_updateProgress "build" 150 [] []) in
  (updateProgress demo_env demo_id progress demo_world).1 = Return tt
  ∧ (∃ task',
       persisted (updateProgress demo_env demo_id progress) demo_world demo_id
       = Some (TaskDoc task')
       ∧ pg_percentComplete (ts_progress task') = 150)
  ∧ (getTask demo_env demo_id
       (updateProgress demo_env demo_id progress demo_world).2).1
    = Throw (ZodError "Invalid input")
  ∧ (tool demo_world).1 = Return tt
  ∧ (∃ task',
       persisted tool demo_world demo_id = Some (TaskDoc task')
       ∧ pg_percentComplete (ts_progress task') = 150).
Proof.
  cbv zeta. split; [vm_compute; reflexivity|].
  split; [eexists; split; [vm_compute; reflexivity|reflexivity]|].
  split; [vm_compute; reflexivity|]. split; [vm_compute; reflexivity|].
  eexists; split; [vm_compute; reflexivity|reflexivity].
Qed.

(** C6. When the agent turn throws, [resume] returns the failure result
    with the error message but writes nothing: the persisted status stays
    what it was ([pending] here), not [failed].  [execute] on the same
    world does persist [failed]. *)
Theorem resume_does_not_persist_failed :
  (∃ result,
     resume demo_env demo_config "" None demo_world = (Return result, demo_world)
     ∧ er_status result = failed
     ∧ er_error result = Some "Overloaded")
  ∧ persisted (resume demo_env demo_config "" None) demo_world demo_id
    = Some (TaskDoc demo_task)
  ∧ ts_status demo_task = pending
  ∧ (∃ result task',
       (execute demo_env demo_config "go" demo_world).1 = Return result
       ∧ er_status result = failed
       ∧ er_error result = Some "Overloaded"
       ∧ persisted (execute demo_env demo_config "go") demo_world demo_id
         = Some (TaskDoc task')
       ∧ ts_status task' = failed).
Proof.
  split; [eexists; split; [vm_compute; reflexivity|by split]|].
  split; [vm_compute; reflexivity|]. split; [reflexivity|].
  eexists _, _. split; [vm_compute; reflexivity|].
  split; [reflexivity|]. split; [reflexivity|].
  split; [vm_compute; reflexivity|reflexivity].
Qed.

(** C8. [updateSessionId] returns and writes the document with the
    [updatedAt] it read, the time of creation, although the clock has moved
    on; [addFileModification] in the same world stamps the current time. *)
Theorem updateSessionId_stale_updatedAt :
  (updateSessionId demo_env demo_id "session-1" demo_world).1 = Return tt
  ∧ (∃ task',
       persisted (updateSessionId demo_env demo_id "session-1") demo_world demo_id
       = Some (TaskDoc task')
       ∧ se_currentSessionId (ts_session task') = "session-1"
       ∧ ts_updatedAt task' = demo_clock 0
       ∧ ts_updatedAt task' ≠ o_clock demo_env (w_clock demo_world))
  ∧ (∃ task',
       persisted
         (addFileModification demo_env demo_id
            {| fm_path := "src/theme.ts"; fm_action := created;
               fm_previousHash := None; fm_currentHash := "";
               fm_summary := "theme toggle" |})
         demo_world demo_id
       = Some (TaskDoc task')
       ∧ ts_updatedAt task' = o_clock demo_env (w_clock demo_world)).
Proof.
  split; [vm_compute; reflexivity|]. split.
  - eexists. split; [vm_compute; reflexivity|]. by vm_compute.
  - eexists. split; [vm_compute; reflexivity|]. by vm_compute.
Qed.

(** C9. [listTasks] returns the objects of the index as they are: the one
    [createTask] appended has [id], [title] and [createdAt] and no
    [status].  Without an index the result is the empty list. *)
Theorem listTasks_entries_lack_status :
  (∃ entry,
     listTasks demo_world = (Return [entry], demo_world)
     ∧ prop entry "id" = Some demo_id
     ∧ prop entry "title" = Some "Add dark mode"
     ∧ prop entry "createdAt" = Some (demo_clock 1)
     ∧ prop entry "status" = None)
  ∧ listTasks empty_world = (Return [], empty_world).
Proof.
  split; [|reflexivity].
  eexists. split; [vm_compute; reflexivity|]. by vm_compute.
Qed.

(** *** Witnesses of the further properties *)

Lemma parseRepoString_exactly_one_slash_witness :
  parseRepoString "acme/state" = Return demo_store
  ∧ "acme/state" = owner demo_store +:+ "/" +:+ repo demo_store
  ∧ (∀ ref, parseRepoString "acme/state/x" ≠ Return ref).
Proof.
  split; [reflexivity|]. split.
  - apply (proj1 (parseRepoString_exactly_one_slash "acme/state" demo_store)).
    reflexivity.
  - intros ref Href. discriminate Href.
Defined.

Lemma agent_tools_keep_identity_witness :
  id_ok demo_id demo_world
  ∧ w_files demo_world !! state_path demo_id = Some (TaskDoc demo_task)
  ∧ ∃ task',
      w_files
        (run_tools demo_env [0; 1; 0; 1; 0; 1]%nat demo_id "s"
           [call_recordFileChange "src/theme.ts" created "theme toggle";
            call_updateProgress "build" 150 ["wire toggle"] []] demo_world).2
      !! state_path demo_id = Some (TaskDoc task')
      ∧ ts_security task' = ts_security demo_task
      ∧ ts_version task' = 1
      ∧ length (fl_modifications (ts_files task')) = 1%nat
      ∧ pg_percentComplete (ts_progress task') = 0.
Proof.
  assert (id_ok demo_id demo_world) as Hok.
  { intros t Ht. vm_compute in Ht. injection Ht as <-. reflexivity. }
  assert (w_files demo_world !! state_path demo_id = Some (TaskDoc demo_task))
    as Hfile by (vm_compute; reflexivity).
  split; [exact Hok|]. split; [exact Hfile|].
  destruct (agent_tools_keep_identity demo_env [0; 1; 0; 1; 0; 1]%nat
              demo_id "s"
              [call_recordFileChange "src/theme.ts" created "theme toggle";
               call_updateProgress "build" 150 ["wire toggle"] []]
              demo_task demo_world Hok Hfile)
    as [(task' & Hfile' & Hsame) _].
  exists task'. split; [exact Hfile'|].
  destruct Hsame as (_ & Hversion & _ & _ & _ & _ & _ & _ & Hsecurity).
  split; [exact Hsecurity|]. split; [exact Hversion|].
  vm_compute in Hfile'. injection Hfile' as <-. split; reflexivity.
Defined.

Lemma turn_touches_only_its_task_witness :
  id_ok demo_id demo_world
  ∧ w_files (execute demo_env_handing_off demo_config "go" demo_world).2
    !! index_path = w_files demo_world !! index_path
  ∧ ∃ task',
      w_files (execute demo_env_handing_off demo_config "go" demo_world).2
      !! state_path demo_id = Some (TaskDoc task')
      ∧ ts_security task' = ts_security demo_task
      ∧ ts_version demo_task ≤ ts_version task'.
Proof.
  assert (id_ok demo_id demo_world) as Hok.
  { intros t Ht. vm_compute in Ht. injection Ht as <-. reflexivity. }
  split; [exact Hok|].
  destruct (proj1 (turn_touches_only_its_task demo_env_handing_off demo_config
                     "go" "" None (demo_options "agent-a")) demo_world Hok)
    as (_ & Hframe & Hdoc).
  split.
  - apply Hframe. intros Hpath. vm_compute in Hpath. discriminate Hpath.
  - destruct (Hdoc demo_task) as (task' & Hfile' & Hsame);
      [vm_compute; reflexivity|].
    exists task'. split; [exact Hfile'|].
    destruct Hsame as (_ & Hversion & _ & _ & _ & _ & Hsecurity).
    split; [exact Hsecurity|exact Hversion].
Defined.

Lemma missing_task_is_not_found_witness :
  w_files empty_world !! state_path demo_id = None
  ∧ getTask demo_env demo_id empty_world = (Return None, empty_world)
  ∧ completeTask demo_env demo_id empty_world
    = (Throw (JsError "Task not found"), empty_world)
  ∧ execute demo_env_up demo_config "go" empty_world
    = (Throw (JsError "Task not found"), empty_world).
Proof.
  assert (w_files empty_world !! state_path demo_id = None) as Hfile
    by reflexivity.
  split; [exact Hfile|].
  split; [exact (proj1 (missing_task_is_not_found demo_env demo_id
                          empty_world Hfile))|].
  split.
  - exact (proj1 (proj2 (proj2 (missing_task_is_not_found demo_env demo_id
                                  empty_world Hfile)))).
  - destruct (missing_task_is_not_found demo_env_up demo_id empty_world Hfile)
      as (_ & _ & _ & _ & _ & _ & _ & _ & _ & _ & Hexecute & _).
    apply Hexecute. reflexivity.
Defined.

Lemma updateTask_all_or_nothing_witness :
  (∃ task' w',
     updateTask demo_env demo_id (status_update completed) demo_world
     = (Return task', w')
     ∧ ts_version task' = 2
     ∧ getTask demo_env demo_id w' = (Return (Some task'), w')
     ∧ w_files w' !! index_path = w_files demo_world !! index_path)
  ∧ (∃ task' w',
       updateTask demo_env demo_id (status_update completed)
         (world_with demo_aged)
       = (Return task', w')
       ∧ ts_version task' = 2 ^ 53)
  ∧ (∃ w',
       updateTask demo_env demo_id
         {| tp_id := None; tp_version := Some 99; tp_title := None;
            tp_description := None; tp_createdAt := None;
            tp_updatedAt := None; tp_status := None; tp_github := None;
            tp_session := None; tp_context := None;
            tp_progress :=
              Some {| pg_currentPhase := "build"; pg_checkpoints := [];
                      pg_percentComplete := 150 |};
            tp_files := None; tp_handoffs := None; tp_nextSteps := None;
            tp_security := None |} demo_world
       = (Throw (ZodError "Invalid input"), w')
       ∧ w_files w' = w_files demo_world).
Proof.
  split; [|split].
  - pose proof (updateTask_all_or_nothing demo_env demo_id
                  (status_update completed) demo_world) as Hall.
    destruct (updateTask _ _ _ demo_world) as [[task'|e] w'] eqn:Hrun;
      [|vm_compute in Hrun; discriminate Hrun].
    destruct Hall as (_ & (current & Hcurrent & _ & Hexact & _) & _ & Hread
                      & Hframe).
    assert (ts_id task' = demo_id) as Hid
      by (vm_compute in Hrun; by injection Hrun as <- _).
    exists task', w'. split; [reflexivity|].
    vm_compute in Hcurrent. injection Hcurrent as <-.
    split; [apply Hexact; reflexivity|].
    rewrite Hid in Hread, Hframe. split; [exact Hread|].
    apply Hframe. intros Hpath. vm_compute in Hpath. discriminate Hpath.
  - pose proof (updateTask_all_or_nothing demo_env demo_id
                  (status_update completed) (world_with demo_aged)) as Hall.
    destruct (updateTask _ _ _ (world_with demo_aged))
      as [[task'|e] w'] eqn:Hrun; [|vm_compute in Hrun; discriminate Hrun].
    destruct Hall as (_ & (current & Hcurrent & _ & _ & Hstuck & _) & _).
    exists task', w'. split; [reflexivity|].
    vm_compute in Hcurrent. injection Hcurrent as <-.
    apply Hstuck. reflexivity.
  - pose proof (updateTask_all_or_nothing demo_env demo_id
      {| tp_id := None; tp_version := Some 99; tp_title := None;
         tp_description := None; tp_createdAt := None; tp_updatedAt := None;
         tp_status := None; tp_github := None; tp_session := None;
         tp_context := None;
         tp_progress :=
           Some {| pg_currentPhase := "build"; pg_checkpoints := [];
                   pg_percentComplete := 150 |};
         tp_files := None; tp_handoffs := None; tp_nextSteps := None;
         tp_security := None |} demo_world) as Hall.
    destruct (updateTask _ _ _ demo_world) as [[task'|e] w'] eqn:Hrun.
    + vm_compute in Hrun. discriminate Hrun.
    + exists w'. split; [|exact Hall].
      vm_compute in Hrun. injection Hrun as <- <-. vm_compute. reflexivity.
Defined.

Lemma addConversationMessage_bounded_witness :
  getTask demo_env demo_id (world_with demo_talkative)
  = (Return (Some demo_talkative), world_with demo_talkative)
  ∧ ∃ task',
      persisted (addConversationMessage demo_env demo_id (demo_message 50))
        (world_with demo_talkative) demo_id = Some (TaskDoc task')
      ∧ (length (cx_conversationHistory (ts_context task')) ≤ 50)%nat
      ∧ last (cx_conversationHistory (ts_context task'))
        = Some (demo_message 50).
Proof.
  assert (getTask demo_env demo_id (world_with demo_talkative)
          = (Return (Some demo_talkative), world_with demo_talkative)) as Hget
    by (vm_compute; reflexivity).
  split; [exact Hget|].
  destruct (addConversationMessage_bounded demo_env demo_id (demo_message 50)
              demo_talkative (world_with demo_talkative) Hget)
    as (task' & _ & Hfile & Hbound & Hlast & _).
  exists task'. split; [exact Hfile|]. split; [exact Hbound|exact Hlast].
Defined.

Lemma helpers_keep_task_readable_witness :
  getTask demo_env demo_id demo_world = (Return (Some demo_task), demo_world)
  ∧ ts_id demo_task = demo_id
  ∧ o_is_datetime demo_env (o_clock demo_env (w_clock demo_world)) = true
  ∧ ∃ task',
      getTask demo_env demo_id
        (updateNextSteps demo_env demo_id
           {| np_immediate := Some ["add tests"]; np_considerations := None;
              np_blockers := None; np_resources := None |} demo_world).2
      = (Return (Some task'),
         (updateNextSteps demo_env demo_id
            {| np_immediate := Some ["add tests"]; np_considerations := None;
               np_blockers := None; np_resources := None |} demo_world).2).
Proof.
  assert (getTask demo_env demo_id demo_world
          = (Return (Some demo_task), demo_world)) as Hget
    by (vm_compute; reflexivity).
  split; [exact Hget|]. split; [reflexivity|]. split; [reflexivity|].
  destruct (helpers_keep_task_readable demo_env demo_id demo_task demo_world
              Hget eq_refl eq_refl
              (updateNextSteps demo_env demo_id
                 {| np_immediate := Some ["add tests"];
                    np_considerations := None;
                    np_blockers := None; np_resources := None |}))
    as (task' & _ & Hread).
  - right. right. left. eexists. reflexivity.
  - exists task'. exact Hread.
Defined.

Lemma createTask_failure_modes_witness :
  (∃ message w',
     createTask demo_env demo_store
       {| ct_id := Some "not-a-uuid"; ct_title := "t"; ct_description := "d";
          ct_repo := "acme/app"; ct_branch := "main"; ct_stateRepo := None;
          ct_agentId := "agent-a"; ct_userId := "alice" |} demo_world
     = (Throw (ZodError message), w')
     ∧ w_files w' = w_files demo_world)
  ∧ (∃ w',
       createTask demo_env demo_store demo_params
         {| w_files := <[index_path := IndexDoc None]> ∅;
            w_clock := 0; w_uuids := 0 |}
       = (Throw (JsError "Cannot read properties of undefined (reading 'push')"),
          w')
       ∧ getTask demo_env demo_id w' = (Return (Some demo_task), w')).
Proof.
  split.
  - apply (proj1 (createTask_failure_modes demo_env demo_store
       {| ct_id := Some "not-a-uuid"; ct_title := "t"; ct_description := "d";
          ct_repo := "acme/app"; ct_branch := "main"; ct_stateRepo := None;
          ct_agentId := "agent-a"; ct_userId := "alice" |} demo_world)).
    reflexivity.
  - destruct (proj2 (createTask_failure_modes demo_env demo_store demo_params
       {| w_files := <[index_path := IndexDoc None]> ∅;
          w_clock := 0; w_uuids := 0 |}))
      as (w' & Hrun & Hread & _).
    + reflexivity.
    + left. vm_compute. reflexivity.
    + exists w'. split; [exact Hrun|exact Hread].
Defined.

Lemma createTask_appends_to_index_witness :
  ∃ second w' entry,
    createTask demo_env demo_store demo_params demo_world = (Return second, w')
    ∧ (∃ first, listTasks demo_world = (Return [first], demo_world)
                ∧ listTasks w' = (Return [first; entry], w'))
    ∧ prop entry "id" = Some (ts_id second)
    ∧ prop entry "title" = Some "Add dark mode".
Proof.
  destruct (createTask demo_env demo_store demo_params demo_world)
    as [[second|e] w'] eqn:Hrun; [|vm_compute in Hrun; discriminate Hrun].
  destruct (createTask_appends_to_index demo_env demo_store demo_params
              second demo_world w' Hrun)
    as (before & entry & Hbefore & Hafter & Hentry_id & Hentry_title & _).
  exists second, w', entry. split; [reflexivity|].
  vm_compute in Hbefore. injection Hbefore as <-.
  split; [eexists; split; [vm_compute; reflexivity|exact Hafter]|].
  split; [exact Hentry_id|]. rewrite Hentry_title.
  vm_compute in Hrun. injection Hrun as <- _. reflexivity.
Defined.

Lemma initiate_then_accept_witness :
  getTask demo_env demo_id demo_world = (Return (Some demo_task), demo_world)
  ∧ ∃ initiated w1 accepted w2,
      initiateHandoff demo_env demo_id
        {| hi_fromAgent :=
             {| ai_userId := "alice"; ai_agentId := "agent-a";
                ai_sessionId := ""; ai_startedAt := demo_clock 0;
                ai_endedAt := None |};
           hi_handoffAt := demo_clock 1;
           hi_reason := "time_limit"; hi_instructions := "Finish the tests" |}
        demo_world = (Return initiated, w1)
      ∧ acceptHandoff demo_env demo_id "agent-b" "bob" w1 = (Return accepted, w2)
      ∧ ts_status accepted = handed_off
      ∧ length (ts_handoffs accepted) = 2%nat
      ∧ (ai_agentId <$> (last (ts_handoffs accepted) ≫= ho_toAgent))
        = Some "agent-b".
Proof.
  assert (getTask demo_env demo_id demo_world
          = (Return (Some demo_task), demo_world)) as Hget
    by (vm_compute; reflexivity).
  split; [exact Hget|].
  destruct (initiate_then_accept demo_env demo_id
              {| hi_fromAgent :=
                   {| ai_userId := "alice"; ai_agentId := "agent-a";
                      ai_sessionId := ""; ai_startedAt := demo_clock 0;
                      ai_endedAt := None |};
                 hi_handoffAt := demo_clock 1;
                 hi_reason := "time_limit";
                 hi_instructions := "Finish the tests" |}
              "agent-b" "bob" demo_task demo_world Hget eq_refl eq_refl eq_refl)
    as (initiated & w1 & accepted & w2 & Hinit & _ & _ & Haccept & Hstatus
        & Hhandoffs & _).
  exists initiated, w1, accepted, w2.
  split; [exact Hinit|]. split; [exact Haccept|]. split; [exact Hstatus|].
  rewrite Hhandoffs. split; reflexivity.
Defined.

Lemma completeTask_result_witness :
  getTask demo_env demo_id (world_with demo_worked)
  = (Return (Some demo_worked), world_with demo_worked)
  ∧ o_is_datetime demo_env (o_clock demo_env (w_clock (world_with demo_worked)))
    = true
  ∧ length (pg_checkpoints (ts_progress demo_worked)) = 1%nat
  ∧ ∃ task' w',
      completeTask demo_env demo_id (world_with demo_worked) = (Return task', w')
      ∧ ts_status task' = completed
      ∧ pg_percentComplete (ts_progress task') = 100
      ∧ pg_checkpoints (ts_progress task') = []
      ∧ length (fl_modifications (ts_files task')) = 1%nat
      ∧ ts_version task' = 2.
Proof.
  assert (getTask demo_env demo_id (world_with demo_worked)
          = (Return (Some demo_worked), world_with demo_worked)) as Hget
    by (vm_compute; reflexivity).
  split; [exact Hget|]. split; [reflexivity|]. split; [reflexivity|].
  destruct (completeTask_result demo_env demo_id demo_worked
              (world_with demo_worked) Hget eq_refl)
    as (task' & w' & Hrun & Hstatus & Hprogress & _ & Hexact & _ & _ & Hfiles
        & _).
  exists task', w'. split; [exact Hrun|]. split; [exact Hstatus|].
  rewrite Hprogress, Hfiles. split; [reflexivity|]. split; [reflexivity|].
  split; [reflexivity|]. apply Hexact. reflexivity.
Defined.

Lemma resume_always_returns_witness :
  getTask demo_env_careless demo_id demo_world
  = (Return (Some demo_task), demo_world)
  ∧ ∃ result w',
      resume demo_env_careless demo_config "s" None demo_world
      = (Return result, w')
      ∧ er_sessionId result = "s"
      ∧ er_progress result = 0
      ∧ er_status result = failed.
Proof.
  assert (getTask demo_env_careless demo_id demo_world
          = (Return (Some demo_task), demo_world)) as Hget
    by (vm_compute; reflexivity).
  split; [exact Hget|].
  destruct (resume_always_returns demo_env_careless demo_config "s" None
              demo_task demo_world Hget)
    as (result & w' & Hrun & Hsession & Hprogress & _).
  exists result, w'. split; [exact Hrun|]. split; [exact Hsession|].
  split; [exact Hprogress|].
  vm_compute in Hrun. injection Hrun as <- _. reflexivity.
Defined.

Lemma execute_throws_after_bad_progress_witness :
  getTask demo_env_careless demo_id demo_world
  = (Return (Some demo_task), demo_world)
  ∧ ¬ (0 ≤ 150 ≤ 100)
  ∧ (∃ message w',
       execute demo_env_careless demo_config "go" demo_world
       = (Throw (ZodError message), w'))
  ∧ (∃ result w' task',
       execute demo_env_hasty demo_config "go" demo_world = (Return result, w')
       ∧ er_status result = in_progress
       ∧ w_files w' !! state_path demo_id = Some (TaskDoc task')
       ∧ pg_percentComplete (ts_progress task') = 0
       ∧ length (fl_modifications (ts_files task')) = 1%nat).
Proof.
  assert (getTask demo_env_careless demo_id demo_world
          = (Return (Some demo_task), demo_world)) as Hget
    by (vm_compute; reflexivity).
  assert (¬ (0 ≤ 150 ≤ 100)) as Hrange by lia.
  split; [exact Hget|]. split; [exact Hrange|]. split.
  - exact (execute_throws_after_bad_progress demo_env_careless demo_config "go"
             demo_task "build" 150 ["wire toggle"] [] demo_world Hget eq_refl
             eq_refl Hrange).
  - eexists _, _, _. split; [vm_compute; reflexivity|].
    split; [reflexivity|]. split; [vm_compute; reflexivity|].
    split; reflexivity.
Defined.

Lemma execute_success_state_witness :
  getTask demo_env_handing_off demo_id demo_world
  = (Return (Some demo_task), demo_world)
  ∧ ∃ result w' task',
      execute demo_env_handing_off demo_config "go" demo_world
      = (Return result, w')
      ∧ er_status result = in_progress
      ∧ w_files w' !! state_path demo_id = Some (TaskDoc task')
      ∧ ts_status task' = in_progress
      ∧ length (ts_handoffs task') = 2%nat
      ∧ se_currentSessionId (ts_session task') = demo_uuids 1.
Proof.
  assert (getTask demo_env_handing_off demo_id demo_world
          = (Return (Some demo_task), demo_world)) as Hget
    by (vm_compute; reflexivity).
  split; [exact Hget|].
  destruct (execute demo_env_handing_off demo_config "go" demo_world)
    as [[result|e] w'] eqn:Hrun; [|vm_compute in Hrun; discriminate Hrun].
  assert (er_status result = in_progress) as Hstatus.
  { pose proof Hrun as Hcopy. vm_compute in Hcopy.
    injection Hcopy as <- _. reflexivity. }
  destruct (execute_success_state demo_env_handing_off demo_config "go"
              demo_task result demo_world w' Hget eq_refl Hrun Hstatus)
    as (task' & text & _ & _ & _ & _ & Hfile & Hstored & Hsession & _).
  exists result, w', task'. split; [reflexivity|]. split; [exact Hstatus|].
  split; [exact Hfile|]. split; [exact Hstored|]. split; [|exact Hsession].
  vm_compute in Hrun. injection Hrun as _ <-.
  vm_compute in Hfile. injection Hfile as <-. reflexivity.
Defined.


Lemma continue_route_answers_witness :
  ar_valid (validateAuth demo_server demo_now demo_now
              (rq_authorization (demo_continue_request "token-b"))) = true
  ∧ getTask demo_env demo_id (world_with demo_restricted)
    = (Return (Some demo_restricted), world_with demo_restricted)
  ∧ authorized demo_restricted "agent-b" = false
  ∧ continue_POST demo_env demo_server demo_now demo_now demo_now demo_now
      (demo_continue_request "token-b") (world_with demo_restricted)
    = (Return {| rp_status := 500;
                 rp_body := ErrorBody "Not authorized to continue this task" |},
       world_with demo_restricted)
  ∧ continue_POST demo_env demo_server demo_now demo_now demo_now demo_now
      (demo_continue_request "unknown") (world_with demo_restricted)
    = (Return {| rp_status := 401; rp_body := ErrorBody "Invalid token" |},
       world_with demo_restricted).
Proof.
  assert (getTask demo_env demo_id (world_with demo_restricted)
          = (Return (Some demo_restricted), world_with demo_restricted))
    as Hget by (vm_compute; reflexivity).
  split; [reflexivity|]. split; [exact Hget|]. split; [reflexivity|].
  split.
  - destruct (continue_route_answers demo_env demo_server demo_now demo_now
                demo_now demo_now
                (demo_continue_request "token-b") (world_with demo_restricted))
      as (_ & _ & _ & Hanswers).
    destruct (Hanswers eq_refl eq_refl (ex_intro _ demo_store eq_refl))
      as (_ & Hrejected & _).
    apply (Hrejected demo_restricted Hget). reflexivity.
  - destruct (continue_route_answers demo_env demo_server demo_now demo_now
                demo_now demo_now
                (demo_continue_request "unknown") (world_with demo_restricted))
      as (_ & Hunauthenticated & _).
    apply Hunauthenticated. reflexivity.
Defined.

Lemma handoff_route_trusts_fromAgentId_witness :
  authorized demo_tracked "agent-b" = false
  ∧ (getAuthInfo demo_server demo_now demo_now
       (rq_authorization (demo_handoff_request "token-b" "agent-a"))).2
    = "agent-b"
  ∧ (∃ task' w',
       handoff_POST demo_env (λ _ _ _, Return tt) demo_server
         demo_now demo_now demo_now demo_now
         (demo_handoff_request "token-b" "agent-a") (world_with demo_restricted)
       = (Return {| rp_status := 200;
                    rp_body := HandoffBody demo_id awaiting_handoff None |}, w')
       ∧ w_files w' !! state_path demo_id = Some (TaskDoc task')
       ∧ length (ts_handoffs task') = 3%nat
       ∧ ((λ h, (ai_userId (ho_fromAgent h), ai_agentId (ho_fromAgent h)))
            <$> last (ts_handoffs task'))
         = Some ("bob", "agent-a"))
  ∧ (∃ task' w',
       handoff_POST demo_env (λ _ _ _, Throw (JsError "tracker down"))
         demo_server demo_now demo_now demo_now demo_now
         (demo_handoff_request "token-b" "agent-a") (world_with demo_tracked)
       = (Return {| rp_status := 500; rp_body := ErrorBody "tracker down" |},
          w')
       ∧ w_files w' !! state_path demo_id = Some (TaskDoc task')
       ∧ ts_status task' = awaiting_handoff
       ∧ length (ts_handoffs task') = 3%nat).
Proof.
  split; [reflexivity|]. split; [reflexivity|]. split.
  - destruct (handoff_route_trusts_fromAgentId demo_env (λ _ _ _, Return tt)
                demo_server demo_now demo_now demo_now demo_now
                (demo_handoff_request "token-b" "agent-a")
                demo_restricted
                {| ho_fromAgent :=
                     {| ai_userId := "alice"; ai_agentId := "agent-a";
                        ai_sessionId := ""; ai_startedAt := demo_clock 0;
                        ai_endedAt := None |};
                   ho_toAgent := None;
                   ho_handoffAt := demo_clock 3;
                   ho_reason := "expertise_needed";
                   ho_instructions := "Add the tests" |}
                demo_store (world_with demo_restricted))
      as (task' & w' & response & Hrun & Hfile & _ & _ & Hhandoffs & ->);
      try reflexivity.
    exists task', w'. split; [exact Hrun|]. split; [exact Hfile|].
    rewrite Hhandoffs. split; reflexivity.
  - destruct (handoff_route_trusts_fromAgentId demo_env
                (λ _ _ _, Throw (JsError "tracker down"))
                demo_server demo_now demo_now demo_now demo_now
                (demo_handoff_request "token-b" "agent-a")
                demo_tracked
                {| ho_fromAgent :=
                     {| ai_userId := "alice"; ai_agentId := "agent-a";
                        ai_sessionId := ""; ai_startedAt := demo_clock 0;
                        ai_endedAt := None |};
                   ho_toAgent := None;
                   ho_handoffAt := demo_clock 3;
                   ho_reason := "expertise_needed";
                   ho_instructions := "Add the tests" |}
                demo_store (world_with demo_tracked))
      as (task' & w' & response & Hrun & Hfile & Hstatus & _ & Hhandoffs & ->);
      try reflexivity.
    exists task', w'. split; [exact Hrun|]. split; [exact Hfile|].
    split; [exact Hstatus|]. rewrite Hhandoffs. reflexivity.
Defined.

Lemma handoff_route_refusals_witness :
  ar_valid (validateAuth demo_server demo_now demo_now
              (rq_authorization (demo_handoff_request "token-b" "agent-b")))
  = true
  ∧ handoff_POST demo_env (λ _ _ _, Return tt) demo_server
      demo_now demo_now demo_now demo_now
      (demo_handoff_request "token-b" "agent-b") (world_with demo_restricted)
    = (Return {| rp_status := 403;
                 rp_body := ErrorBody "Not authorized to handoff this task" |},
       world_with demo_restricted)
  ∧ handoff_POST demo_env (λ _ _ _, Return tt) demo_server
      demo_now demo_now demo_now demo_now
      (demo_handoff_request "token-b" "agent-b") empty_world
    = (Return {| rp_status := 404; rp_body := ErrorBody "Task not found" |},
       empty_world).
Proof.
  split; [reflexivity|]. split.
  - destruct (handoff_route_refusals demo_env (λ _ _ _, Return tt)
                demo_server demo_now demo_now demo_now demo_now
                (demo_handoff_request "token-b" "agent-b") demo_store
                (world_with demo_restricted) eq_refl eq_refl eq_refl)
      as (_ & Hforbidden).
    apply (Hforbidden demo_restricted); [vm_compute; reflexivity| |reflexivity].
    intros holder Hholder. vm_compute in Hholder. injection Hholder as <-.
    split; discriminate.
  - destruct (handoff_route_refusals demo_env (λ _ _ _, Return tt)
                demo_server demo_now demo_now demo_now demo_now
                (demo_handoff_request "token-b" "agent-b") demo_store
                empty_world eq_refl eq_refl eq_refl)
      as (Hmissing & _).
    apply Hmissing. reflexivity.
Defined.

Lemma createAndStartTask_returns_witness :
  ∃ task result w',
    createAndStartTask demo_env_handing_off (λ _, Return 7)
      (demo_start_options true) empty_world
    = (Return (task, result), w')
    ∧ ts_id task = demo_id
    ∧ ts_title task = "Add dark mode"
    ∧ gh_issueNumber (ts_github task) = Some 7.
Proof.
  destruct (createAndStartTask demo_env_handing_off (λ _, Return 7)
              (demo_start_options true) empty_world)
    as [[[task result]|e] w'] eqn:Hrun;
    [|vm_compute in Hrun; discriminate Hrun].
  destruct (createAndStartTask_returns demo_env_handing_off (λ _, Return 7)
              (demo_start_options true) task result empty_world w' Hrun)
    as (Hid & Htitle & _ & _ & _ & _ & Hissue).
  exists task, result, w'. split; [reflexivity|]. split; [exact Hid|].
  split; [exact Htitle|].
  cbn in Hissue. destruct Hissue as (created & issueNumber & Hanswer & _ & ->).
  by injection Hanswer as <-.
Defined.

Lemma createAndStartTask_issue_failure_witness :
  ∃ created w1,
    createTask demo_env demo_store
      {| ct_id := None; ct_title := "Add dark mode";
         ct_description := "Theme toggle in the settings page";
         ct_repo := "acme/app"; ct_branch := "main";
         ct_stateRepo := Some "acme/state";
         ct_agentId := "agent-a"; ct_userId := "alice" |} empty_world
    = (Return created, w1)
    ∧ createAndStartTask demo_env (λ _, Throw (JsError "tracker down"))
        (demo_start_options true) empty_world
      = (Throw (JsError "tracker down"), w1)
    ∧ getTask demo_env (ts_id created) w1 = (Return (Some created), w1)
    ∧ ts_status created = pending.
Proof.
  destruct (createTask demo_env demo_store
              {| ct_id := None; ct_title := "Add dark mode";
                 ct_description := "Theme toggle in the settings page";
                 ct_repo := "acme/app"; ct_branch := "main";
                 ct_stateRepo := Some "acme/state";
                 ct_agentId := "agent-a"; ct_userId := "alice" |} empty_world)
    as [[created|e] w1] eqn:Hcreate;
    [|vm_compute in Hcreate; discriminate Hcreate].
  destruct (createAndStartTask_issue_failure demo_env
              (λ _, Throw (JsError "tracker down")) (demo_start_options true)
              demo_store {| owner := "acme"; repo := "app" |}
              created (JsError "tracker down") empty_world w1
              eq_refl eq_refl eq_refl Hcreate eq_refl)
    as (Hrun & Hread & Hstatus & _).
  exists created, w1. split; [reflexivity|]. split; [exact Hrun|].
  split; [exact Hread|exact Hstatus].
Defined.

Lemma progress_tool_replaces_checkpoints_witness :
  getTask demo_env demo_id (world_with demo_worked)
  = (Return (Some demo_worked), world_with demo_worked)
  ∧ (cp_description <$> pg_checkpoints (ts_progress demo_worked))
    = ["Progress update: build"]
  ∧ ∃ task' w',
      tool_execute demo_env demo_id "s"
        (call_updateProgress "test" 80 ["add tests"] [])
        (world_with demo_worked)
      = (Return tt, w')
      ∧ w_files w' !! state_path demo_id = Some (TaskDoc task')
      ∧ (cp_description <$> pg_checkpoints (ts_progress task'))
        = ["Progress update: test"]
      ∧ pg_percentComplete (ts_progress task') = 80.
Proof.
  assert (getTask demo_env demo_id (world_with demo_worked)
          = (Return (Some demo_worked), world_with demo_worked)) as Hget
    by (vm_compute; reflexivity).
  split; [exact Hget|]. split; [reflexivity|].
  destruct (progress_tool_replaces_checkpoints demo_env demo_id "s" "test" 80
              ["add tests"] [] demo_worked (world_with demo_worked) Hget)
    as (task' & w' & Hrun & Hfile & Hprogress & _).
  exists task', w'. split; [exact Hrun|]. split; [exact Hfile|].
  rewrite Hprogress. split; reflexivity.
Defined.
